(** * Birdwatch back end: data clients and structured-output handlers

    A shallow embedding of the Python back end of the Birdwatch
    application: [app/tools/weather.py], [app/tools/ebird.py] and two
    handlers of [app/main.py].

    Conventions of the embedding.
    - Values decoded from JSON are terms of [json].  Python numbers are
      exact rationals ([Q]): the difference between [int] and [float],
      rounding error and the non-finite floats are outside the model.
    - Text is [string] over 8-bit characters: case folding is the one
      of the ASCII letters, white space is the one of the first 256
      code points.
    - A Python exception of class [Exception] is a value of [exn];
      a computation that may raise has type [exc A].
    - The HTTP client is a function [transport] from the outbound
      request to what the three steps [client.get],
      [response.raise_for_status] and [response.json] do; the requests
      sent are appended to a log. *)

From Stdlib Require Import ZArith QArith Qround Qabs List String Ascii Bool Lia.
From Stdlib Require Import Permutation Sorted DecimalString.
Import ListNotations.

Set Implicit Arguments.
Set Warnings "-register-all".
Open Scope string_scope.

(* ================================================================== *)
(** * Python values and run-time behaviour *)

Module Py.

Inductive json : Type :=
| JNull
| JBool (b : bool)
| JNum (q : Q)
| JStr (s : string)
| JArr (items : list json)
| JObj (fields : list (string * json)).

Inductive exn_class : Type :=
| TypeError | AttributeError | IndexError | KeyError | ValueError
| JSONDecodeError | TransportError | HTTPStatusError.

Record exn : Type := Exn { exn_cls : exn_class; exn_msg : string }.

Inductive exc (A : Type) : Type :=
| Return (a : A)
| Raise (e : exn).
Arguments Return {A} a.
Arguments Raise {A} e.

Definition ebind {A B : Type} (m : exc A) (k : A -> exc B) : exc B :=
  match m with
  | Return a => k a
  | Raise e => Raise e
  end.

Declare Scope exc_scope.
Delimit Scope exc_scope with exc.
Notation "x <- m ;; k" := (ebind m (fun x => k))
  (at level 61, m at next level, right associativity) : exc_scope.

(** [str(n)] for a natural number. *)
Definition decimal (n : nat) : string :=
  NilEmpty.string_of_uint (Nat.to_uint n).

(** [type(v).__name__], used in the messages of the run-time errors; a
    number is reported as a [float]. *)
Definition type_name (v : json) : string :=
  match v with
  | JNull => "NoneType"
  | JBool _ => "bool"
  | JNum _ => "float"
  | JStr _ => "str"
  | JArr _ => "list"
  | JObj _ => "dict"
  end.

(** Truth value of an object ([if v:], [v and w], [not v]). *)
Definition truthy (v : json) : bool :=
  match v with
  | JNull => false
  | JBool b => b
  | JNum q => negb (Qeq_bool q 0)
  | JStr s => negb (String.eqb s "")
  | JArr l => match l with [] => false | _ => true end
  | JObj d => match d with [] => false | _ => true end
  end.

(** Dictionary look-up; the first binding of a key is the live one. *)
Fixpoint dict_get (d : list (string * json)) (k : string) : option json :=
  match d with
  | [] => None
  | (k', v) :: d' => if String.eqb k' k then Some v else dict_get d' k
  end.

(** [v.get(k, default)]: only a [dict] has the method. *)
Definition py_get (v : json) (k : string) (default : json) : exc json :=
  match v with
  | JObj d => Return (match dict_get d k with Some x => x | None => default end)
  | _ => Raise (Exn AttributeError
                  ("'" ++ type_name v ++ "' object has no attribute 'get'"))
  end.

(** A slice bound [i] against a sequence of length [n]: negative bounds
    count from the end, and the result is clipped to [0, n]. *)
Definition slice_bound (n : nat) (i : Z) : nat :=
  if (i <? 0)%Z then Z.to_nat (Z.max 0 (Z.of_nat n + i))
  else Nat.min (Z.to_nat i) n.

(** [l[lo:hi]] on a list. *)
Definition slice_list {A : Type} (lo hi : Z) (l : list A) : list A :=
  let n := List.length l in
  skipn (slice_bound n lo) (firstn (slice_bound n hi) l).

(** [s[lo:hi]] on a string. *)
Definition slice_string (lo hi : Z) (s : string) : string :=
  let n := String.length s in
  let a := slice_bound n lo in
  let b := slice_bound n hi in
  substring a (b - a) s.

(** [v[lo:hi]]: lists and strings can be sliced, a [dict] cannot be
    indexed by a slice, the other values are not subscriptable. *)
Definition py_slice (lo hi : Z) (v : json) : exc json :=
  match v with
  | JArr l => Return (JArr (slice_list lo hi l))
  | JStr s => Return (JStr (slice_string lo hi s))
  | JObj _ => Raise (Exn TypeError "unhashable type: 'slice'")
  | _ => Raise (Exn TypeError
                  ("'" ++ type_name v ++ "' object is not subscriptable"))
  end.

(** [len(v)]. *)
Definition py_len (v : json) : exc nat :=
  match v with
  | JArr l => Return (List.length l)
  | JStr s => Return (String.length s)
  | JObj d => Return (List.length d)
  | _ => Raise (Exn TypeError
                  ("object of type '" ++ type_name v ++ "' has no len()"))
  end.

(** [v[i]] for an index [i >= 0].  The keys of a decoded [dict] are
    strings, so an integer key is never found. *)
Definition py_index (i : nat) (v : json) : exc json :=
  match v with
  | JArr l =>
      match nth_error l i with
      | Some x => Return x
      | None => Raise (Exn IndexError "list index out of range")
      end
  | JStr s =>
      match String.get i s with
      | Some c => Return (JStr (String c ""))
      | None => Raise (Exn IndexError "string index out of range")
      end
  | JObj _ => Raise (Exn KeyError (decimal i))
  | _ => Raise (Exn TypeError
                  ("'" ++ type_name v ++ "' object is not subscriptable"))
  end.

Definition chars (s : string) : list json :=
  map (fun c => JStr (String c "")) (list_ascii_of_string s).

(** The items a [for] loop or a comprehension receives from [v]:
    the elements of a list, the characters of a string, the keys of a
    [dict]. *)
Definition py_iter (v : json) : exc (list json) :=
  match v with
  | JArr l => Return l
  | JStr s => Return (chars s)
  | JObj d => Return (map (fun kv => JStr (fst kv)) d)
  | _ => Raise (Exn TypeError
                  ("'" ++ type_name v ++ "' object is not iterable"))
  end.

(** The number a value stands for in arithmetic ([bool] is a subclass
    of [int]). *)
Definition as_number (v : json) : option Q :=
  match v with
  | JNum q => Some q
  | JBool true => Some 1
  | JBool false => Some 0
  | _ => None
  end.

(** [sum(l)], starting from the integer 0. *)
Fixpoint sum_from (acc : Q) (l : list json) : exc Q :=
  match l with
  | [] => Return acc
  | v :: l' =>
      match as_number v with
      | Some q => sum_from (acc + q) l'
      | None => Raise (Exn TypeError
          ("unsupported operand type(s) for +: 'int' and '"
             ++ type_name v ++ "'"))
      end
  end.

Definition py_sum (l : list json) : exc Q := sum_from 0 l.

(** [round(q, 1)] on an exact rational: nearest tenth, ties to the even
    digit. *)
Definition round_half_even (q : Q) : Z :=
  let n := Qfloor q in
  let r := q - inject_Z n in
  match Qcompare r (1 # 2) with
  | Lt => n
  | Gt => (n + 1)%Z
  | Eq => if Z.even n then n else (n + 1)%Z
  end.

Definition round1 (q : Q) : Q := inject_Z (round_half_even (q * 10)) / 10.

(** [for x in l: body(x)] where the body appends one item to a list. *)
Fixpoint for_each {A B : Type} (f : A -> exc B) (l : list A) : exc (list B) :=
  match l with
  | [] => Return []
  | x :: l' =>
      (y <- f x ;;
       ys <- for_each f l' ;;
       Return (y :: ys))%exc
  end.

(** [[x for x in l if p(x)]] where the condition may raise. *)
Fixpoint filter_exc {A : Type} (p : A -> exc bool) (l : list A) : exc (list A) :=
  match l with
  | [] => Return []
  | x :: l' =>
      (b <- p x ;;
       xs <- filter_exc p l' ;;
       Return (if b then x :: xs else xs))%exc
  end.

(** What a tool hands to the agent: [Str_of a] is the text [str(a)] of a
    result, [Text s] is the literal text [s]. *)
Inductive tool_text (A : Type) : Type :=
| Str_of (a : A)
| Text (s : string).
Arguments Str_of {A} a.
Arguments Text {A} s.

(** [try: return str(body) except Exception as e: return f"{label}{e}"]. *)
Definition try_except {A : Type} (label : string) (body : exc A) : tool_text A :=
  match body with
  | Return a => Str_of a
  | Raise e => Text (label ++ exn_msg e)
  end.

(** ** The HTTP client *)

Inductive pval : Type :=
| PInt (z : Z)
| PNum (q : Q)
| PStr (s : string).

Record request : Type := Request {
  req_url : string;
  req_headers : list (string * string);
  req_params : list (string * pval)
}.

(** [httpx]'s response, as far as the tools use it. *)
Record response : Type := Response {
  raise_for_status : exc unit;
  json_body : exc json
}.

Definition transport : Type := request -> exc response.

(** Computations that talk to the network: they read the transport and
    extend the log of requests sent. *)
Definition io (A : Type) : Type :=
  transport -> list request -> list request * exc A.

Definition io_ret {A : Type} (a : A) : io A := fun _ log => (log, Return a).

Definition io_bind {A B : Type} (m : io A) (k : A -> io B) : io B :=
  fun net log =>
    match m net log with
    | (log', Return a) => k a net log'
    | (log', Raise e) => (log', Raise e)
    end.

Definition lift {A : Type} (m : exc A) : io A := fun _ log => (log, m).

Declare Scope io_scope.
Delimit Scope io_scope with io.
Notation "x <- m ;; k" := (io_bind m (fun x => k))
  (at level 61, m at next level, right associativity) : io_scope.

(** [client.get(url, headers=..., params=...)]. *)
Definition client_get (r : request) : io response :=
  fun net log => ((log ++ [r])%list, net r).

(** [response = client.get(...); response.raise_for_status();
    response.json()]. *)
Definition fetch_json (r : request) : io json :=
  (resp <- client_get r ;;
   _ <- lift (raise_for_status resp) ;;
   lift (json_body resp))%io.

(** A tool method: its body runs inside [try ... except Exception]. *)
Definition tool {A : Type} (label : string) (body : io A)
  : transport -> list request * tool_text A :=
  fun net =>
    let (log, r) := body net [] in (log, try_except label r).

End Py.

(* ================================================================== *)
(** * [app/tools/weather.py] *)

Module Weather.
Import Py.

Definition forecast_url : string := "https://api.open-meteo.com/v1/forecast".

(** [sum(xs) / len(xs) if xs else default], for [xs] the slice [[6:10]]
    of an hourly series. *)
Definition morning_average (default : Q) (xs : json) : exc Q :=
  if truthy xs then
    match xs with
    | JArr l => (s <- py_sum l ;; Return (s / inject_Z (Z.of_nat (List.length l))))%exc
    | _ => Raise (Exn TypeError
             ("unsupported operand type(s) for +: 'int' and 'str'"))
    end
  else Return default.

Definition wind_penalty (avg_wind : Q) : Z :=
  if Qlt_le_dec 30 avg_wind then 30
  else if Qlt_le_dec 20 avg_wind then 15
  else if Qlt_le_dec 10 avg_wind then 5
  else 0.

Definition precip_penalty (avg_precip : Q) : Z :=
  if Qlt_le_dec 70 avg_precip then 40
  else if Qlt_le_dec 40 avg_precip then 20
  else if Qlt_le_dec 20 avg_precip then 10
  else 0.

Definition cloud_penalty (avg_clouds : Q) : Z :=
  if Qlt_le_dec 90 avg_clouds then 10
  else if Qlt_le_dec avg_clouds 20 then 5
  else 0.

Definition temp_penalty (avg_temp : Q) : Z :=
  if Qlt_le_dec avg_temp 0 then 15
  else if Qlt_le_dec 35 avg_temp then 15
  else if Qlt_le_dec avg_temp 5 then 5
  else if Qlt_le_dec 30 avg_temp then 5
  else 0.

(** The variable [score] after the four penalty blocks. *)
Definition raw_score (avg_temp avg_wind avg_precip avg_clouds : Q) : Z :=
  100 - wind_penalty avg_wind - precip_penalty avg_precip
      - cloud_penalty avg_clouds - temp_penalty avg_temp.

Definition msg_wind : string :=
  "High winds - look for sheltered areas and woods".
Definition msg_rain : string :=
  "Rain likely - bring waterproof gear, birds may be less active".
Definition msg_clear : string :=
  "Clear skies - best viewing around dawn/dusk to avoid glare".
Definition msg_cool : string :=
  "Cool morning - birds may be active feeding early".
Definition msg_warm : string :=
  "Warm day - focus on early morning and late afternoon".
Definition msg_great : string := "Great conditions for birding!".

Definition when (b : bool) (s : string) : list string :=
  if b then [s] else [].

Definition gtb (x y : Q) : bool := if Qlt_le_dec y x then true else false.
Definition ltb (x y : Q) : bool := if Qlt_le_dec x y then true else false.

(** The list [recommendations] after the five [if] statements. *)
Definition recommendations_of (avg_temp avg_wind avg_precip avg_clouds : Q)
  : list string :=
  (when (gtb avg_wind 20) msg_wind
   ++ when (gtb avg_precip 40) msg_rain
   ++ when (ltb avg_clouds 20) msg_clear
   ++ when (ltb avg_temp 10) msg_cool
   ++ when (gtb avg_temp 25) msg_warm)%list.

Definition rating_of (score : Z) : string :=
  if (80 <=? score)%Z then "Excellent"
  else if (60 <=? score)%Z then "Good"
  else if (40 <=? score)%Z then "Fair"
  else "Poor".

(** [daily.get(key, [default])[0] if daily.get(key) else default]. *)
Definition first_or (daily : json) (key default : string) : exc json :=
  (probe <- py_get daily key JNull ;;
   if truthy probe then
     (v <- py_get daily key (JArr [JStr default]) ;; py_index 0 v)
   else Return (JStr default))%exc.

Record conditions : Type := Conditions {
  temperature_c : Q;
  wind_speed_kmh : Q;
  precipitation_chance : Q;
  cloud_cover_percent : Q
}.

(** The dictionary whose [str] the tool returns.  An entry
    [(label, v)] of [best_times] stands for the text [f"{label}{v}"]. *)
Record birding_report : Type := Report {
  score : Z;
  rating : string;
  report_conditions : conditions;
  sunrise : json;
  sunset : json;
  best_times : list (string * json);
  recommendations : list string
}.

Definition hourly_fields : string :=
  "temperature_2m,precipitation_probability,wind_speed_10m,cloud_cover,visibility".

Definition conditions_request (lat lng : Q) : request :=
  Request forecast_url []
    [("latitude", PNum lat); ("longitude", PNum lng);
     ("hourly", PStr hourly_fields);
     ("daily", PStr "sunrise,sunset");
     ("timezone", PStr "auto");
     ("forecast_days", PInt 1)].

(** The four slices [[6:10]] and their averages, in the order
    temperature, wind, precipitation, clouds. *)
Definition morning_averages (hourly : json) : exc (Q * Q * Q * Q) :=
  (t <- py_get hourly "temperature_2m" (JArr []) ;;
   morning_temps <- py_slice 6 10 t ;;
   w <- py_get hourly "wind_speed_10m" (JArr []) ;;
   morning_wind <- py_slice 6 10 w ;;
   p <- py_get hourly "precipitation_probability" (JArr []) ;;
   morning_precip <- py_slice 6 10 p ;;
   c <- py_get hourly "cloud_cover" (JArr []) ;;
   morning_clouds <- py_slice 6 10 c ;;
   avg_temp <- morning_average 15 morning_temps ;;
   avg_wind <- morning_average 10 morning_wind ;;
   avg_precip <- morning_average 0 morning_precip ;;
   avg_clouds <- morning_average 50 morning_clouds ;;
   Return (avg_temp, avg_wind, avg_precip, avg_clouds))%exc.

(** From the averages to the dictionary returned: score, rating,
    recommendations, sunrise and sunset. *)
Definition report_of (avg_temp avg_wind avg_precip avg_clouds : Q)
    (daily : json) : exc birding_report :=
  (let score := raw_score avg_temp avg_wind avg_precip avg_clouds in
   let recs := recommendations_of avg_temp avg_wind avg_precip avg_clouds in
   let rating := rating_of score in
   sunrise <- first_or daily "sunrise" "06:00" ;;
   sunset <- first_or daily "sunset" "18:00" ;;
   Return
     {| score := Z.max 0 (Z.min 100 score);
        rating := rating;
        report_conditions :=
          {| temperature_c := round1 avg_temp;
             wind_speed_kmh := round1 avg_wind;
             precipitation_chance := round1 avg_precip;
             cloud_cover_percent := round1 avg_clouds |};
        sunrise := sunrise;
        sunset := sunset;
        best_times := [("Dawn chorus: ", sunrise); ("Golden hour: ", sunset)];
        recommendations :=
          match recs with [] => [msg_great] | _ => recs end |})%exc.

(** The part of [get_birding_conditions] after [data = response.json()]. *)
Definition analyze (data : json) : exc birding_report :=
  (hourly <- py_get data "hourly" (JObj []) ;;
   daily <- py_get data "daily" (JObj []) ;;
   avgs <- morning_averages hourly ;;
   let '(avg_temp, avg_wind, avg_precip, avg_clouds) := avgs in
   report_of avg_temp avg_wind avg_precip avg_clouds daily)%exc.

Definition get_birding_conditions_body (lat lng : Q) : io birding_report :=
  (data <- fetch_json (conditions_request lat lng) ;;
   lift (analyze data))%io.

Definition get_birding_conditions (lat lng : Q)
  : transport -> list request * tool_text birding_report :=
  tool "Error analyzing birding conditions: "
       (get_birding_conditions_body lat lng).

(** ** [get_weather_forecast] *)

Definition forecast_request (lat lng : Q) : request :=
  Request forecast_url []
    [("latitude", PNum lat); ("longitude", PNum lng);
     ("hourly", PStr hourly_fields);
     ("daily", PStr "sunrise,sunset,precipitation_sum,wind_speed_10m_max");
     ("timezone", PStr "auto");
     ("forecast_days", PInt 7)].

(** [hourly.get(key, [default])[0]]. *)
Definition first_sample (hourly : json) (key : string) (default : json)
  : exc json :=
  (v <- py_get hourly key (JArr [default]) ;; py_index 0 v)%exc.

(** [daily.get(key, [])[i] if i < len(daily.get(key, [])) else default]. *)
Definition nth_or (daily : json) (key : string) (i : nat) (default : json)
  : exc json :=
  (probe <- py_get daily key (JArr []) ;;
   n <- py_len probe ;;
   if (i <? n)%nat then (v <- py_get daily key (JArr []) ;; py_index i v)
   else Return default)%exc.

Definition forecast_day (daily : json) (i : nat) : exc json :=
  (date <- nth_or daily "time" i JNull ;;
   rise <- nth_or daily "sunrise" i JNull ;;
   set <- nth_or daily "sunset" i JNull ;;
   rain <- nth_or daily "precipitation_sum" i (JNum 0) ;;
   wind <- nth_or daily "wind_speed_10m_max" i (JNum 0) ;;
   Return (JObj [("date", date); ("sunrise", rise); ("sunset", set);
                 ("precipitation_mm", rain); ("max_wind_kmh", wind)]))%exc.

(** The part of [get_weather_forecast] after [data = response.json()]. *)
Definition summarize (data : json) : exc json :=
  (hourly <- py_get data "hourly" (JObj []) ;;
   daily <- py_get data "daily" (JObj []) ;;
   temp <- first_sample hourly "temperature_2m" JNull ;;
   precip <- first_sample hourly "precipitation_probability" (JNum 0) ;;
   wind <- first_sample hourly "wind_speed_10m" (JNum 0) ;;
   clouds <- first_sample hourly "cloud_cover" (JNum 0) ;;
   vis <- first_sample hourly "visibility" (JNum 0) ;;
   let current := JObj [("temperature_c", temp);
                        ("precipitation_probability", precip);
                        ("wind_speed_kmh", wind);
                        ("cloud_cover_percent", clouds);
                        ("visibility_m", vis)] in
   times <- py_get daily "time" (JArr []) ;;
   n <- py_len times ;;
   forecast_days <- for_each (forecast_day daily) (seq 0 (Nat.min 7 n)) ;;
   tz <- py_get data "timezone" (JStr "Unknown") ;;
   Return (JObj [("current", current);
                 ("forecast", JArr forecast_days);
                 ("timezone", tz)]))%exc.

Definition get_weather_forecast_body (lat lng : Q) : io json :=
  (data <- fetch_json (forecast_request lat lng) ;;
   lift (summarize data))%io.

Definition get_weather_forecast (lat lng : Q)
  : transport -> list request * tool_text json :=
  tool "Error fetching weather: " (get_weather_forecast_body lat lng).

End Weather.

(* ================================================================== *)
(** * [app/tools/ebird.py] *)

Module EBird.
Import Py.

(** The two settings the toolkit reads ([app/config.py]). *)
Record Settings : Type := {
  ebird_api_key : string;
  ebird_base_url : string
}.

Record EBirdTools : Type := {
  base_url : string;
  headers : list (string * string)
}.

(** [EBirdTools.__init__]. *)
Definition init (settings : Settings) : EBirdTools :=
  {| base_url := ebird_base_url settings;
     headers := [("X-eBirdApiToken", ebird_api_key settings)] |}.

(** A dictionary display [{out: src.get(key, default), ...}]: one
    triple [(out, key, default)] per entry, evaluated in order. *)
Definition project (src : json) (entries : list (string * string * json))
  : exc (list (string * json)) :=
  for_each (fun e : string * string * json =>
              let '(out, key, default) := e in
              (v <- py_get src key default ;; Return (out, v))%exc)
           entries.

Definition observation_entries : list (string * string * json) :=
  [("species", "comName", JStr "Unknown");
   ("scientific_name", "sciName", JStr "");
   ("location", "locName", JStr "Unknown location");
   ("date", "obsDt", JStr "");
   ("count", "howMany", JStr "X");
   ("lat", "lat", JNull);
   ("lng", "lng", JNull)].

(** ** [get_recent_observations] *)

Definition recent_request (self : EBirdTools) (region_code : string)
    (back_days max_results : Z) : request :=
  Request (base_url self ++ "/data/obs/" ++ region_code ++ "/recent")
          (headers self)
          [("back", PInt (Z.min back_days 30)); ("maxResults", PInt max_results)].

Definition get_recent_observations_body (self : EBirdTools)
    (region_code : string) (back_days max_results : Z) : io (list json) :=
  (observations <- fetch_json (recent_request self region_code back_days max_results) ;;
   lift (items <- py_iter observations ;;
         for_each (fun obs => d <- project obs observation_entries ;;
                              Return (JObj d)) items)%exc)%io.

Definition get_recent_observations (self : EBirdTools)
    (region_code : string) (back_days max_results : Z) :=
  tool "Error fetching observations: "
       (get_recent_observations_body self region_code back_days max_results).

(** ** [get_notable_observations] *)

Definition notable_entries : list (string * string * json) :=
  (observation_entries ++
   [("is_reviewed", "obsReviewed", JBool false);
    ("is_valid", "obsValid", JBool false)])%list.

Definition notable_request (self : EBirdTools) (region_code : string)
    (back_days max_results : Z) : request :=
  Request (base_url self ++ "/data/obs/" ++ region_code ++ "/recent/notable")
          (headers self)
          [("back", PInt (Z.min back_days 30)); ("maxResults", PInt max_results)].

Definition get_notable_observations_body (self : EBirdTools)
    (region_code : string) (back_days max_results : Z) : io (list json) :=
  (observations <- fetch_json (notable_request self region_code back_days max_results) ;;
   lift (items <- py_iter observations ;;
         for_each (fun obs => d <- project obs notable_entries ;;
                              Return (JObj d)) items)%exc)%io.

Definition get_notable_observations (self : EBirdTools)
    (region_code : string) (back_days max_results : Z) :=
  tool "Error fetching notable observations: "
       (get_notable_observations_body self region_code back_days max_results).

(** ** [get_nearby_hotspots] *)

Definition hotspot_entries : list (string * string * json) :=
  [("name", "locName", JStr "Unknown");
   ("hotspot_id", "locId", JStr "");
   ("lat", "lat", JNull);
   ("lng", "lng", JNull);
   ("country", "countryCode", JStr "");
   ("region", "subnational1Code", JStr "");
   ("species_count", "numSpeciesAllTime", JNum 0);
   ("latest_observation", "latestObsDt", JStr "")].

Definition hotspots_request (self : EBirdTools) (lat lng : Q)
    (distance_km : Z) : request :=
  Request (base_url self ++ "/ref/hotspot/geo")
          (headers self)
          [("lat", PNum lat); ("lng", PNum lng);
           ("dist", PInt (Z.min distance_km 50)); ("fmt", PStr "json")].

Definition get_nearby_hotspots_body (self : EBirdTools) (lat lng : Q)
    (distance_km max_results : Z) : io (list json) :=
  (body <- fetch_json (hotspots_request self lat lng distance_km) ;;
   lift (hotspots <- py_slice 0 max_results body ;;
         items <- py_iter hotspots ;;
         for_each (fun hs => d <- project hs hotspot_entries ;;
                             Return (JObj d)) items)%exc)%io.

Definition get_nearby_hotspots (self : EBirdTools) (lat lng : Q)
    (distance_km max_results : Z) :=
  tool "Error fetching hotspots: "
       (get_nearby_hotspots_body self lat lng distance_km max_results).

(** ** [get_species_observations] *)

Definition species_entries : list (string * string * json) :=
  [("species", "comName", JStr "Unknown");
   ("location", "locName", JStr "Unknown location");
   ("date", "obsDt", JStr "");
   ("count", "howMany", JStr "X");
   ("lat", "lat", JNull);
   ("lng", "lng", JNull)].

Definition species_request (self : EBirdTools) (species_code region_code : string)
    (back_days max_results : Z) : request :=
  Request (base_url self ++ "/data/obs/" ++ region_code ++ "/recent/" ++ species_code)
          (headers self)
          [("back", PInt (Z.min back_days 30)); ("maxResults", PInt max_results)].

Definition get_species_observations_body (self : EBirdTools)
    (species_code region_code : string) (back_days max_results : Z)
  : io (list json) :=
  (observations <-
     fetch_json (species_request self species_code region_code back_days max_results) ;;
   lift (items <- py_iter observations ;;
         for_each (fun obs => d <- project obs species_entries ;;
                              Return (JObj d)) items)%exc)%io.

Definition get_species_observations (self : EBirdTools)
    (species_code region_code : string) (back_days max_results : Z) :=
  tool "Error fetching species observations: "
       (get_species_observations_body self species_code region_code
                                      back_days max_results).

(** ** [get_region_info] and [get_hotspot_info] *)

Definition region_request (self : EBirdTools) (region_code : string) : request :=
  Request (base_url self ++ "/ref/region/info/" ++ region_code) (headers self) [].

Definition get_region_info_body (self : EBirdTools) (region_code : string)
  : io json :=
  (info <- fetch_json (region_request self region_code) ;;
   lift (name <- py_get info "result" (JStr "Unknown") ;;
         bounds <- py_get info "bounds" (JObj []) ;;
         Return (JObj [("name", name);
                       ("region_code", JStr region_code);
                       ("bounds", bounds)]))%exc)%io.

Definition get_region_info (self : EBirdTools) (region_code : string) :=
  tool "Error fetching region info: " (get_region_info_body self region_code).

Definition hotspot_info_request (self : EBirdTools) (hotspot_id : string)
  : request :=
  Request (base_url self ++ "/ref/hotspot/info/" ++ hotspot_id) (headers self) [].

Definition get_hotspot_info_body (self : EBirdTools) (hotspot_id : string)
  : io json :=
  (info <- fetch_json (hotspot_info_request self hotspot_id) ;;
   lift (name <- py_get info "name" (JStr "Unknown") ;;
         la <- py_get info "latitude" JNull ;;
         lo <- py_get info "longitude" JNull ;;
         country <- py_get info "countryCode" (JStr "") ;;
         region <- py_get info "subnational1Code" (JStr "") ;;
         n <- py_get info "numSpeciesAllTime" (JNum 0) ;;
         Return (JObj [("name", name);
                       ("hotspot_id", JStr hotspot_id);
                       ("lat", la);
                       ("lng", lo);
                       ("country", country);
                       ("region", region);
                       ("species_count", n)]))%exc)%io.

Definition get_hotspot_info (self : EBirdTools) (hotspot_id : string) :=
  tool "Error fetching hotspot info: " (get_hotspot_info_body self hotspot_id).

(** ** [get_taxonomy] *)

(** [c.lower()] for one character. *)
Definition lower_ascii (c : ascii) : ascii :=
  let n := nat_of_ascii c in
  if (65 <=? n)%nat && (n <=? 90)%nat then ascii_of_nat (n + 32) else c.

(** [s.lower()]. *)
Fixpoint lower (s : string) : string :=
  match s with
  | EmptyString => EmptyString
  | String c s' => String (lower_ascii c) (lower s')
  end.

(** [v.lower()]: only a [str] has the method. *)
Definition py_lower (v : json) : exc string :=
  match v with
  | JStr s => Return (lower s)
  | _ => Raise (Exn AttributeError
                  ("'" ++ type_name v ++ "' object has no attribute 'lower'"))
  end.

(** [p in s] for two strings. *)
Fixpoint contains (p s : string) : bool :=
  prefix p s ||
  match s with
  | EmptyString => false
  | String _ s' => contains p s'
  end.

(** The condition of the comprehension:
    [search_lower in t.get("comName", "").lower()
     or search_lower in t.get("sciName", "").lower()]. *)
Definition name_matches (search_lower : string) (t : json) : exc bool :=
  (c <- py_get t "comName" (JStr "") ;;
   cl <- py_lower c ;;
   if contains search_lower cl then Return true
   else
     s <- py_get t "sciName" (JStr "") ;;
     sl <- py_lower s ;;
     Return (contains search_lower sl))%exc.

Definition taxonomy_entries : list (string * string * json) :=
  [("common_name", "comName", JStr "");
   ("scientific_name", "sciName", JStr "");
   ("species_code", "speciesCode", JStr "");
   ("category", "category", JStr "");
   ("order", "order", JStr "");
   ("family", "familyComName", JStr "");
   ("family_scientific", "familySciName", JStr "")].

(** Truth value of an optional string argument. *)
Definition given (s : option string) : bool :=
  match s with
  | Some x => negb (String.eqb x "")
  | None => false
  end.

Definition taxonomy_request (self : EBirdTools) (species_codes : option string)
  : request :=
  Request (base_url self ++ "/ref/taxonomy/ebird")
          (headers self)
          (("fmt", PStr "json") ::
           match species_codes with
           | Some codes => if given species_codes then [("species", PStr codes)] else []
           | None => []
           end).

(** The statement [if search_query: taxonomy = [...][:20]]. *)
Definition filter_taxonomy (search_query : option string) (taxonomy : json)
  : exc json :=
  match search_query with
  | Some q =>
      if given search_query then
        (let search_lower := lower q in
         items <- py_iter taxonomy ;;
         hits <- filter_exc (name_matches search_lower) items ;;
         Return (JArr (slice_list 0 20 hits)))%exc
      else Return taxonomy
  | None => Return taxonomy
  end.

Definition format_taxonomy (taxonomy : json) : exc (list json) :=
  (head <- py_slice 0 50 taxonomy ;;
   items <- py_iter head ;;
   for_each (fun t => d <- project t taxonomy_entries ;; Return (JObj d)) items)%exc.

Definition get_taxonomy_body (self : EBirdTools)
    (species_codes search_query : option string) : io (list json) :=
  (taxonomy <- fetch_json (taxonomy_request self species_codes) ;;
   lift (filtered <- filter_taxonomy search_query taxonomy ;;
         format_taxonomy filtered)%exc)%io.

Definition get_taxonomy (self : EBirdTools)
    (species_codes search_query : option string) :=
  tool "Error fetching taxonomy: "
       (get_taxonomy_body self species_codes search_query).

(** ** [get_rare_birds_nearby] *)

(** [v - q] for a number [q]. *)
Definition py_sub (v : json) (q : Q) : exc Q :=
  match as_number v with
  | Some x => Return (x - q)
  | None => Raise (Exn TypeError
      ("unsupported operand type(s) for -: '" ++ type_name v ++ "' and 'float'"))
  end.

(** Insertion of a keyed item in front of the first item whose key is
    not smaller. *)
Fixpoint insert_by {A : Type} (kx : Q * A) (l : list (Q * A)) : list (Q * A) :=
  match l with
  | [] => [kx]
  | ky :: l' =>
      if Qlt_le_dec (fst ky) (fst kx) then ky :: insert_by kx l'
      else kx :: l
  end.

(** A stable sort on keyed items; [list.sort] is stable, and a stable
    sort is determined by its input. *)
Fixpoint stable_sort {A : Type} (l : list (Q * A)) : list (Q * A) :=
  match l with
  | [] => []
  | kx :: l' => insert_by kx (stable_sort l')
  end.

(** [l.sort(key=key)]: the keys are computed first, then compared.
    The keys this program produces are numbers; a key that is not a
    number is reported as the [TypeError] of a failed comparison. *)
Definition keyed (key : json -> exc json) (x : json) : exc (Q * json) :=
  (k <- key x ;;
   match as_number k with
   | Some q => Return (q, x)
   | None => Raise (Exn TypeError
       ("'<' not supported between instances of '" ++ type_name k
          ++ "' and '" ++ type_name k ++ "'"))
   end)%exc.

Definition py_sort (key : json -> exc json) (l : list json) : exc (list json) :=
  (ks <- for_each (keyed key) l ;;
   Return (map snd (stable_sort ks)))%exc.

(** The key of the sort: [lambda x: x.get("distance_km", 999)]. *)
Definition distance_key (x : json) : exc json :=
  py_get x "distance_km" (JNum 999).

Definition rare_request (self : EBirdTools) (lat lng : Q)
    (distance_km back_days : Z) : request :=
  Request (base_url self ++ "/data/obs/geo/recent/notable")
          (headers self)
          [("lat", PNum lat); ("lng", PNum lng);
           ("dist", PInt (Z.min distance_km 50));
           ("back", PInt (Z.min back_days 30))].

Section RareBirds.

(** The floating-point square root [x ** 0.5]. *)
Variable fsqrt : Q -> Q.

(** [round(((obs.get("lat", lat) - lat) ** 2
            + (obs.get("lng", lng) - lng) ** 2) ** 0.5 * 111, 1)]. *)
Definition planar_distance (lat lng : Q) (obs : json) : exc Q :=
  (a <- py_get obs "lat" (JNum lat) ;;
   dx <- py_sub a lat ;;
   b <- py_get obs "lng" (JNum lng) ;;
   dy <- py_sub b lng ;;
   Return (round1 (fsqrt (dx ^ 2 + dy ^ 2) * 111)))%exc.

Definition annotate (lat lng : Q) (obs : json) : exc json :=
  (d <- project obs observation_entries ;;
   dist <- planar_distance lat lng obs ;;
   Return (JObj (d ++ [("distance_km", JNum dist)])%list))%exc.

Definition rank (lat lng : Q) (observations : json) : exc (list json) :=
  (items <- py_iter observations ;;
   results <- for_each (annotate lat lng) items ;;
   py_sort distance_key results)%exc.

Definition get_rare_birds_nearby_body (self : EBirdTools) (lat lng : Q)
    (distance_km back_days : Z) : io (list json) :=
  (observations <- fetch_json (rare_request self lat lng distance_km back_days) ;;
   lift (rank lat lng observations))%io.

Definition get_rare_birds_nearby (self : EBirdTools) (lat lng : Q)
    (distance_km back_days : Z) :=
  tool "Error fetching rare birds: "
       (get_rare_birds_nearby_body self lat lng distance_km back_days).

End RareBirds.

End EBird.

(* ================================================================== *)
(** * The standard library pieces the handlers call:
      [str.strip], [json.loads] and the two [re.search] patterns *)

Module Text.
Import Py.

Definition dquote : ascii := ascii_of_nat 34.
Definition backslash : ascii := ascii_of_nat 92.

(** [c.isspace()], which is also the class [\s] of [re] on [str]. *)
Definition is_space (c : ascii) : bool :=
  let n := nat_of_ascii c in
  ((9 <=? n) && (n <=? 13) || (28 <=? n) && (n <=? 32)
   || (n =? 133) || (n =? 160))%nat.

Fixpoint lstrip (s : string) : string :=
  match s with
  | EmptyString => EmptyString
  | String c s' => if is_space c then lstrip s' else s
  end.

Fixpoint rstrip (s : string) : string :=
  match s with
  | EmptyString => EmptyString
  | String c s' =>
      match rstrip s' with
      | EmptyString => if is_space c then EmptyString else String c EmptyString
      | t => String c t
      end
  end.

(** [s.strip()]. *)
Definition strip (s : string) : string := rstrip (lstrip s).

(** [v.strip()]: only a [str] has the method. *)
Definition py_strip (v : json) : exc string :=
  match v with
  | JStr s => Return (strip s)
  | _ => Raise (Exn AttributeError
                  ("'" ++ type_name v ++ "' object has no attribute 'strip'"))
  end.

(** [s[n:]]. *)
Fixpoint drop (n : nat) (s : string) : string :=
  match n, s with
  | O, _ => s
  | S n', String _ s' => drop n' s'
  | S _, EmptyString => EmptyString
  end.

(** ** [re.search(r'\{[\s\S]*\}', text)]

    The match starts at the first opening brace and, the star being
    greedy, ends at the last closing brace after it. *)

Fixpoint from_open (s : string) : option string :=
  match s with
  | EmptyString => None
  | String c s' => if Ascii.eqb c "{" then Some s else from_open s'
  end.

Fixpoint to_last_close (s : string) : option string :=
  match s with
  | EmptyString => None
  | String c s' =>
      match to_last_close s' with
      | Some p => Some (String c p)
      | None => if Ascii.eqb c "}" then Some (String c EmptyString) else None
      end
  end.

(** [json_match.group()], or [None] when there is no match. *)
Definition brace_search (text : string) : option string :=
  match from_open text with
  | Some s => to_last_close s
  | None => None
  end.

(** ** [re.search(r'```(?:json)?\s*([\s\S]*?)\s*```', text)]

    The match starts at the first fence; the optional word and the
    white space after it are taken greedily; the group, being lazy,
    ends where the white space in front of the next fence begins. *)

Definition fence : string := "```".

Fixpoint after_fence (s : string) : option string :=
  if prefix fence s then Some (drop 3 s)
  else match s with
       | EmptyString => None
       | String _ s' => after_fence s'
       end.

Fixpoint before_fence (s : string) : option string :=
  if prefix fence s then Some EmptyString
  else match s with
       | EmptyString => None
       | String c s' => option_map (String c) (before_fence s')
       end.

(** [json_match.group(1)], or [None] when there is no match. *)
Definition fence_search (text : string) : option string :=
  match after_fence text with
  | Some r =>
      let r1 := if prefix "json" r then drop 4 r else r in
      option_map rstrip (before_fence (lstrip r1))
  | None => None
  end.

(** ** [json.loads]

    The decoder of the standard library on 8-bit text: an escape
    [\uXXXX] above 255 and the constants [NaN] and [Infinity] have no
    counterpart in [json] and are not decoded.  Every failure is a
    [JSONDecodeError]; its message is not modelled in detail. *)

Definition json_space (c : ascii) : bool :=
  let n := nat_of_ascii c in
  ((n =? 32) || (n =? 9) || (n =? 10) || (n =? 13))%nat.

Fixpoint skip_ws (s : string) : string :=
  match s with
  | EmptyString => EmptyString
  | String c s' => if json_space c then skip_ws s' else s
  end.

Definition digit_val (c : ascii) : option Z :=
  let n := nat_of_ascii c in
  if ((48 <=? n) && (n <=? 57))%nat then Some (Z.of_nat (n - 48)) else None.

Definition hex_val (c : ascii) : option nat :=
  let n := nat_of_ascii c in
  if ((48 <=? n) && (n <=? 57))%nat then Some (n - 48)%nat
  else if ((65 <=? n) && (n <=? 70))%nat then Some (n - 55)%nat
  else if ((97 <=? n) && (n <=? 102))%nat then Some (n - 87)%nat
  else None.

(** The digits at the head of [s]: their value after [acc], their
    number after [n], and the rest of the text. *)
Fixpoint take_digits (s : string) (acc : Z) (n : nat) : Z * nat * string :=
  match s with
  | EmptyString => (acc, n, s)
  | String c s' =>
      match digit_val c with
      | Some d => take_digits s' (acc * 10 + d) (S n)
      | None => (acc, n, s)
      end
  end.

Definition pow10 (n : nat) : Q := inject_Z (10 ^ Z.of_nat n).

(** The rest of [s] after the character [c], when [s] starts with it. *)
Definition eat (c : ascii) (s : string) : option string :=
  match s with
  | EmptyString => None
  | String a r => if Ascii.eqb a c then Some r else None
  end.

(** The optional fraction: a point and one digit at least. *)
Definition take_frac (s : string) : Q * string :=
  match eat "." s with
  | Some s' =>
      let '(v, n, rest) := take_digits s' 0 0 in
      match n with
      | O => (0, s)
      | _ => (inject_Z v / pow10 n, rest)
      end
  | None => (0, s)
  end.

(** The sign of an exponent. *)
Definition take_sign (s : string) : bool * string :=
  match eat "-" s with
  | Some r => (true, r)
  | None =>
      match eat "+" s with
      | Some r => (false, r)
      | None => (false, s)
      end
  end.

(** The optional exponent, as a factor: an [e], a sign or none, and one
    digit at least. *)
Definition take_exp (s : string) : Q * string :=
  match s with
  | String c s' =>
      if Ascii.eqb c "e" || Ascii.eqb c "E" then
        let '(neg, s1) := take_sign s' in
        let '(v, n, rest) := take_digits s1 0 0 in
        match n with
        | O => (1, s)
        | _ => (if neg then / pow10 (Z.to_nat v) else pow10 (Z.to_nat v), rest)
        end
      else (1, s)
  | EmptyString => (1, s)
  end.

(** The integer part: a zero, or digits that start with no zero. *)
Definition take_int (s : string) : option (Z * string) :=
  match eat "0" s with
  | Some r => Some (0%Z, r)
  | None =>
      match s with
      | String c _ =>
          match digit_val c with
          | Some _ => let '(v, _, rest) := take_digits s 0 0 in Some (v, rest)
          | None => None
          end
      | EmptyString => None
      end
  end.

(** A number: an optional sign, an integer part, an optional fraction,
    an optional exponent. *)
Definition parse_number (s : string) : option (Q * string) :=
  let '(neg, s1) :=
    match eat "-" s with
    | Some r => (true, r)
    | None => (false, s)
    end in
  match take_int s1 with
  | Some (v, r) =>
      let '(f, r1) := take_frac r in
      let '(e, r2) := take_exp r1 in
      let m := (inject_Z v + f) * e in
      Some (if neg then - m else m, r2)
  | None => None
  end.

Definition unescape (c : ascii) : option ascii :=
  if Ascii.eqb c dquote then Some dquote
  else if Ascii.eqb c backslash then Some backslash
  else if Ascii.eqb c "/" then Some "/"%char
  else if Ascii.eqb c "b" then Some (ascii_of_nat 8)
  else if Ascii.eqb c "f" then Some (ascii_of_nat 12)
  else if Ascii.eqb c "n" then Some (ascii_of_nat 10)
  else if Ascii.eqb c "r" then Some (ascii_of_nat 13)
  else if Ascii.eqb c "t" then Some (ascii_of_nat 9)
  else None.

Definition hex4 (a b c d : ascii) : option nat :=
  match hex_val a, hex_val b, hex_val c, hex_val d with
  | Some x, Some y, Some z, Some w => Some (((x * 16 + y) * 16 + z) * 16 + w)%nat
  | _, _, _, _ => None
  end.

Definition cons_char (c : ascii) (r : option (string * string))
  : option (string * string) :=
  match r with
  | Some (s, rest) => Some (String c s, rest)
  | None => None
  end.

(** The characters of a string literal after its opening quote, and the
    text after its closing quote. *)
Fixpoint parse_chars (s : string) : option (string * string) :=
  match s with
  | EmptyString => None
  | String c s' =>
      if Ascii.eqb c dquote then Some (EmptyString, s')
      else if Ascii.eqb c backslash then
        match s' with
        | String e s'' =>
            if Ascii.eqb e "u" then
              match s'' with
              | String h1 (String h2 (String h3 (String h4 s3))) =>
                  match hex4 h1 h2 h3 h4 with
                  | Some code =>
                      if (code <? 256)%nat
                      then cons_char (ascii_of_nat code) (parse_chars s3)
                      else None
                  | None => None
                  end
              | _ => None
              end
            else
              match unescape e with
              | Some ch => cons_char ch (parse_chars s'')
              | None => None
              end
        | EmptyString => None
        end
      else if (nat_of_ascii c <? 32)%nat then None
      else cons_char c (parse_chars s')
  end.

(** [d[k] = v]. *)
Fixpoint dict_set (d : list (string * json)) (k : string) (v : json)
  : list (string * json) :=
  match d with
  | [] => [(k, v)]
  | (k', v') :: d' =>
      if String.eqb k' k then (k', v) :: d' else (k', v') :: dict_set d' k v
  end.

(** The recursive descent of the decoder.  The fuel bounds the depth
    of the calls; a value is decoded with a fuel of the number of
    characters it takes, whatever the text after it. *)
Fixpoint parse_value (fuel : nat) (s : string) : option (json * string) :=
  match fuel with
  | O => None
  | S fuel' =>
      match s with
      | EmptyString => None
      | String c r =>
          if Ascii.eqb c "{" then
            match eat "}" (skip_ws r) with
            | Some r' => Some (JObj [], r')
            | None => parse_members fuel' (skip_ws r) []
            end
          else if Ascii.eqb c "[" then
            match eat "]" (skip_ws r) with
            | Some r' => Some (JArr [], r')
            | None => parse_elements fuel' (skip_ws r) []
            end
          else if Ascii.eqb c dquote then
            match parse_chars r with
            | Some (str, r') => Some (JStr str, r')
            | None => None
            end
          else if prefix "null" s then Some (JNull, drop 4 s)
          else if prefix "true" s then Some (JBool true, drop 4 s)
          else if prefix "false" s then Some (JBool false, drop 5 s)
          else
            match parse_number s with
            | Some (q, r') => Some (JNum q, r')
            | None => None
            end
      end
  end
with parse_members (fuel : nat) (s : string) (acc : list (string * json))
  : option (json * string) :=
  match fuel with
  | O => None
  | S fuel' =>
      match eat dquote s with
      | Some r =>
          match parse_chars r with
          | Some (key, r1) =>
              match eat ":" (skip_ws r1) with
              | Some r2 =>
                  match parse_value fuel' (skip_ws r2) with
                  | Some (v, r3) =>
                      match skip_ws r3 with
                      | String c r4 =>
                          if Ascii.eqb c "," then
                            parse_members fuel' (skip_ws r4)
                                          (dict_set acc key v)
                          else if Ascii.eqb c "}" then
                            Some (JObj (dict_set acc key v), r4)
                          else None
                      | EmptyString => None
                      end
                  | None => None
                  end
              | None => None
              end
          | None => None
          end
      | None => None
      end
  end
with parse_elements (fuel : nat) (s : string) (acc : list json)
  : option (json * string) :=
  match fuel with
  | O => None
  | S fuel' =>
      match parse_value fuel' s with
      | Some (v, r) =>
          match skip_ws r with
          | String c r' =>
              if Ascii.eqb c "," then
                parse_elements fuel' (skip_ws r') (acc ++ [v])%list
              else if Ascii.eqb c "]" then Some (JArr (acc ++ [v])%list, r')
              else None
          | EmptyString => None
          end
      | None => None
      end
  end.

(** [json.loads(s)]: one value, white space around it, nothing else. *)
Definition json_loads (s : string) : exc json :=
  match parse_value (S (String.length s)) (skip_ws s) with
  | Some (v, rest) =>
      match skip_ws rest with
      | EmptyString => Return v
      | _ => Raise (Exn JSONDecodeError "Extra data")
      end
  | None => Raise (Exn JSONDecodeError "Expecting value")
  end.

End Text.

(* ================================================================== *)
(** * [app/main.py]: the agent cache and two structured-output handlers *)

Module Main.
Import Py Text.

(** [app/schemas.py] *)
Inductive AgentType : Type :=
| IDENTIFICATION | BEHAVIOR | LOCATION | JOURNAL | COACH
| COMMUNITY | TOURS | MIGRATION | LIFELIST | TEAM.

Definition AgentType_eqb (a b : AgentType) : bool :=
  match a, b with
  | IDENTIFICATION, IDENTIFICATION | BEHAVIOR, BEHAVIOR | LOCATION, LOCATION
  | JOURNAL, JOURNAL | COACH, COACH | COMMUNITY, COMMUNITY | TOURS, TOURS
  | MIGRATION, MIGRATION | LIFELIST, LIFELIST | TEAM, TEAM => true
  | _, _ => false
  end.

Record AreaBasedTargetsRequest : Type := {
  species : list string;
  lat : option Q;
  longitude : option Q;
  num_targets : Z
}.

(** The prompt handed to [agent.run].  Each constructor is one f-string
    of [main.py], given by the values interpolated into it; the fixed
    wording of the template is not reproduced. *)
Inductive prompt : Type :=
| ToursPrompt (location : string)
| AreaTargetsPrompt (species_list current_date : string)
                    (location_context : option (Q * Q)) (num_targets : Z).

(** What [agent.run] returns: an object with a [content] attribute, or
    some other object known by its [str]. *)
Inductive run_response : Type :=
| WithContent (content : json)
| Opaque (str_of : string).

(** The language model behind the agents. *)
Definition agent_env : Type := AgentType -> prompt -> exc run_response.

(** The module state: the keys of [_agents], whether [_team] is set,
    and the calls of [agent.run] made so far. *)
Record world : Type := World {
  agents : list AgentType;
  team : bool;
  runs : list (AgentType * prompt)
}.

Definition cached (t : AgentType) (w : world) : bool :=
  existsb (AgentType_eqb t) (agents w).

(** [get_agent]: creates the agent on first use; the agent is known by
    its type. *)
Definition get_agent (agent_type : AgentType) (w : world) : world * AgentType :=
  match agent_type with
  | TEAM => (World (agents w) true (runs w), TEAM)
  | _ =>
      if cached agent_type w then (w, agent_type)
      else (World (agents w ++ [agent_type])%list (team w) (runs w), agent_type)
  end.

(** [agent.run(prompt)]. *)
Definition agent_run (env : agent_env) (agent : AgentType) (p : prompt)
    (w : world) : world * exc run_response :=
  (World (agents w) (team w) (runs w ++ [(agent, p)])%list, env agent p).

Inductive http_result (A : Type) : Type :=
| Ok (body : A)
| HTTPException (status_code : Z) (detail : string).
Arguments Ok {A} body.
Arguments HTTPException {A} status_code detail.

(** [except Exception as e: raise HTTPException(500, f"Agent error: {e}")]
    around a body that returns on success. *)
Definition or_agent_error {A : Type} (body : exc A) : http_result A :=
  match body with
  | Return a => Ok a
  | Raise e => HTTPException 500 ("Agent error: " ++ exn_msg e)
  end.

(** [try: block except json.JSONDecodeError: handler]. *)
Definition except_decode {A : Type} (block : exc A) (handler : exc A) : exc A :=
  match block with
  | Raise (Exn JSONDecodeError _) => handler
  | other => other
  end.

(** [response.content if hasattr(response, 'content') else str(response)]. *)
Definition response_text_of (r : run_response) : json :=
  match r with
  | WithContent c => c
  | Opaque s => JStr s
  end.

(** The receiver of [response_text.strip()], which must be a [str]. *)
Definition as_text (v : json) : exc string :=
  match v with
  | JStr s => Return s
  | _ => Raise (Exn AttributeError
                  ("'" ++ type_name v ++ "' object has no attribute 'strip'"))
  end.

(** ** [find_birding_tours] *)

Record tour_card : Type := {
  title : string;
  tour_location : string;
  url : string;
  description : option string
}.

Record tours_reply : Type := {
  tours : list tour_card;
  reply_location : string;
  tours_agent : string
}.

Section Tours.

(** [str(v)] for a value that is not a [str]. *)
Variable py_repr : json -> string.

Definition py_str (v : json) : string :=
  match v with
  | JStr s => s
  | _ => py_repr v
  end.

Definition field (d : list (string * json)) (k : string) (default : json) : json :=
  match dict_get d k with Some x => x | None => default end.

(** The body of the loop over [tours[:10]]. *)
Definition clean_tour (t : json) : list tour_card :=
  match t with
  | JObj d =>
      if truthy (field d "title" JNull) && truthy (field d "url" JNull) then
        [ {| title := slice_string 0 200 (py_str (field d "title" (JStr "")));
             tour_location :=
               slice_string 0 200 (py_str (field d "location" (JStr "")));
             url := strip (py_str (field d "url" (JStr "")));
             description :=
               if truthy (field d "description" JNull)
               then Some (slice_string 0 300
                            (py_str (field d "description" (JStr ""))))
               else None |} ]
      else []
  | _ => []
  end.

Definition empty_tours (location : string) : tours_reply :=
  {| tours := []; reply_location := location;
     tours_agent := "Birding Tours Agent" |}.

(** The inner [try] block, entered when the pattern matched. *)
Definition decode_tours (location matched : string) : exc tours_reply :=
  (data <- json_loads matched ;;
   found <- py_get data "tours" (JArr []) ;;
   head <- py_slice 0 10 found ;;
   items <- py_iter head ;;
   Return {| tours := List.concat (map clean_tour items);
             reply_location := location;
             tours_agent := "Birding Tours Agent" |})%exc.

(** The outer [try] block after [agent.run] returned. *)
Definition extract_tours (location : string) (r : run_response)
  : exc tours_reply :=
  (raw <- as_text (response_text_of r) ;;
   let text := strip raw in
   match brace_search text with
   | Some matched =>
       except_decode (decode_tours location matched)
                     (Return (empty_tours location))
   | None => Return (empty_tours location)
   end)%exc.

Definition find_birding_tours (env : agent_env) (location : string)
    (w : world) : world * http_result tours_reply :=
  let (w1, agent) := get_agent TOURS w in
  let (w2, response) := agent_run env agent (ToursPrompt location) w1 in
  (w2, or_agent_error (r <- response ;; extract_tours location r)%exc).

End Tours.

(** ** [get_area_based_targets] *)

Record targets_reply : Type := {
  birds : json;
  recommendations : option string;
  species_analyzed : nat;
  date : string;
  targets_agent : string
}.

(** [", ".join(request.species[:30])], with the count of the species
    left out when there are more than 30. *)
Definition species_list_of (l : list string) : string :=
  let head := String.concat ", " (slice_list 0 30 l) in
  if (30 <? List.length l)%nat
  then head ++ " (and " ++ decimal (List.length l - 30) ++ " more)"
  else head.

Definition location_context_of (request : AreaBasedTargetsRequest)
  : option (Q * Q) :=
  match lat request, longitude request with
  | Some la, Some lo => Some (la, lo)
  | _, _ => None
  end.

Definition targets_prompt (request : AreaBasedTargetsRequest)
    (current_date : string) : prompt :=
  AreaTargetsPrompt (species_list_of (species request)) current_date
                    (location_context_of request) (num_targets request).

(** The text handed to [json.loads]: the group of the fenced block when
    the pattern matches, the stripped reply otherwise. *)
Definition unfenced (raw : string) : string :=
  let text := strip raw in
  match fence_search text with
  | Some group => strip group
  | None => text
  end.

(** The inner [try] block. *)
Definition decode_targets (request : AreaBasedTargetsRequest)
    (current_date text : string) : exc targets_reply :=
  (data <- json_loads text ;;
   found <- py_get data "birds" (JArr []) ;;
   head <- py_slice 0 (num_targets request) found ;;
   Return {| birds := head;
             recommendations := None;
             species_analyzed := List.length (species request);
             date := current_date;
             targets_agent := "Life List Coach" |})%exc.

(** The handler of [except json.JSONDecodeError]. *)
Definition raw_text_fallback (request : AreaBasedTargetsRequest)
    (current_date raw : string) : targets_reply :=
  {| birds := JArr [];
     recommendations := Some raw;
     species_analyzed := List.length (species request);
     date := current_date;
     targets_agent := "Life List Coach" |}.

(** The outer [try] block after [agent.run] returned. *)
Definition extract_targets (request : AreaBasedTargetsRequest)
    (current_date : string) (r : run_response) : exc targets_reply :=
  (raw <- as_text (response_text_of r) ;;
   except_decode (decode_targets request current_date (unfenced raw))
                 (Return (raw_text_fallback request current_date raw)))%exc.

Definition no_species_detail : string :=
  "At least one species is required. Add birds to your life list first.".

(** [current_date] is the clock reading [datetime.now()] as formatted
    by the handler. *)
Definition get_area_based_targets (env : agent_env) (current_date : string)
    (request : AreaBasedTargetsRequest) (w : world)
  : world * http_result targets_reply :=
  let (w1, agent) := get_agent LIFELIST w in
  match species request with
  | [] => (w1, HTTPException 400 no_species_detail)
  | _ =>
      let (w2, response) :=
        agent_run env agent (targets_prompt request current_date) w1 in
      (w2, or_agent_error
             (r <- response ;; extract_targets request current_date r)%exc)
  end.

End Main.

(* ================================================================== *)
(** * The two toolkits as the agents see them *)

Module Toolkit.
Import Py.

(** A call of one of the ten registered tool functions. *)
Inductive call : Type :=
| RecentObservations (region_code : string) (back_days max_results : Z)
| NotableObservations (region_code : string) (back_days max_results : Z)
| NearbyHotspots (lat lng : Q) (distance_km max_results : Z)
| SpeciesObservations (species_code region_code : string)
                      (back_days max_results : Z)
| RegionInfo (region_code : string)
| HotspotInfo (hotspot_id : string)
| Taxonomy (species_codes search_query : option string)
| RareBirdsNearby (lat lng : Q) (distance_km back_days : Z)
| WeatherForecast (lat lng : Q)
| BirdingConditions (lat lng : Q).

Inductive payload : Type :=
| Rows (l : list json)
| Row (j : json)
| Conditions (r : Weather.birding_report).

Definition tag {A : Type} (f : A -> payload) (t : tool_text A)
  : tool_text payload :=
  match t with
  | Str_of a => Str_of (f a)
  | Text s => Text s
  end.

Definition tagged {A : Type} (f : A -> payload)
    (r : list request * tool_text A) : list request * tool_text payload :=
  (fst r, tag f (snd r)).

Section Dispatch.

Variable fsqrt : Q -> Q.
Variable self : EBird.EBirdTools.

(** The tool function a call runs. *)
Definition invoke (c : call) (net : transport)
  : list request * tool_text payload :=
  match c with
  | RecentObservations r b m =>
      tagged Rows (EBird.get_recent_observations self r b m net)
  | NotableObservations r b m =>
      tagged Rows (EBird.get_notable_observations self r b m net)
  | NearbyHotspots la lo d m =>
      tagged Rows (EBird.get_nearby_hotspots self la lo d m net)
  | SpeciesObservations s r b m =>
      tagged Rows (EBird.get_species_observations self s r b m net)
  | RegionInfo r => tagged Row (EBird.get_region_info self r net)
  | HotspotInfo h => tagged Row (EBird.get_hotspot_info self h net)
  | Taxonomy codes q => tagged Rows (EBird.get_taxonomy self codes q net)
  | RareBirdsNearby la lo d b =>
      tagged Rows (EBird.get_rare_birds_nearby fsqrt self la lo d b net)
  | WeatherForecast la lo => tagged Row (Weather.get_weather_forecast la lo net)
  | BirdingConditions la lo =>
      tagged Conditions (Weather.get_birding_conditions la lo net)
  end.

(** The request the call sends. *)
Definition request_of (c : call) : request :=
  match c with
  | RecentObservations r b m => EBird.recent_request self r b m
  | NotableObservations r b m => EBird.notable_request self r b m
  | NearbyHotspots la lo d _ => EBird.hotspots_request self la lo d
  | SpeciesObservations s r b m => EBird.species_request self s r b m
  | RegionInfo r => EBird.region_request self r
  | HotspotInfo h => EBird.hotspot_info_request self h
  | Taxonomy codes _ => EBird.taxonomy_request self codes
  | RareBirdsNearby la lo d b => EBird.rare_request self la lo d b
  | WeatherForecast la lo => Weather.forecast_request la lo
  | BirdingConditions la lo => Weather.conditions_request la lo
  end.

(** What the call does with the decoded body of the response. *)
Definition process (c : call) (data : json) : exc payload :=
  match c with
  | RecentObservations _ _ _ =>
      (items <- py_iter data ;;
       l <- for_each (fun obs => d <- EBird.project obs EBird.observation_entries ;;
                                 Return (JObj d)) items ;;
       Return (Rows l))%exc
  | NotableObservations _ _ _ =>
      (items <- py_iter data ;;
       l <- for_each (fun obs => d <- EBird.project obs EBird.notable_entries ;;
                                 Return (JObj d)) items ;;
       Return (Rows l))%exc
  | NearbyHotspots _ _ _ m =>
      (hotspots <- py_slice 0 m data ;;
       items <- py_iter hotspots ;;
       l <- for_each (fun hs => d <- EBird.project hs EBird.hotspot_entries ;;
                                Return (JObj d)) items ;;
       Return (Rows l))%exc
  | SpeciesObservations _ _ _ _ =>
      (items <- py_iter data ;;
       l <- for_each (fun obs => d <- EBird.project obs EBird.species_entries ;;
                                 Return (JObj d)) items ;;
       Return (Rows l))%exc
  | RegionInfo r =>
      (name <- py_get data "result" (JStr "Unknown") ;;
       bounds <- py_get data "bounds" (JObj []) ;;
       Return (Row (JObj [("name", name); ("region_code", JStr r);
                          ("bounds", bounds)])))%exc
  | HotspotInfo h =>
      (name <- py_get data "name" (JStr "Unknown") ;;
       la <- py_get data "latitude" JNull ;;
       lo <- py_get data "longitude" JNull ;;
       country <- py_get data "countryCode" (JStr "") ;;
       region <- py_get data "subnational1Code" (JStr "") ;;
       n <- py_get data "numSpeciesAllTime" (JNum 0) ;;
       Return (Row (JObj [("name", name); ("hotspot_id", JStr h);
                          ("lat", la); ("lng", lo); ("country", country);
                          ("region", region); ("species_count", n)])))%exc
  | Taxonomy _ q =>
      (filtered <- EBird.filter_taxonomy q data ;;
       l <- EBird.format_taxonomy filtered ;;
       Return (Rows l))%exc
  | RareBirdsNearby la lo _ _ =>
      (l <- EBird.rank fsqrt la lo data ;; Return (Rows l))%exc
  | WeatherForecast _ _ =>
      (j <- Weather.summarize data ;; Return (Row j))%exc
  | BirdingConditions _ _ =>
      (r <- Weather.analyze data ;; Return (Conditions r))%exc
  end.

(** The label of the [except] clause of the tool function. *)
Definition label_of (c : call) : string :=
  match c with
  | RecentObservations _ _ _ => "Error fetching observations: "
  | NotableObservations _ _ _ => "Error fetching notable observations: "
  | NearbyHotspots _ _ _ _ => "Error fetching hotspots: "
  | SpeciesObservations _ _ _ _ => "Error fetching species observations: "
  | RegionInfo _ => "Error fetching region info: "
  | HotspotInfo _ => "Error fetching hotspot info: "
  | Taxonomy _ _ => "Error fetching taxonomy: "
  | RareBirdsNearby _ _ _ _ => "Error fetching rare birds: "
  | WeatherForecast _ _ => "Error fetching weather: "
  | BirdingConditions _ _ => "Error analyzing birding conditions: "
  end.

(** What can happen between the call and its result: the transport,
    the status check, the decoding of the body or the processing
    raises, or all four succeed. *)
Definition outcome (c : call) (net : transport) : exc payload :=
  (resp <- net (request_of c) ;;
   _ <- raise_for_status resp ;;
   data <- json_body resp ;;
   process c data)%exc.

End Dispatch.

(** The value of a request parameter. *)
Fixpoint param (ps : list (string * pval)) (k : string) : option pval :=
  match ps with
  | [] => None
  | (k', v) :: ps' => if String.eqb k' k then Some v else param ps' k
  end.

End Toolkit.

(* ================================================================== *)
(** * The handlers of [app/main.py] that call the services directly *)

Module Endpoints.
Import Py Text Main.

(** The settings the handlers read ([app/config.py]): those of the
    eBird client and the key of the language model. *)
Record Settings : Type := {
  ebird : EBird.Settings;
  openai_api_key : string
}.

Definition ebird_api_key (settings : Settings) : string :=
  EBird.ebird_api_key (ebird settings).

Definition ebird_base_url (settings : Settings) : string :=
  EBird.ebird_base_url (ebird settings).

(** What a handler gives back: a body, an [HTTPException] it raised, or
    another exception that leaves the handler, which the framework
    answers with a bare status 500. *)
Inductive reply (A : Type) : Type :=
| Sent (body : A)
| Refused (status_code : Z) (detail : string)
| Escaped (e : exn).
Arguments Sent {A} body.
Arguments Refused {A} status_code detail.
Arguments Escaped {A} e.

(** [isinstance(e, httpx.HTTPError)]: the errors of the transport and
    those of [raise_for_status]. *)
Definition is_http_error (e : exn) : bool :=
  match exn_cls e with
  | TransportError | HTTPStatusError => true
  | _ => false
  end.

(** [except httpx.HTTPError as e:
       raise HTTPException(500, f"eBird API error: {e}")]. *)
Definition or_ebird_error {A : Type} (body : exc A) : reply A :=
  match body with
  | Return a => Sent a
  | Raise e =>
      if is_http_error e
      then Refused 500 ("eBird API error: " ++ exn_msg e)
      else Escaped e
  end.

Definition no_ebird_key : string :=
  "EBIRD_API_KEY not configured. Please add it to your .env file.".

(** A handler that refuses to work without the eBird key and runs its
    body inside [try ... except httpx.HTTPError]. *)
Definition with_ebird_key {A : Type} (settings : Settings) (body : io A)
  : transport -> list request * reply A :=
  fun net =>
    if String.eqb (ebird_api_key settings) ""
    then ([], Refused 500 no_ebird_key)
    else let (log, r) := body net [] in (log, or_ebird_error r).

Definition token_header (settings : Settings) : list (string * string) :=
  [("X-eBirdApiToken", ebird_api_key settings)].

(** ** [get_nearby_hotspots] *)

Definition hotspot_fields : list (string * string * json) :=
  [("name", "locName", JStr "Unknown");
   ("hotspot_id", "locId", JStr "");
   ("lat", "lat", JNull);
   ("lng", "lng", JNull);
   ("country", "countryCode", JStr "");
   ("region", "subnational1Code", JStr "");
   ("species_count", "numSpeciesAllTime", JNum 0)].

Definition hotspots_request (settings : Settings) (lat lng : Q)
    (distance_km : Z) : request :=
  Request (ebird_base_url settings ++ "/ref/hotspot/geo")
          (token_header settings)
          [("lat", PNum lat); ("lng", PNum lng);
           ("dist", PInt (Z.min distance_km 50)); ("fmt", PStr "json")].

Record hotspots_reply : Type := {
  hotspots : list json;
  hotspots_count : nat
}.

Definition get_nearby_hotspots_body (settings : Settings) (lat lng : Q)
    (distance_km : Z) : io hotspots_reply :=
  (found <- fetch_json (hotspots_request settings lat lng distance_km) ;;
   lift (head <- py_slice 0 20 found ;;
         items <- py_iter head ;;
         results <- for_each (fun hs => d <- EBird.project hs hotspot_fields ;;
                                        Return (JObj d)) items ;;
         Return {| hotspots := results;
                   hotspots_count := List.length results |})%exc)%io.

Definition get_nearby_hotspots (settings : Settings) (lat lng : Q)
    (distance_km : Z) : transport -> list request * reply hotspots_reply :=
  with_ebird_key settings
    (get_nearby_hotspots_body settings lat lng distance_km).

(** ** Text *)

Definition nl : string := String (ascii_of_nat 10) "".

(** [str(z)] for an [int]. *)
Definition py_int (z : Z) : string := NilZero.string_of_int (Z.to_int z).

(** [d[k]] on a [dict]. *)
Definition py_key (d : list (string * json)) (k : string) : exc json :=
  match dict_get d k with
  | Some v => Return v
  | None => Raise (Exn KeyError ("'" ++ k ++ "'"))
  end.

Section Markdown.

(** [str(v)] for a value that is not a [str], and [f"{x:.4f}"] for a
    float. *)
Variable py_repr : json -> string.
Variable fixed4 : Q -> string.

Definition str (v : json) : string := py_str py_repr v.

(** ** [get_rare_birds] *)

Definition rare_birds_request (settings : Settings) (lat lng : Q)
    (distance_km days : Z) : request :=
  Request (ebird_base_url settings ++ "/data/obs/geo/recent/notable")
          (token_header settings)
          [("lat", PNum lat); ("lng", PNum lng);
           ("dist", PInt (Z.min distance_km 50));
           ("back", PInt (Z.min days 30))].

Record rare_birds_reply : Type := {
  rare_birds : string;
  birds : list json;
  count : nat
}.

(** The two lines the markdown starts with. *)
Definition rare_birds_header (total : nat) (distance_km : Z) : string :=
  "## Rare Bird Sightings" ++ nl ++ nl
  ++ "**" ++ decimal total ++ " notable sightings found within "
  ++ py_int distance_km ++ " km:**" ++ nl ++ nl.

(** The body of the loop over [birds[:20]]: the row appended to
    [results] and the text appended to [markdown]. *)
Definition sighting_section (bird : json) : exc (json * string) :=
  (bird_data <- EBird.project bird EBird.observation_entries ;;
   species <- py_key bird_data "species" ;;
   scientific_name <- py_key bird_data "scientific_name" ;;
   count <- py_key bird_data "count" ;;
   location <- py_key bird_data "location" ;;
   date <- py_key bird_data "date" ;;
   Return (JObj bird_data,
           "### " ++ str species ++ nl
           ++ "*" ++ str scientific_name ++ "*" ++ nl ++ nl
           ++ "- **Count:** " ++ str count ++ nl
           ++ "- **Location:** " ++ str location ++ nl
           ++ "- **Date:** " ++ str date ++ nl ++ nl))%exc.

Definition get_rare_birds_body (settings : Settings) (lat lng : Q)
    (distance_km days : Z) : io rare_birds_reply :=
  (found <- fetch_json (rare_birds_request settings lat lng distance_km days) ;;
   lift (total <- py_len found ;;
         head <- py_slice 0 20 found ;;
         items <- py_iter head ;;
         sections <- for_each sighting_section items ;;
         Return {| rare_birds :=
                     rare_birds_header total distance_km
                     ++ String.concat "" (map snd sections);
                   birds := map fst sections;
                   count := List.length (map fst sections) |})%exc)%io.

Definition get_rare_birds (settings : Settings) (lat lng : Q)
    (distance_km days : Z)
  : transport -> list request * reply rare_birds_reply :=
  with_ebird_key settings
    (get_rare_birds_body settings lat lng distance_km days).

(** ** [get_alerts] *)

Definition alerts_request (settings : Settings) (lat lng : Q)
    (distance_km : Z) : request :=
  Request (ebird_base_url settings ++ "/data/obs/geo/recent/notable")
          (token_header settings)
          [("lat", PNum lat); ("lng", PNum lng);
           ("dist", PInt (Z.min distance_km 50)); ("back", PInt 7)].

(** The first step: [rare_birds_data] is the decoded answer of eBird,
    or stays the empty list when there is no key or the call raises. *)
Definition rare_birds_data (settings : Settings) (lat lng : Q)
    (distance_km : Z) : transport -> list request * json :=
  fun net =>
    if String.eqb (ebird_api_key settings) "" then ([], JArr [])
    else
      let (log, r) := fetch_json (alerts_request settings lat lng distance_km)
                                 net [] in
      (log, match r with
            | Return data => data
            | Raise _ => JArr []
            end).

(** The body of the answer: built from eBird's data, or the text of the
    agent.  The first carries ["agent": "eBird API Direct"], the second
    ["agent": "Community Connector Agent"]. *)
Inductive alerts_reply : Type :=
| Direct (alerts : string) (birds : list json) (location : Q * Q) (count : nat)
| FromAgent (alerts : json) (location : Q * Q).

Definition agent_of (a : alerts_reply) : string :=
  match a with
  | Direct _ _ _ _ => "eBird API Direct"
  | FromAgent _ _ => "Community Connector Agent"
  end.

(** [f"{v:.4f}"]: numbers only. *)
Definition format_fixed4 (v : json) : exc string :=
  match v with
  | JNum q => Return (fixed4 q)
  | JBool b => Return (fixed4 (if b then 1 else 0))
  | JStr _ =>
      Raise (Exn ValueError "Unknown format code 'f' for object of type 'str'")
  | _ => Raise (Exn TypeError
                  ("unsupported format string passed to " ++ type_name v
                   ++ ".__format__"))
  end.

(** The body of the loop over [rare_birds_data[:20]]: the text appended
    to [alerts_md] and what is appended to [birds_for_map]. *)
Definition alert_section (bird : json) : exc (string * list json) :=
  (species <- py_get bird "comName" (JStr "Unknown") ;;
   sci_name <- py_get bird "sciName" (JStr "") ;;
   location <- py_get bird "locName" (JStr "Unknown location") ;;
   date <- py_get bird "obsDt" (JStr "Unknown date") ;;
   count <- py_get bird "howMany" (JStr "X") ;;
   bird_lat <- py_get bird "lat" JNull ;;
   bird_lng <- py_get bird "lng" JNull ;;
   let text :=
     "### " ++ str species ++ nl
     ++ "*" ++ str sci_name ++ "*" ++ nl ++ nl
     ++ "- **Count:** " ++ str count ++ nl
     ++ "- **Location:** " ++ str location ++ nl
     ++ "- **Date:** " ++ str date ++ nl in
   if truthy bird_lat && truthy bird_lng then
     (la <- format_fixed4 bird_lat ;;
      lo <- format_fixed4 bird_lng ;;
      Return (text ++ "- **Coordinates:** " ++ la ++ ", " ++ lo ++ nl ++ nl,
              [JObj [("species", species); ("scientific_name", sci_name);
                     ("location", location); ("date", date);
                     ("count", count); ("lat", bird_lat);
                     ("lng", bird_lng)]]))
   else Return (text ++ nl, []))%exc.

(** The block under [if rare_birds_data:]; nothing in it is caught. *)
Definition direct_alerts (lat lng : Q) (distance_km : Z) (data : json)
  : exc alerts_reply :=
  let alerts_md :=
    "## Rare Bird Alerts" ++ nl ++ nl
    ++ "**Location:** " ++ fixed4 lat ++ ", " ++ fixed4 lng
    ++ " (within " ++ py_int distance_km ++ " km)" ++ nl ++ nl in
  (total <- py_len data ;;
   if (total =? 0)%nat then
     Return (Direct (alerts_md
                     ++ "No rare birds reported in this area in the last 7 days."
                     ++ nl)
                    [] (lat, lng) total)
   else
     (head <- py_slice 0 20 data ;;
      items <- py_iter head ;;
      sections <- for_each alert_section items ;;
      Return (Direct (alerts_md
                      ++ "**" ++ decimal total ++ " notable sightings found:**"
                      ++ nl ++ nl
                      ++ String.concat "" (map fst sections))
                     (List.concat (map snd sections)) (lat, lng) total)))%exc.

(** The community agent, run on the prompt the handler builds from the
    two coordinates and the radius. *)
Definition alerts_env : Type := Q -> Q -> Z -> exc run_response.

(** The block under [if settings.openai_api_key:]. *)
Definition agent_alerts (env : alerts_env) (lat lng : Q) (distance_km : Z)
    (w : world) : world * reply alerts_reply :=
  let (w1, _) := get_agent COMMUNITY w in
  (w1, match env lat lng distance_km with
       | Return r => Sent (FromAgent (response_text_of r) (lat, lng))
       | Raise e =>
           Refused 500 ("Agent error: " ++ exn_msg e
                        ++ ". Make sure OPENAI_API_KEY is set.")
       end).

Definition no_keys : string :=
  "No API keys configured. Please set EBIRD_API_KEY and/or OPENAI_API_KEY in your .env file.".

Definition get_alerts (settings : Settings) (env : alerts_env) (lat lng : Q)
    (distance_km : Z) (net : transport) (w : world)
  : world * list request * reply alerts_reply :=
  let (log, data) := rare_birds_data settings lat lng distance_km net in
  if truthy data then
    (w, log, match direct_alerts lat lng distance_km data with
             | Return a => Sent a
             | Raise e => Escaped e
             end)
  else if negb (String.eqb (openai_api_key settings) "") then
    let (w1, r) := agent_alerts env lat lng distance_km w in (w1, log, r)
  else (w, log, Refused 500 no_keys).

End Markdown.

(** ** [get_birding_conditions]

    The handler calls the two weather tools one after the other and
    hands back the text of each. *)
Definition get_birding_conditions (lat lng : Q)
  : transport -> list request
                 * (tool_text Weather.birding_report * tool_text json) :=
  fun net =>
    let (log1, conditions) := Weather.get_birding_conditions lat lng net in
    let (log2, forecast) := Weather.get_weather_forecast lat lng net in
    ((log1 ++ log2)%list, (conditions, forecast)).

End Endpoints.

(* ================================================================== *)
(** * The message of the two chat handlers *)

Module Chat.
Import Py Main.

(** [app/schemas.py] *)
Record ChatMessage : Type := {
  role : string;
  content : string
}.

Record ChatRequest : Type := {
  message : string;
  agent_type : AgentType;
  session_id : option string;
  context : option (list (string * json));
  history : option (list ChatMessage)
}.

Section Messages.

(** [str(v)] for a value of the context that is not a [str]. *)
Variable py_repr : json -> string.

(** [f"{k}: {v}"]. *)
Definition context_line (kv : string * json) : string :=
  fst kv ++ ": " ++ py_str py_repr (snd kv).

(** What [if request.context:] appends to [parts]. *)
Definition context_parts (request : ChatRequest) : list string :=
  match context request with
  | Some (kv :: rest) =>
      [ "Context (use this when relevant):" ++ Endpoints.nl
        ++ String.concat Endpoints.nl (map context_line (kv :: rest)) ]
  | _ => []
  end.

Definition speaker (m : ChatMessage) : string :=
  if String.eqb (role m) "user" then "User" else "Assistant".

(** The loop of [chat] over the history: a line is appended to
    [history_lines] for each message. *)
Fixpoint history_loop (history_lines : list string) (h : list ChatMessage)
  : list string :=
  match h with
  | [] => history_lines
  | m :: h' =>
      history_loop
        (history_lines ++ [(speaker m ++ ": " ++ content m)%string])%list h'
  end.

(** The message [chat] hands to the agent. *)
Definition chat_message (request : ChatRequest) : string :=
  let parts := context_parts request in
  let parts :=
    match history request with
    | Some (m :: rest) =>
        (parts ++ [ ("Previous conversation:" ++ Endpoints.nl
                     ++ String.concat Endpoints.nl
                          (history_loop [] (m :: rest)))%string ])%list
    | _ => parts
    end in
  let parts :=
    (parts ++ [ ("Current user message: " ++ message request)%string ])%list in
  String.concat (Endpoints.nl ++ Endpoints.nl) parts.

(** The message [chat_stream] hands to the agent: the lines of the
    history come from a comprehension. *)
Definition stream_message (request : ChatRequest) : string :=
  let parts := context_parts request in
  let parts :=
    match history request with
    | Some (m :: rest) =>
        (parts ++ [ ("Previous conversation:" ++ Endpoints.nl
                     ++ String.concat Endpoints.nl
                          (map (fun m => speaker m ++ ": " ++ content m)
                               (m :: rest)))%string ])%list
    | _ => parts
    end in
  let parts :=
    (parts ++ [ ("Current user message: " ++ message request)%string ])%list in
  String.concat (Endpoints.nl ++ Endpoints.nl) parts.

End Messages.

End Chat.

(* ================================================================== *)
(** * Statements about the conditions score: vocabulary and sample forecasts *)

Module WeatherSpec.
Import Py Weather.

(** A forecast with ten hourly samples per series and no [daily] part:
    a windy, wet, overcast and hot morning. *)
Definition steady (q : Q) : json := JArr (repeat (JNum q) 10).

Definition harsh_morning : json :=
  JObj [("hourly",
         JObj [("temperature_2m", steady 40);
               ("wind_speed_10m", steady 35);
               ("precipitation_probability", steady 80);
               ("cloud_cover", steady 95)])].

Definition serve (data : json) : transport :=
  fun _ => Return (Response (Return tt) (Return data)).

Definition harsh_report : birding_report :=
  match analyze harsh_morning with
  | Return r => r
  | Raise _ => Report 0 "" (Conditions 0 0 0 0) JNull JNull [] []
  end.

(** The sum the tool computes, as a sum. *)
Definition total (qs : list Q) : Q := fold_right Qplus 0 qs.




End WeatherSpec.

(* ================================================================== *)
(** * Statements about the data clients: vocabulary and sample responses *)

Module ClientSpec.
Import Py Toolkit WeatherSpec.

(** An error text is a text that starts with the word Error. *)
Definition error_text (t : tool_text payload) : Prop :=
  exists rest, t = Text ("Error " ++ rest).

(** [p] occurs in [s]. *)
Definition occurs_in (p s : string) : Prop :=
  exists pre post, s = pre ++ p ++ post.

(** The value [d.get(key, default)] of a dictionary. *)
Definition lookup (d : list (string * json)) (key : string) (default : json)
  : json :=
  match dict_get d key with Some x => x | None => default end.

(** The name under [key] is a string that contains [ql] once folded
    to lower case. *)
Definition name_has (ql : string) (d : list (string * json)) (key : string)
  : bool :=
  match lookup d key (JStr "") with
  | JStr s => EBird.contains ql (EBird.lower s)
  | _ => false
  end.

(** The entry matches the query on its common or its scientific name. *)
Definition matches_query (q : string) (t : json) : bool :=
  match t with
  | JObj d => name_has (EBird.lower q) d "comName"
              || name_has (EBird.lower q) d "sciName"
  | _ => false
  end.

(** The dictionary built from an entry of the response. *)
Definition row_of (entries : list (string * string * json)) (t : json) : json :=
  match t with
  | JObj d =>
      JObj (map (fun e : string * string * json =>
                   let '(out, key, default) := e in (out, lookup d key default))
                entries)
  | _ => JNull
  end.

Definition is_dict (t : json) : Prop := exists d, t = JObj d.

(** The entry of a result row that holds a name containing the query. *)
Definition named_like (q : string) (r : json) : Prop :=
  exists name,
    (py_get r "common_name" JNull = Return (JStr name)
     \/ py_get r "scientific_name" JNull = Return (JStr name))
    /\ occurs_in (EBird.lower q) (EBird.lower name).

(** Order of two keyed items. *)
Definition key_le {A : Type} (p1 p2 : Q * A) : Prop := fst p1 <= fst p2.

(** The key of the item is [q]. *)
Definition key_is {A : Type} (q : Q) (p : Q * A) : bool := Qeq_bool (fst p) q.

(** The number the sort compares for a record. *)
Definition distance_of (x : json) : option Q :=
  match EBird.distance_key x with
  | Return k => as_number k
  | Raise _ => None
  end.

(** [x] does not lie farther than [y]. *)
Definition closer (x y : json) : Prop :=
  match distance_of x, distance_of y with
  | Some a, Some b => a <= b
  | _, _ => False
  end.

Definition at_distance (q : Q) (x : json) : bool :=
  match distance_of x with
  | Some a => Qeq_bool a q
  | None => false
  end.

(** A keyed record carries its own distance. *)
Definition faithful (p : Q * json) : Prop := distance_of (snd p) = Some (fst p).

(** A record has its distance when the field is there and is a number. *)
Definition has_distance (x : json) : Prop :=
  exists fields k,
    x = JObj fields
    /\ dict_get fields "distance_km" = Some (JNum k)
    /\ distance_of x = Some k.

(** A square root good to three decimals, to run the examples. *)
Definition sample_sqrt (q : Q) : Q :=
  inject_Z (Z.sqrt (Qfloor (q * 1000000))) / 1000.

Definition sample_tools : EBird.EBirdTools :=
  EBird.init {| EBird.ebird_api_key := "token";
                EBird.ebird_base_url := "https://api.ebird.org/v2" |}.

Definition sighting (name : string) (la lo : Q) : json :=
  JObj [("comName", JStr name); ("lat", JNum la); ("lng", JNum lo)].

(** Three sightings around the origin: the first is the farthest, the
    other two lie at the same distance. *)
Definition sightings : json :=
  JArr [sighting "Snowy Owl" 2 0;
        sighting "Ruff" 0 1;
        sighting "Gyrfalcon" (-1) 0].

Definition ranked : list json :=
  match snd (EBird.get_rare_birds_nearby sample_sqrt sample_tools 0 0 80 45
               (serve sightings)) with
  | Str_of l => l
  | Text _ => []
  end.

Definition taxon (common scientific : string) : json :=
  JObj [("comName", JStr common); ("sciName", JStr scientific)].

Definition checklist : json :=
  JArr [taxon "Northern Cardinal" "Cardinalis cardinalis";
        taxon "Blue Jay" "Cyanocitta cristata";
        taxon "Pyrrhuloxia" "CARDINALIS sinuatus"].

Definition cardinals : list json :=
  match snd (EBird.get_taxonomy sample_tools None (Some "Cardinal")
               (serve checklist)) with
  | Str_of l => l
  | Text _ => []
  end.

End ClientSpec.

(* ================================================================== *)
(** * Statements about the handlers: vocabulary and sample replies *)

Module HandlerSpec.
Import Py Text Main.

(** A model that answers every prompt with the text [reply]. *)
Definition answering (reply : string) : agent_env :=
  fun _ _ => Return (WithContent (JStr reply)).

Definition fresh : world := World [] false [].

Definition no_birds : AreaBasedTargetsRequest :=
  {| species := []; lat := None; longitude := None; num_targets := 3 |}.

(** JSON text written with apostrophes in place of the double quotes. *)
Fixpoint quoted (s : string) : string :=
  match s with
  | EmptyString => EmptyString
  | String c s' =>
      String (if Ascii.eqb c "'" then dquote else c) (quoted s')
  end.

Definition one_owl : AreaBasedTargetsRequest :=
  {| species := ["Snowy Owl"]; lat := None; longitude := None;
     num_targets := 3 |}.

Definition ruff_json : string := quoted "{'birds': [{'species': 'Ruff'}]}".


Definition ruff_fenced : string :=
  "Sure!" ++ String (ascii_of_nat 10) "```json" ++ String (ascii_of_nat 10) ""
  ++ ruff_json ++ String (ascii_of_nat 10) "```".

Definition sample_targets (reply : string) : http_result targets_reply :=
  snd (get_area_based_targets (answering reply) "May 01, 2025" one_owl fresh).

Definition ruff_birds : json := JArr [JObj [("species", JStr "Ruff")]].



Definition starts_nonspace (s : string) : bool :=
  match s with
  | EmptyString => false
  | String c _ => negb (is_space c)
  end.





(** What the tours handler returns when the agent answers [raw]. *)
Definition tours_for (py_repr : json -> string) (location : string)
    (w : world) (raw : string) : http_result tours_reply :=
  snd (find_birding_tours py_repr (answering raw) location w).

(** What the targets handler returns when the agent answers [raw]. *)
Definition targets_for (current_date : string)
    (request : AreaBasedTargetsRequest) (w : world) (raw : string)
  : http_result targets_reply :=
  snd (get_area_based_targets (answering raw) current_date request w).

End HandlerSpec.

(* ================================================================== *)
(** * More sample inputs and vocabulary *)

Module MoreSpec.
Import Py Weather WeatherSpec Toolkit ClientSpec.

(** A mild morning with some wind, some rain and an overcast sky. *)
Definition dull_morning : json :=
  JObj [("hourly",
         JObj [("temperature_2m", steady 18);
               ("wind_speed_10m", steady 15);
               ("precipitation_probability", steady 30);
               ("cloud_cover", steady 95)])].

Definition dull_report : birding_report :=
  match analyze dull_morning with
  | Return r => r
  | Raise _ => Report 0 "" (Weather.Conditions 0 0 0 0) JNull JNull [] []
  end.

(** The list under [key] of a dictionary; no list when the key is
    absent. *)
Definition series (d : list (string * json)) (key : string) : list json :=
  match dict_get d key with
  | Some (JArr l) => l
  | _ => []
  end.

(** The key is absent or holds a list. *)
Definition list_or_absent (d : list (string * json)) (key : string) : Prop :=
  match dict_get d key with
  | None => True
  | Some (JArr _) => True
  | Some _ => False
  end.

(** The entry of the forecast for day [i] of a [daily] part [d]. *)
Definition day_of (d : list (string * json)) (i : nat) : json :=
  JObj [("date", nth i (series d "time") JNull);
        ("sunrise", nth i (series d "sunrise") JNull);
        ("sunset", nth i (series d "sunset") JNull);
        ("precipitation_mm", nth i (series d "precipitation_sum") (JNum 0));
        ("max_wind_kmh", nth i (series d "wind_speed_10m_max") (JNum 0))].

(** A forecast of nine days whose sunrise series stops after two. *)
Definition nine_days : list (string * json) :=
  [("hourly", JObj [("temperature_2m", JArr [JNum 12])]);
   ("daily",
    JObj [("time", JArr (map (fun i => JNum (inject_Z (Z.of_nat i)))
                             (seq 1 9)));
          ("sunrise", JArr [JStr "05:58"; JStr "05:57"])])].

Definition nine_days_daily : list (string * json) :=
  match dict_get nine_days "daily" with
  | Some (JObj d) => d
  | _ => []
  end.

Definition nine_days_forecast : json :=
  match snd (get_weather_forecast 0 0 (serve (JObj nine_days))) with
  | Str_of j => j
  | Text _ => JNull
  end.


(** The entries of a row of the three observation tools. *)
Definition observation_table (c : call)
  : option (list (string * string * json)) :=
  match c with
  | RecentObservations _ _ _ => Some EBird.observation_entries
  | NotableObservations _ _ _ => Some EBird.notable_entries
  | SpeciesObservations _ _ _ _ => Some EBird.species_entries
  | _ => None
  end.

(** The names of the fields of a row. *)
Definition row_keys (entries : list (string * string * json)) : list string :=
  map (fun e : string * string * json => fst (fst e)) entries.

(** The entry tables of the eBird tools. *)
Definition entry_tables : list (list (string * string * json)) :=
  [EBird.observation_entries; EBird.notable_entries; EBird.hotspot_entries;
   EBird.species_entries; EBird.taxonomy_entries].

(** A hotspot as the service sends it. *)
Definition spot (name : string) : json := JObj [("locName", JStr name)].

Definition four_spots : json :=
  JArr [spot "Marsh"; spot "Pier"; spot "Dunes"; spot "Woods"].

(** A sighting whose latitude is [null]. *)
Definition sightings_with_null : json :=
  JArr [sighting "Ruff" 0 1;
        JObj [("comName", JStr "Gyrfalcon"); ("lat", JNull); ("lng", JNum 0)]].

(** The limits the tours handler puts on the fields of a card. *)
Definition within_limits (c : Main.tour_card) : Prop :=
  (String.length (Main.title c) <= 200)%nat
  /\ (String.length (Main.tour_location c) <= 200)%nat
  /\ Text.strip (Main.url c) = Main.url c
  /\ forall text, Main.description c = Some text ->
                 (String.length text <= 300)%nat.

(** A reply of the tours agent with one walk in it, and the answer of
    the handler to it. *)
Definition walk_reply : string :=
  HandlerSpec.quoted
    "Found one: {'tours': [{'title': 'Dawn walk', 'url': ' https://x.org/walk '}, {'title': 'No link'}]}".

Definition walk_body : Main.tours_reply :=
  {| Main.tours := [ {| Main.title := "Dawn walk"; Main.tour_location := "";
                        Main.url := "https://x.org/walk";
                        Main.description := None |} ];
     Main.reply_location := "Boston";
     Main.tours_agent := "Birding Tours Agent" |}.

(** [str] of a value that is not a string, for the samples. *)
Definition plain_repr (v : json) : string := type_name v.

(** The birds of an answer are a list or a text of [n] items at most. *)
Definition at_most (n : nat) (v : json) : Prop :=
  (exists l, v = JArr l /\ (List.length l <= n)%nat)
  \/ (exists text, v = JStr text /\ (String.length text <= n)%nat).

(** A reply of the life-list agent with four birds in it. *)
Definition four_birds : string :=
  HandlerSpec.quoted
    "{'birds': [{'species': 'Ruff'}, {'species': 'Dunlin'}, {'species': 'Sanderling'}, {'species': 'Red Knot'}]}".

Definition three_birds : json :=
  JArr [JObj [("species", JStr "Ruff")]; JObj [("species", JStr "Dunlin")];
        JObj [("species", JStr "Sanderling")]].

(** Settings with the key of eBird and without the key of the
    language model. *)
Definition ebird_only : Endpoints.Settings :=
  {| Endpoints.ebird :=
       {| EBird.ebird_api_key := "token";
          EBird.ebird_base_url := "https://api.ebird.org/v2" |};
     Endpoints.openai_api_key := "" |}.

(** The settings with the key of eBird taken out. *)
Definition without_ebird_key (settings : Endpoints.Settings)
  : Endpoints.Settings :=
  {| Endpoints.ebird :=
       {| EBird.ebird_api_key := "";
          EBird.ebird_base_url := Endpoints.ebird_base_url settings |};
     Endpoints.openai_api_key := Endpoints.openai_api_key settings |}.

(** A row of the hotspot tool without the date of the latest
    observation. *)
Definition without_latest (row : json) : json :=
  match row with
  | JObj d =>
      JObj (filter (fun kv : string * json =>
                      negb (String.eqb (fst kv) "latest_observation")) d)
  | _ => row
  end.

(** A transport that fails every call with [e]. *)
Definition failing (e : exn) : transport := fun _ => Raise e.

(** The fields of a sighting in the list the alerts handler builds for
    the map. *)
Definition alert_entries : list (string * string * json) :=
  [("species", "comName", JStr "Unknown");
   ("scientific_name", "sciName", JStr "");
   ("location", "locName", JStr "Unknown location");
   ("date", "obsDt", JStr "Unknown date");
   ("count", "howMany", JStr "X");
   ("lat", "lat", JNull);
   ("lng", "lng", JNull)].

(** The sighting has a latitude and a longitude that count as true. *)
Definition located (bird : json) : bool :=
  match bird with
  | JObj d => truthy (lookup d "lat" JNull) && truthy (lookup d "lng" JNull)
  | _ => false
  end.

(** A stand-in for the formatting of a float with four decimals. *)
Definition sample_fixed4 (q : Q) : string :=
  Endpoints.py_int (Qfloor q) ++ ".0000".

(** Two sightings, the first of them on the equator. *)
Definition equator_feed : json :=
  JArr [JObj [("comName", JStr "Ruff"); ("lat", JNum 0); ("lng", JNum 2)];
        JObj [("comName", JStr "Dunlin"); ("lat", JNum 1); ("lng", JNum 2)]].

(** Twenty-one sightings of one bird. *)
Definition crowded_feed : json :=
  JArr (repeat (JObj [("comName", JStr "Ruff")]) 21).

(** An agent that is never reached. *)
Definition silent_agent : Endpoints.alerts_env :=
  fun _ _ _ => Raise (Exn ValueError "not reached").

(** A question with a place for context and one earlier exchange. *)
Definition follow_up : Chat.ChatRequest :=
  {| Chat.message := "And in winter?";
     Chat.agent_type := Main.TEAM;
     Chat.session_id := None;
     Chat.context := Some [("place", JStr "Boston")];
     Chat.history :=
       Some [ {| Chat.role := "user"; Chat.content := "Where are the owls?" |};
              {| Chat.role := "system"; Chat.content := "At the coast." |} ] |}.

(** A day with a sunrise and with an empty list of sunsets. *)
Definition sun_day : json :=
  JObj [("daily", JObj [("sunrise", JArr [JStr "05:41"; JStr "05:40"]);
                        ("sunset", JArr [])])].

End MoreSpec.

(* ================================================================== *)
(** * Properties of the conditions score *)

Module WeatherFacts.
Import Py Weather WeatherSpec.

Lemma ebind_Return (A B : Type) (m : exc A) (k : A -> exc B) (b : B) :
  ebind m k = Return b -> exists a, m = Return a /\ k a = Return b.
Proof.
  destruct m as [a | e]; simpl; intro H.
  - exists a. split; [reflexivity | exact H].
  - discriminate H.
Qed.

(** Peels the successful binds off a hypothesis [H]. *)
Ltac unbind H :=
  repeat
    match type of H with
    | ebind _ _ = Return _ =>
        let a := fresh "v" in
        let E := fresh "E" in
        apply ebind_Return in H; destruct H as (a & E & H)
    end.

Lemma wind_penalty_range (w : Q) : (0 <= wind_penalty w <= 30)%Z.
Proof. unfold wind_penalty. repeat destruct (Qlt_le_dec _ _); lia. Qed.

Lemma precip_penalty_range (p : Q) : (0 <= precip_penalty p <= 40)%Z.
Proof. unfold precip_penalty. repeat destruct (Qlt_le_dec _ _); lia. Qed.

Lemma cloud_penalty_range (c : Q) : (0 <= cloud_penalty c <= 10)%Z.
Proof. unfold cloud_penalty. repeat destruct (Qlt_le_dec _ _); lia. Qed.

Lemma temp_penalty_range (t : Q) : (0 <= temp_penalty t <= 15)%Z.
Proof. unfold temp_penalty. repeat destruct (Qlt_le_dec _ _); lia. Qed.

Lemma raw_score_range (t w p c : Q) : (5 <= raw_score t w p c <= 100)%Z.
Proof.
  unfold raw_score.
  pose proof (wind_penalty_range w). pose proof (precip_penalty_range p).
  pose proof (cloud_penalty_range c). pose proof (temp_penalty_range t).
  lia.
Qed.

Lemma clamp_idle (t w p c : Q) :
  Z.max 0 (Z.min 100 (raw_score t w p c)) = raw_score t w p c.
Proof. pose proof (raw_score_range t w p c). lia. Qed.

(** What a report that [report_of] returns is made of. *)
Lemma report_of_fields (t w p c : Q) (daily : json) (r : birding_report) :
  report_of t w p c daily = Return r ->
  score r = raw_score t w p c
  /\ rating r = rating_of (raw_score t w p c)
  /\ recommendations r =
       match recommendations_of t w p c with
       | [] => [msg_great]
       | recs => recs
       end
  /\ first_or daily "sunrise" "06:00" = Return (sunrise r)
  /\ first_or daily "sunset" "18:00" = Return (sunset r).
Proof.
  unfold report_of. intro H. unbind H.
  injection H as <-. simpl. rewrite clamp_idle.
  repeat split; auto.
  destruct (recommendations_of t w p c); reflexivity.
Qed.

(** A report of [analyze] comes from four averages. *)
Lemma analyze_report (data : json) (r : birding_report) :
  analyze data = Return r ->
  exists hourly daily t w p c,
    py_get data "hourly" (JObj []) = Return hourly
    /\ py_get data "daily" (JObj []) = Return daily
    /\ morning_averages hourly = Return (t, w, p, c)
    /\ report_of t w p c daily = Return r.
Proof.
  unfold analyze. intro H. unbind H.
  destruct v1 as [[[t w] p] c].
  exists v, v0, t, w, p, c. auto.
Qed.

(** The report behind a successful call of the tool. *)
Lemma tool_report (lat lng : Q) (net : transport) (r : birding_report) :
  snd (get_birding_conditions lat lng net) = Str_of r ->
  exists data, analyze data = Return r.
Proof.
  unfold get_birding_conditions, tool, get_birding_conditions_body,
    fetch_json, io_bind, client_get, lift.
  destruct (net _) as [resp | e]; simpl; [ | discriminate ].
  destruct (raise_for_status resp) as [[] | e]; simpl; [ | discriminate ].
  destruct (json_body resp) as [data | e]; simpl; [ | discriminate ].
  intro H. exists data.
  destruct (analyze data) as [r' | e]; simpl in H; [ | discriminate ].
  congruence.
Qed.

Lemma rating_of_cases (s : Z) :
  (rating_of s = "Excellent" <-> 80 <= s)%Z
  /\ (rating_of s = "Good" <-> 60 <= s < 80)%Z
  /\ (rating_of s = "Fair" <-> 40 <= s < 60)%Z
  /\ (rating_of s = "Poor" <-> s < 40)%Z.
Proof.
  unfold rating_of.
  destruct (80 <=? s)%Z eqn:E80; [ apply Z.leb_le in E80 | apply Z.leb_gt in E80 ];
  [ | destruct (60 <=? s)%Z eqn:E60;
      [ apply Z.leb_le in E60 | apply Z.leb_gt in E60 ];
      [ | destruct (40 <=? s)%Z eqn:E40;
          [ apply Z.leb_le in E40 | apply Z.leb_gt in E40 ] ] ];
  repeat split; intros; try discriminate; try reflexivity; try lia.
Qed.

Lemma harsh_served :
  snd (get_birding_conditions 0 0 (serve harsh_morning)) = Str_of harsh_report.
Proof. vm_compute. reflexivity. Qed.

(** C9: each metric costs one tier at most (30 for wind, 40 for
    precipitation, 10 for clouds, 15 for temperature), so the penalties
    add up to 95 at most, the score the tool returns lies between 5 and
    100, and clamping it to [0, 100] changes nothing. *)
Theorem score_at_least_5 (t w p c : Q) :
  (0 <= wind_penalty w <= 30)%Z
  /\ (0 <= precip_penalty p <= 40)%Z
  /\ (0 <= cloud_penalty c <= 10)%Z
  /\ (0 <= temp_penalty t <= 15)%Z
  /\ (wind_penalty w + precip_penalty p + cloud_penalty c + temp_penalty t
      <= 95)%Z
  /\ (5 <= raw_score t w p c <= 100)%Z
  /\ Z.max 0 (Z.min 100 (raw_score t w p c)) = raw_score t w p c
  /\ (forall lat lng net r,
         snd (get_birding_conditions lat lng net) = Str_of r ->
         (5 <= score r <= 100)%Z).
Proof.
  pose proof (wind_penalty_range w). pose proof (precip_penalty_range p).
  pose proof (cloud_penalty_range c). pose proof (temp_penalty_range t).
  repeat split; try lia; try apply raw_score_range.
  - apply clamp_idle.
  - apply tool_report in H3. destruct H3 as (data & Hd).
    apply analyze_report in Hd.
    destruct Hd as (hourly & daily & t' & w' & p' & c' & _ & _ & _ & Hr).
    apply report_of_fields in Hr. destruct Hr as (-> & _).
    apply raw_score_range.
  - apply tool_report in H3. destruct H3 as (data & Hd).
    apply analyze_report in Hd.
    destruct Hd as (hourly & daily & t' & w' & p' & c' & _ & _ & _ & Hr).
    apply report_of_fields in Hr. destruct Hr as (-> & _).
    apply raw_score_range.
Qed.

(** C2: the score of every report the tool returns lies in [0, 100],
    and its rating is Excellent exactly from 80 up, Good exactly on
    [60, 80), Fair exactly on [40, 60) and Poor exactly below 40; the
    rating function has its boundaries at 80, 60 and 40. *)
Theorem score_bounds_and_rating (lat lng : Q) (net : transport)
    (r : birding_report) :
  snd (get_birding_conditions lat lng net) = Str_of r ->
  (0 <= score r <= 100)%Z
  /\ (rating r = "Excellent" <-> 80 <= score r)%Z
  /\ (rating r = "Good" <-> 60 <= score r < 80)%Z
  /\ (rating r = "Fair" <-> 40 <= score r < 60)%Z
  /\ (rating r = "Poor" <-> score r < 40)%Z
  /\ rating_of 80 = "Excellent" /\ rating_of 79 = "Good"
  /\ rating_of 60 = "Good" /\ rating_of 59 = "Fair"
  /\ rating_of 40 = "Fair" /\ rating_of 39 = "Poor".
Proof.
  intro H. apply tool_report in H. destruct H as (data & Hd).
  apply analyze_report in Hd.
  destruct Hd as (hourly & daily & t & w & p & c & _ & _ & _ & Hr).
  apply report_of_fields in Hr. destruct Hr as (Hs & Hrt & _).
  rewrite Hs, Hrt.
  pose proof (raw_score_range t w p c).
  pose proof (rating_of_cases (raw_score t w p c)) as (? & ? & ? & ?).
  repeat split; try reflexivity; try lia; try tauto.
Qed.

Lemma score_bounds_and_rating_witness :
  (0 <= score harsh_report <= 100)%Z
  /\ (rating harsh_report = "Excellent" <-> 80 <= score harsh_report)%Z
  /\ (rating harsh_report = "Good" <-> 60 <= score harsh_report < 80)%Z
  /\ (rating harsh_report = "Fair" <-> 40 <= score harsh_report < 60)%Z
  /\ (rating harsh_report = "Poor" <-> score harsh_report < 40)%Z
  /\ rating_of 80 = "Excellent" /\ rating_of 79 = "Good"
  /\ rating_of 60 = "Good" /\ rating_of 59 = "Fair"
  /\ rating_of 40 = "Fair" /\ rating_of 39 = "Poor".
Proof.
  exact (score_bounds_and_rating 0 0 (serve harsh_morning) harsh_served).
Defined.

(** ** The report of a harsh morning *)

Ltac q_arith :=
  unfold Qeq, Qlt, Qle in *; simpl in *; lia.

Lemma harsh_penalties (t w p c : Q) :
  w == 35 -> p == 80 -> c == 95 -> t == 40 ->
  wind_penalty w = 30%Z /\ precip_penalty p = 40%Z
  /\ cloud_penalty c = 10%Z /\ temp_penalty t = 15%Z.
Proof.
  intros Hw Hp Hc Ht.
  destruct t as [tn td], w as [wn wd], p as [pn pd], c as [cn cd].
  unfold wind_penalty, precip_penalty, cloud_penalty, temp_penalty.
  repeat split; repeat destruct (Qlt_le_dec _ _); try reflexivity; q_arith.
Qed.

Lemma harsh_recommendations (t w p c : Q) :
  w == 35 -> p == 80 -> c == 95 -> t == 40 ->
  recommendations_of t w p c = [msg_wind; msg_rain; msg_warm].
Proof.
  intros Hw Hp Hc Ht.
  destruct t as [tn td], w as [wn wd], p as [pn pd], c as [cn cd].
  unfold recommendations_of, gtb, ltb, when.
  repeat destruct (Qlt_le_dec _ _); try reflexivity; q_arith.
Qed.

(** A [daily] dictionary without the key gives the default time. *)
Lemma first_or_absent (d : list (string * json)) (key default : string) :
  dict_get d key = None ->
  first_or (JObj d) key default = Return (JStr default).
Proof. intro H. unfold first_or. simpl. rewrite H. reflexivity. Qed.

(** C8: with morning averages wind 35, precipitation 80, clouds 95 and
    temperature 40 the penalties are 30, 40, 10 and 15, the score is 5
    and the rating Poor; the recommendations are the high-wind, the
    rain-likely and the warm-day messages, three items; a [daily] part
    without sunrise and sunset gives 06:00 and 18:00. *)
Theorem harsh_morning_scores_5 (t w p c : Q) (d : list (string * json)) :
  w == 35 -> p == 80 -> c == 95 -> t == 40 ->
  dict_get d "sunrise" = None -> dict_get d "sunset" = None ->
  wind_penalty w = 30%Z /\ precip_penalty p = 40%Z
  /\ cloud_penalty c = 10%Z /\ temp_penalty t = 15%Z
  /\ exists r,
       report_of t w p c (JObj d) = Return r
       /\ score r = 5%Z
       /\ rating r = "Poor"
       /\ recommendations r = [msg_wind; msg_rain; msg_warm]
       /\ List.length (recommendations r) = 3%nat
       /\ sunrise r = JStr "06:00"
       /\ sunset r = JStr "18:00".
Proof.
  intros Hw Hp Hc Ht Hrise Hset.
  destruct (harsh_penalties Hw Hp Hc Ht) as (Pw & Pp & Pc & Pt).
  repeat split; trivial.
  unfold report_of.
  rewrite (@first_or_absent d _ "06:00" Hrise), (@first_or_absent d _ "18:00" Hset).
  simpl.
  eexists. split; [ reflexivity | ]. simpl.
  rewrite (harsh_recommendations Hw Hp Hc Ht).
  unfold raw_score. rewrite Pw, Pp, Pc, Pt. simpl.
  repeat split; reflexivity.
Qed.

Lemma harsh_morning_scores_5_witness :
  wind_penalty 35 = 30%Z /\ precip_penalty 80 = 40%Z
  /\ cloud_penalty 95 = 10%Z /\ temp_penalty 40 = 15%Z
  /\ exists r,
       report_of 40 35 80 95 (JObj []) = Return r
       /\ score r = 5%Z
       /\ rating r = "Poor"
       /\ recommendations r = [msg_wind; msg_rain; msg_warm]
       /\ List.length (recommendations r) = 3%nat
       /\ sunrise r = JStr "06:00"
       /\ sunset r = JStr "18:00".
Proof.
  apply (@harsh_morning_scores_5 40 35 80 95 []); reflexivity.
Defined.

(** The same morning through the whole tool. *)
Example harsh_morning_end_to_end :
  score harsh_report = 5%Z /\ rating harsh_report = "Poor"
  /\ recommendations harsh_report = [msg_wind; msg_rain; msg_warm]
  /\ sunrise harsh_report = JStr "06:00"
  /\ sunset harsh_report = JStr "18:00".
Proof. vm_compute. repeat split; reflexivity. Qed.

(** A calm morning: no penalty, the single positive message. *)
Example calm_morning :
  raw_score 18 5 0 50 = 100%Z /\ rating_of 100 = "Excellent"
  /\ recommendations_of 18 5 0 50 = [].
Proof. vm_compute. repeat split; reflexivity. Qed.

(** ** The morning window *)

Lemma firstn_min_length (A : Type) (k : nat) (l : list A) :
  firstn (Nat.min k (List.length l)) l = firstn k l.
Proof.
  destruct (Nat.le_ge_cases k (List.length l)) as [H | H].
  - rewrite Nat.min_l by exact H. reflexivity.
  - rewrite Nat.min_r by exact H.
    rewrite firstn_all, firstn_all2 by exact H. reflexivity.
Qed.






End WeatherFacts.

(* ================================================================== *)
(** * Properties of the data clients *)

Module ClientFacts.
Import Py Toolkit WeatherSpec ClientSpec.

Section Clients.

Variable fsqrt : Q -> Q.
Variable self : EBird.EBirdTools.

(** A tool function sends its one request and hands back either the
    text of its result or its error text. *)
Lemma invoke_outcome (c : call) (net : transport) :
  invoke fsqrt self c net
  = ([request_of self c],
     match outcome fsqrt self c net with
     | Return a => Str_of a
     | Raise e => Text (label_of c ++ exn_msg e)
     end).
Proof.
  destruct c; unfold invoke, outcome, request_of, process, label_of, tagged;
    cbv beta delta
      [EBird.get_recent_observations EBird.get_recent_observations_body
       EBird.get_notable_observations EBird.get_notable_observations_body
       EBird.get_nearby_hotspots EBird.get_nearby_hotspots_body
       EBird.get_species_observations EBird.get_species_observations_body
       EBird.get_region_info EBird.get_region_info_body
       EBird.get_hotspot_info EBird.get_hotspot_info_body
       EBird.get_taxonomy EBird.get_taxonomy_body
       EBird.get_rare_birds_nearby EBird.get_rare_birds_nearby_body
       Weather.get_weather_forecast Weather.get_weather_forecast_body
       Weather.get_birding_conditions Weather.get_birding_conditions_body
       tool fetch_json io_bind client_get lift];
    cbn [app];
    (destruct (net _) as [resp | e]; cbn; [ | reflexivity ]);
    (destruct (raise_for_status resp) as [[] | e]; cbn; [ | reflexivity ]);
    (destruct (json_body resp) as [data | e]; cbn; [ | reflexivity ]);
    repeat
      match goal with
      | |- context [ebind ?m _] =>
          match m with
          | ebind _ _ => fail 1
          | _ => destruct m; cbn; try reflexivity
          end
      end.
Qed.

Lemma label_is_error (c : call) (msg : string) :
  error_text (Text (label_of c ++ msg)).
Proof. destruct c; eexists; simpl; reflexivity. Qed.

(** C6: whatever raises between a tool call and its result - the
    transport, the status check, the decoding of the body or the
    processing of the data - is caught: the call still returns, and
    what it returns is the error text of the tool, which starts with
    Error and carries the message of the exception.  A call returns
    either the text of its result or such an error text. *)
Theorem failures_become_error_text (c : call) (net : transport) :
  (forall e, outcome fsqrt self c net = Raise e ->
     snd (invoke fsqrt self c net) = Text (label_of c ++ exn_msg e))
  /\ (forall e, net (request_of self c) = Raise e ->
       snd (invoke fsqrt self c net) = Text (label_of c ++ exn_msg e))
  /\ (forall resp e,
       net (request_of self c) = Return resp ->
       raise_for_status resp = Raise e ->
       snd (invoke fsqrt self c net) = Text (label_of c ++ exn_msg e))
  /\ (forall resp e,
       net (request_of self c) = Return resp ->
       raise_for_status resp = Return tt ->
       json_body resp = Raise e ->
       snd (invoke fsqrt self c net) = Text (label_of c ++ exn_msg e))
  /\ (forall resp data e,
       net (request_of self c) = Return resp ->
       raise_for_status resp = Return tt ->
       json_body resp = Return data ->
       process fsqrt c data = Raise e ->
       snd (invoke fsqrt self c net) = Text (label_of c ++ exn_msg e))
  /\ ((exists a, outcome fsqrt self c net = Return a
                 /\ snd (invoke fsqrt self c net) = Str_of a)
      \/ error_text (snd (invoke fsqrt self c net))).
Proof.
  rewrite invoke_outcome. cbn [snd].
  repeat split.
  - intros e ->. reflexivity.
  - intros e H. unfold outcome. rewrite H. reflexivity.
  - intros resp e H1 H2. unfold outcome. rewrite H1. cbn. rewrite H2.
    reflexivity.
  - intros resp e H1 H2 H3. unfold outcome. rewrite H1. cbn.
    rewrite H2. cbn. rewrite H3. reflexivity.
  - intros resp data e H1 H2 H3 H4. unfold outcome. rewrite H1. cbn.
    rewrite H2. cbn. rewrite H3. cbn. rewrite H4. reflexivity.
  - destruct (outcome fsqrt self c net) as [a | e].
    + left. exists a. split; reflexivity.
    + right. apply label_is_error.
Qed.

(** ** Clamping of the radius and of the look-back window *)



End Clients.

(** ** The taxonomy search *)

Lemma prefix_app (p s : string) :
  prefix p s = true <-> exists post, s = p ++ post.
Proof.
  revert s. induction p as [ | c p IH]; intro s.
  - destruct s; simpl; (split; [ intros _; eexists; reflexivity | reflexivity ]).
  - destruct s as [ | c' s]; simpl.
    + split; [ discriminate | intros (post & H); discriminate H ].
    + destruct (ascii_dec c c') as [-> | Hne].
      * rewrite IH. split; intros (post & H); exists post.
        -- rewrite H. reflexivity.
        -- injection H as H. exact H.
      * split; [ discriminate | ].
        intros (post & H). injection H as H _. congruence.
Qed.

Lemma contains_occurs (p s : string) :
  EBird.contains p s = true <-> occurs_in p s.
Proof.
  induction s as [ | c s IH]; cbn [EBird.contains].
  - rewrite orb_false_r, prefix_app. split.
    + intros (post & H). exists "", post. exact H.
    + intros (pre & post & H). destruct pre; [ exists post; exact H | discriminate H ].
  - rewrite orb_true_iff, prefix_app, IH. split.
    + intros [(post & H) | (pre & post & H)].
      * exists "", post. exact H.
      * exists (String c pre), post. simpl. rewrite H. reflexivity.
    + intros (pre & post & H). destruct pre as [ | c' pre].
      * left. exists post. exact H.
      * right. simpl in H. injection H as _ H. exists pre, post. exact H.
Qed.

Lemma name_matches_pure (q : string) (t : json) (b : bool) :
  EBird.name_matches (EBird.lower q) t = Return b ->
  is_dict t /\ b = matches_query q t.
Proof.
  unfold EBird.name_matches.
  destruct t as [ | | | | | d]; try discriminate.
  cbn [py_get ebind]. unfold matches_query, name_has, lookup.
  destruct (match dict_get d "comName" with Some x => x | None => JStr "" end)
    as [ | | | c | | ]; try discriminate.
  cbn [EBird.py_lower ebind].
  destruct (EBird.contains (EBird.lower q) (EBird.lower c)).
  - intro H. injection H as <-. split; [ exists d | ]; reflexivity.
  - destruct (match dict_get d "sciName" with Some x => x | None => JStr "" end)
      as [ | | | sc | | ]; try discriminate.
    cbn [EBird.py_lower ebind].
    intro H. injection H as <-. split; [ exists d | ]; reflexivity.
Qed.

Lemma filter_exc_pure (q : string) (items hits : list json) :
  filter_exc (EBird.name_matches (EBird.lower q)) items = Return hits ->
  Forall is_dict items /\ hits = filter (matches_query q) items.
Proof.
  revert hits. induction items as [ | t items IH]; intros hits H; simpl in H.
  - injection H as <-. split; [ constructor | reflexivity ].
  - WeatherFacts.unbind H. injection H as <-.
    apply name_matches_pure in E. destruct E as (Hd & ->).
    destruct (IH _ E0) as (Hall & ->).
    split; [ constructor; assumption | ].
    simpl. destruct (matches_query q t); reflexivity.
Qed.

Lemma project_pure (d : list (string * json))
    (entries : list (string * string * json)) :
  EBird.project (JObj d) entries
  = Return (map (fun e : string * string * json =>
                   let '(out, key, default) := e in (out, lookup d key default))
                entries).
Proof.
  unfold EBird.project.
  induction entries as [ | [[out key] default] entries IH]; simpl in *.
  - reflexivity.
  - rewrite IH. reflexivity.
Qed.

Lemma rows_pure (entries : list (string * string * json))
    (items rows : list json) :
  entries <> [] ->
  for_each (fun t => d <- EBird.project t entries ;; Return (JObj d))%exc items
  = Return rows ->
  Forall is_dict items /\ rows = map (row_of entries) items.
Proof.
  intro Hne.
  revert rows. induction items as [ | t items IH]; intros rows H; simpl in H.
  - injection H as <-. split; [ constructor | reflexivity ].
  - WeatherFacts.unbind H. injection H as <-.
    WeatherFacts.unbind E. injection E as <-.
    destruct (IH _ E0) as (Hall & ->).
    destruct entries as [ | [[out key] default] entries]; [ congruence | ].
    destruct t as [ | | | | | d]; try discriminate E1.
    rewrite project_pure in E1. injection E1 as <-.
    split; [ constructor; [ exists d; reflexivity | assumption ] | reflexivity ].
Qed.

(** A call that hands back a result went through all four steps. *)
Lemma invoke_success (fsqrt : Q -> Q) (self : EBird.EBirdTools) (c : call)
    (net : transport) (a : payload) :
  snd (invoke fsqrt self c net) = Str_of a ->
  exists resp data,
    net (request_of self c) = Return resp
    /\ raise_for_status resp = Return tt
    /\ json_body resp = Return data
    /\ process fsqrt c data = Return a.
Proof.
  rewrite invoke_outcome. cbn [snd].
  destruct (outcome fsqrt self c net) as [a' | e] eqn:E; [ | discriminate ].
  intro H. injection H as <-.
  unfold outcome in E. WeatherFacts.unbind E.
  destruct v0. exists v, v1. auto.
Qed.

Lemma head_slice (A : Type) (k : nat) (l : list A) :
  slice_list 0 (Z.of_nat k) l = firstn k l.
Proof.
  unfold slice_list, slice_bound.
  change (0 <? 0)%Z with false. cbv iota.
  destruct (Z.ltb_spec (Z.of_nat k) 0) as [H | _]; [ lia | ].
  rewrite Nat2Z.id. change (Z.to_nat 0) with 0%nat.
  rewrite Nat.min_0_l, WeatherFacts.firstn_min_length. reflexivity.
Qed.

Lemma matching_row_named (q : string) (t : json) :
  matches_query q t = true ->
  named_like q (row_of EBird.taxonomy_entries t).
Proof.
  destruct t as [ | | | | | d]; try discriminate.
  unfold matches_query, name_has. intro H. apply orb_true_iff in H.
  destruct H as [H | H].
  - destruct (lookup d "comName" (JStr "")) as [ | | | c | | ] eqn:E;
      try discriminate H.
    exists c. split; [ left | apply contains_occurs; exact H ].
    cbn. rewrite E. reflexivity.
  - destruct (lookup d "sciName" (JStr "")) as [ | | | c | | ] eqn:E;
      try discriminate H.
    exists c. split; [ right | apply contains_occurs; exact H ].
    cbn. rewrite E. reflexivity.
Qed.

Lemma in_firstn (A : Type) (n : nat) (l : list A) (x : A) :
  In x (firstn n l) -> In x l.
Proof.
  intro H. rewrite <- (firstn_skipn n l). apply in_or_app. left. exact H.
Qed.

Lemma filter_taxonomy_hits (q : string) (data filtered : json) :
  q <> "" ->
  EBird.filter_taxonomy (Some q) data = Return filtered ->
  exists items,
    py_iter data = Return items
    /\ filtered = JArr (firstn 20 (filter (matches_query q) items)).
Proof.
  intros Hq H. unfold EBird.filter_taxonomy, EBird.given in H.
  destruct (String.eqb_spec q "") as [-> | _]; [ congruence | ].
  cbn [negb] in H.
  destruct (py_iter data) as [items | ]; [ | discriminate H ].
  cbn [ebind] in H.
  destruct (filter_exc _ items) as [hits | ] eqn:Eh; [ | discriminate H ].
  cbn [ebind] in H. injection H as <-.
  apply filter_exc_pure in Eh. destruct Eh as (_ & ->).
  exists items. split; [ reflexivity | ].
  change 20%Z with (Z.of_nat 20). rewrite head_slice. reflexivity.
Qed.

Lemma format_taxonomy_rows (l results : list json) :
  EBird.format_taxonomy (JArr l) = Return results ->
  results = map (row_of EBird.taxonomy_entries) (firstn 50 l).
Proof.
  unfold EBird.format_taxonomy. cbn [py_slice py_iter ebind].
  change 50%Z with (Z.of_nat 50). rewrite head_slice.
  intro H. apply rows_pure in H; [ | discriminate ].
  exact (proj2 H).
Qed.

(** C7: with a search query that is not empty, the rows [get_taxonomy]
    returns are the rows of the entries of the response whose common or
    scientific name contains the query, both folded to lower case; the
    matches are cut to the first 20, then the cut to 50 is applied. *)
Theorem taxonomy_search_filters (self : EBird.EBirdTools)
    (codes : option string) (q : string) (net : transport)
    (results : list json) :
  q <> "" ->
  snd (EBird.get_taxonomy self codes (Some q) net) = Str_of results ->
  exists resp taxonomy items,
    net (EBird.taxonomy_request self codes) = Return resp
    /\ json_body resp = Return taxonomy
    /\ py_iter taxonomy = Return items
    /\ results
       = map (row_of EBird.taxonomy_entries)
             (firstn 50 (firstn 20 (filter (matches_query q) items)))
    /\ (List.length results <= 20)%nat
    /\ Forall (named_like q) results.
Proof.
  intros Hq H.
  assert (H' : snd (invoke (fun x => x) self (Taxonomy codes (Some q)) net)
               = Str_of (Rows results)).
  { cbn. rewrite H. reflexivity. }
  apply invoke_success in H'.
  destruct H' as (resp & data & Hnet & _ & Hbody & Hp).
  cbn in Hnet. cbn [process] in Hp.
  destruct (EBird.filter_taxonomy (Some q) data) as [filtered | ] eqn:Ef;
    [ | discriminate Hp ].
  cbn [ebind] in Hp.
  destruct (EBird.format_taxonomy filtered) as [rows | ] eqn:Er;
    [ | discriminate Hp ].
  cbn [ebind] in Hp. injection Hp as <-.
  destruct (@filter_taxonomy_hits q data filtered Hq Ef) as (items & Hi & ->).
  apply format_taxonomy_rows in Er. subst rows.
  exists resp, data, items. repeat split; trivial.
  - rewrite length_map, !length_firstn. lia.
  - apply Forall_forall. intros r Hr.
    apply in_map_iff in Hr. destruct Hr as (t & <- & Ht).
    apply matching_row_named.
    apply in_firstn, in_firstn in Ht.
    apply filter_In in Ht. exact (proj2 Ht).
Qed.

(** ** The sort of the rare-bird sightings *)

Section StableSort.

Variable A : Type.

Lemma key_le_trans : Relations_1.Transitive (@key_le A).
Proof. intros x y z. unfold key_le. apply Qle_trans. Qed.

Lemma insert_by_perm (kx : Q * A) (l : list (Q * A)) :
  Permutation (EBird.insert_by kx l) (kx :: l).
Proof.
  induction l as [ | ky l IH]; simpl.
  - apply Permutation_refl.
  - destruct (Qlt_le_dec (fst ky) (fst kx)).
    + apply perm_trans with (ky :: kx :: l).
      * apply perm_skip. exact IH.
      * apply perm_swap.
    + apply Permutation_refl.
Qed.

Lemma stable_sort_perm (l : list (Q * A)) :
  Permutation (EBird.stable_sort l) l.
Proof.
  induction l as [ | kx l IH]; simpl.
  - apply perm_nil.
  - apply perm_trans with (kx :: EBird.stable_sort l).
    + apply insert_by_perm.
    + apply perm_skip. exact IH.
Qed.

Lemma insert_by_hd (a kx : Q * A) (l : list (Q * A)) :
  HdRel key_le a l -> key_le a kx -> HdRel key_le a (EBird.insert_by kx l).
Proof.
  intros Hl Ha. destruct l as [ | ky l]; simpl.
  - constructor. exact Ha.
  - destruct (Qlt_le_dec (fst ky) (fst kx)); constructor.
    + inversion Hl. assumption.
    + exact Ha.
Qed.

Lemma insert_by_sorted (kx : Q * A) (l : list (Q * A)) :
  Sorted key_le l -> Sorted key_le (EBird.insert_by kx l).
Proof.
  induction 1 as [ | ky l Hs IH Hhd]; simpl.
  - repeat constructor.
  - destruct (Qlt_le_dec (fst ky) (fst kx)) as [Hlt | Hle].
    + constructor; [ exact IH | ].
      apply insert_by_hd; [ exact Hhd | ].
      apply Qlt_le_weak. exact Hlt.
    + constructor; [ constructor; assumption | ].
      constructor. exact Hle.
Qed.

Lemma stable_sort_sorted (l : list (Q * A)) :
  Sorted key_le (EBird.stable_sort l).
Proof.
  induction l as [ | kx l IH]; simpl.
  - constructor.
  - apply insert_by_sorted. exact IH.
Qed.

(** Insertion does not move an item past an item of the same key. *)
Lemma insert_by_filter (q : Q) (kx : Q * A) (l : list (Q * A)) :
  filter (key_is q) (EBird.insert_by kx l) = filter (key_is q) (kx :: l).
Proof.
  induction l as [ | ky l IH]; [ reflexivity | ].
  cbn [EBird.insert_by].
  destruct (Qlt_le_dec (fst ky) (fst kx)) as [Hlt | Hle]; [ | reflexivity ].
  cbn [filter] in *. rewrite IH.
  destruct (key_is q ky) eqn:Ey, (key_is q kx) eqn:Ex; try reflexivity.
  exfalso. unfold key_is in Ey, Ex.
  apply Qeq_bool_iff in Ey, Ex.
  rewrite Ey, Ex in Hlt. exact (Qlt_irrefl q Hlt).
Qed.

Lemma stable_sort_filter (q : Q) (l : list (Q * A)) :
  filter (key_is q) (EBird.stable_sort l) = filter (key_is q) l.
Proof.
  induction l as [ | kx l IH]; [ reflexivity | ].
  cbn [EBird.stable_sort]. rewrite insert_by_filter.
  cbn [filter]. rewrite IH. reflexivity.
Qed.

End StableSort.

Lemma keyed_faithful (l : list json) (ks : list (Q * json)) :
  for_each (EBird.keyed EBird.distance_key) l = Return ks ->
  map snd ks = l /\ Forall faithful ks.
Proof.
  revert ks. induction l as [ | x l IH]; intros ks H; simpl in H.
  - injection H as <-. split; [ reflexivity | constructor ].
  - destruct (EBird.keyed EBird.distance_key x) as [p | ] eqn:Ep;
      [ | discriminate H ].
    cbn [ebind] in H.
    destruct (for_each _ l) as [ks' | ]; [ | discriminate H ].
    cbn [ebind] in H. injection H as <-.
    destruct (IH ks' eq_refl) as (Hm & Hf).
    unfold EBird.keyed in Ep.
    destruct (EBird.distance_key x) as [k | ] eqn:Ek; [ | discriminate Ep ].
    cbn [ebind] in Ep.
    destruct (as_number k) as [a | ] eqn:Ea; [ | discriminate Ep ].
    injection Ep as <-.
    split; [ simpl; rewrite Hm; reflexivity | ].
    constructor; [ | exact Hf ].
    unfold faithful, distance_of. simpl. rewrite Ek. exact Ea.
Qed.

Lemma faithful_sorted (ks : list (Q * json)) :
  Forall faithful ks -> StronglySorted (@key_le json) ks ->
  StronglySorted closer (map snd ks).
Proof.
  intros Hf Hs. induction Hs as [ | p ks Hs IH Hall]; simpl.
  - constructor.
  - inversion Hf as [ | ? ? Hp Hks]; subst.
    constructor; [ apply IH; exact Hks | ].
    apply Forall_forall. intros y Hy.
    apply in_map_iff in Hy. destruct Hy as (p' & <- & Hin).
    rewrite Forall_forall in Hall, Hks.
    unfold closer. rewrite Hp, (Hks p' Hin). exact (Hall p' Hin).
Qed.

Lemma faithful_filter (q : Q) (ks : list (Q * json)) :
  Forall faithful ks ->
  filter (at_distance q) (map snd ks) = map snd (filter (@key_is json q) ks).
Proof.
  induction 1 as [ | p ks Hp Hks IH]; [ reflexivity | ].
  simpl. unfold at_distance at 1. rewrite Hp. unfold key_is at 1.
  destruct (Qeq_bool (fst p) q); simpl; rewrite IH; reflexivity.
Qed.

(** What [results.sort(key=...)] does to a list of records. *)
Lemma py_sort_spec (l out : list json) :
  EBird.py_sort EBird.distance_key l = Return out ->
  Permutation out l
  /\ StronglySorted closer out
  /\ (forall q, filter (at_distance q) out = filter (at_distance q) l).
Proof.
  unfold EBird.py_sort. intro H.
  destruct (for_each _ l) as [ks | ] eqn:Ek; [ | discriminate H ].
  cbn [ebind] in H. injection H as <-.
  apply keyed_faithful in Ek. destruct Ek as (<- & Hf).
  assert (Hf' : Forall faithful (EBird.stable_sort ks)).
  { apply (Permutation_Forall (Permutation_sym (stable_sort_perm ks))).
    exact Hf. }
  repeat split.
  - apply Permutation_map, stable_sort_perm.
  - apply faithful_sorted; [ exact Hf' | ].
    apply Sorted_StronglySorted; [ apply key_le_trans | ].
    apply stable_sort_sorted.
  - intro q. rewrite !faithful_filter by assumption.
    rewrite stable_sort_filter. reflexivity.
Qed.

Lemma annotate_has_distance (fsqrt : Q -> Q) (la lo : Q) (obs x : json) :
  EBird.annotate fsqrt la lo obs = Return x -> has_distance x.
Proof.
  unfold EBird.annotate. intro H.
  destruct obs as [ | | | | | d0]; try discriminate H.
  rewrite project_pure in H. cbn [ebind] in H.
  destruct (EBird.planar_distance fsqrt la lo (JObj d0)) as [k | ];
    [ | discriminate H ].
  cbn [ebind] in H. injection H as <-.
  eexists. exists k. split; [ reflexivity | ].
  split; reflexivity.
Qed.

Lemma for_each_all (A B : Type) (f : A -> exc B) (P : B -> Prop) :
  (forall a b, f a = Return b -> P b) ->
  forall l out, for_each f l = Return out -> Forall P out.
Proof.
  intros Hf l. induction l as [ | a l IH]; intros out H; simpl in H.
  - injection H as <-. constructor.
  - destruct (f a) as [b | ] eqn:Eb; [ | discriminate H ].
    cbn [ebind] in H.
    destruct (for_each f l) as [bs | ]; [ | discriminate H ].
    cbn [ebind] in H. injection H as <-.
    constructor; [ exact (Hf a b Eb) | apply IH; reflexivity ].
Qed.

(** C4: the list [get_rare_birds_nearby] returns is the list of the
    annotated sightings in another order: no record lies farther than
    one behind it, and the records at one distance keep the order of
    the response.  Every record returned carries a distance.  The sort
    key of a record without the field is 999, and that is the number
    the sort of any list of records uses for it. *)
Theorem rare_birds_sorted_by_distance (fsqrt : Q -> Q)
    (self : EBird.EBirdTools) (la lo : Q) (d b : Z) (net : transport)
    (results : list json) :
  snd (EBird.get_rare_birds_nearby fsqrt self la lo d b net) = Str_of results ->
  exists resp observations items annotated,
    net (EBird.rare_request self la lo d b) = Return resp
    /\ json_body resp = Return observations
    /\ py_iter observations = Return items
    /\ for_each (EBird.annotate fsqrt la lo) items = Return annotated
    /\ Permutation results annotated
    /\ StronglySorted closer results
    /\ (forall q, filter (at_distance q) results
                  = filter (at_distance q) annotated)
    /\ Forall has_distance results
    /\ (forall fields,
          dict_get fields "distance_km" = None ->
          distance_of (JObj fields) = Some 999)
    /\ (forall l out,
          EBird.py_sort EBird.distance_key l = Return out ->
          Permutation out l /\ StronglySorted closer out).
Proof.
  intro H.
  assert (H' : snd (invoke fsqrt self (RareBirdsNearby la lo d b) net)
               = Str_of (Rows results)).
  { cbn. rewrite H. reflexivity. }
  apply invoke_success in H'.
  destruct H' as (resp & data & Hnet & _ & Hbody & Hp).
  cbn in Hnet. cbn [process] in Hp.
  destruct (EBird.rank fsqrt la lo data) as [rows | ] eqn:Er;
    [ | discriminate Hp ].
  cbn [ebind] in Hp. injection Hp as <-.
  unfold EBird.rank in Er.
  destruct (py_iter data) as [items | ] eqn:Ei; [ | discriminate Er ].
  cbn [ebind] in Er.
  destruct (for_each (EBird.annotate fsqrt la lo) items) as [annotated | ] eqn:Ea;
    [ | discriminate Er ].
  cbn [ebind] in Er.
  destruct (py_sort_spec _ Er) as (Hperm & Hsorted & Hstable).
  exists resp, data, items, annotated.
  repeat split; trivial.
  - apply (Permutation_Forall (Permutation_sym Hperm)).
    eapply for_each_all; [ | exact Ea ].
    intros obs x. apply annotate_has_distance.
  - intros fields Hf. unfold distance_of, EBird.distance_key. simpl.
    rewrite Hf. reflexivity.
  - apply (py_sort_spec _ H0).
  - apply (py_sort_spec _ H0).
Qed.

(** ** The theorems at work on a sample toolkit *)

Lemma ranked_served :
  snd (EBird.get_rare_birds_nearby sample_sqrt sample_tools 0 0 80 45
         (serve sightings)) = Str_of ranked.
Proof. vm_compute. reflexivity. Qed.

Example ranked_order :
  map (fun x => lookup match x with JObj f => f | _ => [] end "species" JNull)
      ranked
  = [JStr "Ruff"; JStr "Gyrfalcon"; JStr "Snowy Owl"]
  /\ map distance_of ranked
     = [Some (1110 # 10); Some (1110 # 10); Some (2220 # 10)].
Proof. vm_compute. split; reflexivity. Qed.

Lemma rare_birds_sorted_by_distance_witness :
  StronglySorted closer ranked /\ Forall has_distance ranked.
Proof.
  destruct (rare_birds_sorted_by_distance sample_sqrt sample_tools 0 0 80 45
              (serve sightings) ranked_served)
    as (resp & observations & items & annotated & H).
  split; apply H.
Defined.


Example hotspots_80_requests_50 :
  fst (EBird.get_nearby_hotspots sample_tools 0 0 80 20
         (serve (JArr [])))
  = [Request "https://api.ebird.org/v2/ref/hotspot/geo"
             [("X-eBirdApiToken", "token")]
             [("lat", PNum 0); ("lng", PNum 0); ("dist", PInt 50);
              ("fmt", PStr "json")]]
  /\ snd (EBird.get_nearby_hotspots sample_tools 0 0 80 20
            (serve (JArr []))) = Str_of [].
Proof. vm_compute. split; reflexivity. Qed.

Lemma cardinals_served :
  snd (EBird.get_taxonomy sample_tools None (Some "Cardinal")
         (serve checklist)) = Str_of cardinals.
Proof. vm_compute. reflexivity. Qed.

Example cardinals_found :
  map (fun x => lookup match x with JObj f => f | _ => [] end "common_name" JNull)
      cardinals
  = [JStr "Northern Cardinal"; JStr "Pyrrhuloxia"].
Proof. vm_compute. reflexivity. Qed.

Lemma taxonomy_search_filters_witness :
  (List.length cardinals <= 20)%nat /\ Forall (named_like "Cardinal") cardinals.
Proof.
  assert (Hq : "Cardinal" <> "") by discriminate.
  destruct (@taxonomy_search_filters sample_tools None "Cardinal"
              (serve checklist) cardinals Hq cardinals_served)
    as (resp & taxonomy & items & H).
  split; apply H.
Defined.

End ClientFacts.

(* ================================================================== *)
(** * The fuel of the JSON decoder *)

Module TextFacts.
Import Py Text.

Unset Implicit Arguments.

Local Abbreviation len := String.length.

Lemma skip_ws_length (s : string) : (len (skip_ws s) <= len s)%nat.
Proof.
  induction s as [ | c s IH]; simpl; [ lia | ].
  destruct (json_space c); simpl; lia.
Qed.

Lemma eat_length (c : ascii) (s r : string) :
  eat c s = Some r -> len s = S (len r).
Proof.
  destruct s as [ | a s]; simpl; [ discriminate | ].
  destruct (Ascii.eqb a c); [ | discriminate ].
  intro H. injection H as <-. reflexivity.
Qed.

Lemma take_digits_length (s : string) :
  forall (acc : Z) (n : nat) (v : Z) (k : nat) (r : string),
    take_digits s acc n = (v, k, r) ->
    (n <= k)%nat /\ (len r + (k - n) = len s)%nat.
Proof.
  induction s as [ | c s IH]; intros acc n v k r H; simpl in H.
  - injection H as <- <- <-. simpl. lia.
  - destruct (digit_val c) as [d | ].
    + apply IH in H. simpl. lia.
    + injection H as <- <- <-. simpl. lia.
Qed.

Lemma take_frac_length (s : string) (f : Q) (r : string) :
  take_frac s = (f, r) -> (len r <= len s)%nat.
Proof.
  unfold take_frac. destruct (eat "." s) as [s' | ] eqn:E.
  - apply eat_length in E.
    destruct (take_digits s' 0 0) as [[v n] rest] eqn:D.
    apply take_digits_length in D.
    destruct n; intro H; injection H as <- <-; lia.
  - intro H. injection H as <- <-. lia.
Qed.

Lemma take_sign_length (s : string) (b : bool) (r : string) :
  take_sign s = (b, r) -> (len r <= len s)%nat.
Proof.
  unfold take_sign.
  destruct (eat "-" s) as [r1 | ] eqn:E1.
  - apply eat_length in E1. intro H. injection H as <- <-. lia.
  - destruct (eat "+" s) as [r2 | ] eqn:E2.
    + apply eat_length in E2. intro H. injection H as <- <-. lia.
    + intro H. injection H as <- <-. lia.
Qed.

Lemma take_exp_length (s : string) (e : Q) (r : string) :
  take_exp s = (e, r) -> (len r <= len s)%nat.
Proof.
  unfold take_exp. destruct s as [ | c s'].
  - intro H. injection H as <- <-. lia.
  - destruct (Ascii.eqb c "e" || Ascii.eqb c "E").
    + destruct (take_sign s') as [neg s1] eqn:S1.
      apply take_sign_length in S1.
      destruct (take_digits s1 0 0) as [[v n] rest] eqn:D.
      apply take_digits_length in D.
      destruct n; intro H; injection H as <- <-; simpl; lia.
    + intro H. injection H as <- <-. lia.
Qed.

Lemma take_int_length (s : string) (v : Z) (r : string) :
  take_int s = Some (v, r) -> (len r < len s)%nat.
Proof.
  unfold take_int. destruct (eat "0" s) as [r0 | ] eqn:E.
  - apply eat_length in E. intro H. injection H as <- <-. lia.
  - destruct s as [ | c s']; [ discriminate | ].
    destruct (digit_val c) as [d | ] eqn:Ed; [ | discriminate ].
    destruct (take_digits (String c s') 0 0) as [[v' k] rest] eqn:D.
    intro H. injection H as <- <-.
    simpl in D. rewrite Ed in D. apply take_digits_length in D.
    simpl. lia.
Qed.

Lemma parse_number_length (s : string) (q : Q) (r : string) :
  parse_number s = Some (q, r) -> (len r < len s)%nat.
Proof.
  unfold parse_number.
  assert (Hs : exists neg s1,
             match eat "-" s with
             | Some r => (true, r)
             | None => (false, s)
             end = (neg, s1) /\ (len s1 <= len s)%nat).
  { destruct (eat "-" s) as [r0 | ] eqn:E.
    - apply eat_length in E. exists true, r0. split; [ reflexivity | lia ].
    - exists false, s. split; [ reflexivity | lia ]. }
  destruct Hs as (neg & s1 & -> & Hs1).
  destruct (take_int s1) as [[v r0] | ] eqn:I; [ | discriminate ].
  apply take_int_length in I.
  destruct (take_frac r0) as [f r1] eqn:F. apply take_frac_length in F.
  destruct (take_exp r1) as [e r2] eqn:X. apply take_exp_length in X.
  intro H. injection H as _ <-. lia.
Qed.

Lemma cons_char_rest (c : ascii) (o : option (string * string))
    (str r : string) :
  cons_char c o = Some (str, r) -> exists str', o = Some (str', r).
Proof.
  destruct o as [[s' r'] | ]; simpl; [ | discriminate ].
  intro H. injection H as _ <-. exists s'. reflexivity.
Qed.

Lemma parse_chars_length (n : nat) :
  forall (s str r : string),
    (len s <= n)%nat -> parse_chars s = Some (str, r) -> (len r < len s)%nat.
Proof.
  induction n as [ | n IH]; intros s str r Hn H.
  - destruct s; [ discriminate H | simpl in Hn; lia ].
  - destruct s as [ | c s']; [ discriminate H | ].
    simpl in Hn. cbn [parse_chars] in H.
    destruct (Ascii.eqb c dquote).
    { injection H as _ <-. simpl. lia. }
    destruct (Ascii.eqb c backslash).
    + destruct s' as [ | e s'']; [ discriminate H | ].
      destruct (Ascii.eqb e "u").
      * destruct s'' as [ | h1 [ | h2 [ | h3 [ | h4 s3]]]]; try discriminate H.
        destruct (hex4 h1 h2 h3 h4) as [code | ]; [ | discriminate H ].
        destruct (code <? 256)%nat; [ | discriminate H ].
        apply cons_char_rest in H. destruct H as (str' & H).
        apply IH in H; simpl in *; lia.
      * destruct (unescape e); [ | discriminate H ].
        apply cons_char_rest in H. destruct H as (str' & H).
        apply IH in H; simpl in *; lia.
    + destruct (nat_of_ascii c <? 32)%nat; [ discriminate H | ].
      apply cons_char_rest in H. destruct H as (str' & H).
      apply IH in H; simpl in *; lia.
Qed.

Lemma prefix_drop_length (p s : string) :
  prefix p s = true -> (len (drop (len p) s) + len p = len s)%nat.
Proof.
  revert s. induction p as [ | c p IH]; intro s.
  - intros _. simpl. lia.
  - destruct s as [ | a s]; simpl; [ discriminate | ].
    destruct (ascii_dec c a); [ | discriminate ].
    intro H. apply IH in H. lia.
Qed.

(** A value that some fuel decodes is decoded by every fuel from the
    number of characters it takes; the rest of the text is shorter than
    the text. *)
Lemma parse_fuel (n : nat) :
  (forall s v r,
      parse_value n s = Some (v, r) ->
      (len r < len s)%nat
      /\ forall m, (len s - len r <= m)%nat -> parse_value m s = Some (v, r))
  /\ (forall s acc v r,
        parse_members n s acc = Some (v, r) ->
        (len r < len s)%nat
        /\ forall m, (len s - len r <= m)%nat ->
                     parse_members m s acc = Some (v, r))
  /\ (forall s acc v r,
        parse_elements n s acc = Some (v, r) ->
        (len r < len s)%nat
        /\ forall m, (len s - len r <= m)%nat ->
                     parse_elements m s acc = Some (v, r)).
Proof.
  induction n as [ | n (IHv & IHm & IHe)].
  { split; [ | split ]; intros; discriminate. }
  split; [ | split ].
  - intros s v r H. destruct s as [ | c r0]; [ discriminate H | ].
    cbn [parse_value] in H. pose proof (skip_ws_length r0) as Hw.
    destruct (Ascii.eqb c "{") eqn:Eo.
    { destruct (eat "}" (skip_ws r0)) as [r' | ] eqn:Ee.
      - injection H as <- <-. pose proof (eat_length _ _ _ Ee) as Hl.
        cbn [String.length]. split; [ lia | ].
        intros [ | m] Hm; [ lia | ].
        cbn [parse_value]. rewrite Eo, Ee. reflexivity.
      - apply IHm in H. destruct H as (Hl & Hf).
        cbn [String.length]. split; [ lia | ].
        intros [ | m] Hm; [ lia | ].
        cbn [parse_value]. rewrite Eo, Ee. apply Hf. lia. }
    destruct (Ascii.eqb c "[") eqn:Eb.
    { destruct (eat "]" (skip_ws r0)) as [r' | ] eqn:Ee.
      - injection H as <- <-. pose proof (eat_length _ _ _ Ee) as Hl.
        cbn [String.length]. split; [ lia | ].
        intros [ | m] Hm; [ lia | ].
        cbn [parse_value]. rewrite Eo, Eb, Ee. reflexivity.
      - apply IHe in H. destruct H as (Hl & Hf).
        cbn [String.length]. split; [ lia | ].
        intros [ | m] Hm; [ lia | ].
        cbn [parse_value]. rewrite Eo, Eb, Ee. apply Hf. lia. }
    destruct (Ascii.eqb c dquote) eqn:Eq.
    { destruct (parse_chars r0) as [[str r'] | ] eqn:Ec; [ | discriminate H ].
      injection H as <- <-.
      pose proof (parse_chars_length (len r0) r0 str r' (le_n _) Ec) as Hl.
      cbn [String.length]. split; [ lia | ].
      intros [ | m] Hm; [ lia | ].
      cbn [parse_value]. rewrite Eo, Eb, Eq, Ec. reflexivity. }
    destruct (prefix "null" (String c r0)) eqn:En.
    { pose proof (prefix_drop_length _ _ En) as Hl.
      change (len "null") with 4%nat in Hl.
      remember (drop 4 (String c r0)) as d eqn:Hd.
      injection H as <- <-.
      split; [ lia | ].
      intros [ | m] Hm; [ lia | ].
      cbn [parse_value]. rewrite Eo, Eb, Eq, En. subst d. reflexivity. }
    destruct (prefix "true" (String c r0)) eqn:Et.
    { pose proof (prefix_drop_length _ _ Et) as Hl.
      change (len "true") with 4%nat in Hl.
      remember (drop 4 (String c r0)) as d eqn:Hd.
      injection H as <- <-.
      split; [ lia | ].
      intros [ | m] Hm; [ lia | ].
      cbn [parse_value]. rewrite Eo, Eb, Eq, En, Et. subst d. reflexivity. }
    destruct (prefix "false" (String c r0)) eqn:Ef.
    { pose proof (prefix_drop_length _ _ Ef) as Hl.
      change (len "false") with 5%nat in Hl.
      remember (drop 5 (String c r0)) as d eqn:Hd.
      injection H as <- <-.
      split; [ lia | ].
      intros [ | m] Hm; [ lia | ].
      cbn [parse_value]. rewrite Eo, Eb, Eq, En, Et, Ef. subst d. reflexivity. }
    destruct (parse_number (String c r0)) as [[q r'] | ] eqn:Enum;
      [ | discriminate H ].
    injection H as <- <-.
    pose proof (parse_number_length _ _ _ Enum) as Hl.
    split; [ lia | ].
    intros [ | m] Hm; [ lia | ].
    cbn [parse_value]. rewrite Eo, Eb, Eq, En, Et, Ef, Enum. reflexivity.
  - intros s acc v r H. cbn [parse_members] in H.
    destruct (eat dquote s) as [r0 | ] eqn:E0; [ | discriminate H ].
    destruct (parse_chars r0) as [[key r1] | ] eqn:E1; [ | discriminate H ].
    destruct (eat ":" (skip_ws r1)) as [r2 | ] eqn:E2; [ | discriminate H ].
    destruct (parse_value n (skip_ws r2)) as [[v1 r3] | ] eqn:E3;
      [ | discriminate H ].
    destruct (skip_ws r3) as [ | c r4] eqn:E4; [ discriminate H | ].
    pose proof (eat_length _ _ _ E0) as L0.
    pose proof (parse_chars_length (len r0) r0 key r1 (le_n _) E1) as L1.
    pose proof (eat_length _ _ _ E2) as L2.
    pose proof (skip_ws_length r1) as W1.
    pose proof (skip_ws_length r2) as W2.
    pose proof (skip_ws_length r3) as W3. rewrite E4 in W3.
    cbn [String.length] in W3.
    pose proof (skip_ws_length r4) as W4.
    destruct (IHv _ _ _ E3) as (L3 & F3).
    destruct (Ascii.eqb c ",") eqn:Ecomma.
    + apply IHm in H. destruct H as (L & F).
      split; [ lia | ].
      intros [ | m] Hm; [ lia | ].
      cbn [parse_members]. rewrite E0, E1, E2, (F3 m) by lia.
      rewrite E4, Ecomma. apply F. lia.
    + destruct (Ascii.eqb c "}") eqn:Eclose; [ | discriminate H ].
      injection H as <- <-.
      split; [ lia | ].
      intros [ | m] Hm; [ lia | ].
      cbn [parse_members]. rewrite E0, E1, E2, (F3 m) by lia.
      rewrite E4, Ecomma, Eclose. reflexivity.
  - intros s acc v r H. cbn [parse_elements] in H.
    destruct (parse_value n s) as [[v1 r1] | ] eqn:E1; [ | discriminate H ].
    destruct (skip_ws r1) as [ | c r2] eqn:E2; [ discriminate H | ].
    pose proof (skip_ws_length r1) as W1. rewrite E2 in W1.
    cbn [String.length] in W1.
    pose proof (skip_ws_length r2) as W2.
    destruct (IHv _ _ _ E1) as (L1 & F1).
    destruct (Ascii.eqb c ",") eqn:Ecomma.
    + apply IHe in H. destruct H as (L & F).
      split; [ lia | ].
      intros [ | m] Hm; [ lia | ].
      cbn [parse_elements]. rewrite (F1 m) by lia.
      rewrite E2, Ecomma. apply F. lia.
    + destruct (Ascii.eqb c "]") eqn:Eclose; [ | discriminate H ].
      injection H as <- <-.
      split; [ lia | ].
      intros [ | m] Hm; [ lia | ].
      cbn [parse_elements]. rewrite (F1 m) by lia.
      rewrite E2, Ecomma, Eclose. reflexivity.
Qed.

(** The fuel [json_loads] gives is enough: whatever a larger fuel
    decodes, [json_loads] decodes. *)
Theorem json_loads_fuel (n : nat) (s : string) (v : json) (rest : string) :
  parse_value n (skip_ws s) = Some (v, rest) ->
  parse_value (S (len s)) (skip_ws s) = Some (v, rest).
Proof.
  intro H. destruct (parse_fuel n) as (Hv & _).
  destruct (Hv _ _ _ H) as (_ & Hf). apply Hf.
  pose proof (skip_ws_length s). lia.
Qed.

End TextFacts.

(* ================================================================== *)
(** * Properties of the handlers *)

Module HandlerFacts.
Import Py Text Main ClientSpec HandlerSpec.

(** C10: with an empty species list the handler of the area-based
    targets raises HTTP 400 with the detail that tells the user to add
    birds to the life list first, and [agent.run] is not called: the log
    of the runs is the one the handler found. *)
Theorem empty_species_rejected (env : agent_env) (current_date : string)
    (request : AreaBasedTargetsRequest) (w : world) :
  species request = [] ->
  snd (get_area_based_targets env current_date request w)
  = HTTPException 400
      "At least one species is required. Add birds to your life list first."
  /\ runs (fst (get_area_based_targets env current_date request w)) = runs w
  /\ occurs_in "Add birds to your life list first"
       no_species_detail.
Proof.
  intro H. unfold get_area_based_targets. rewrite H.
  unfold get_agent. destruct (cached LIFELIST w); simpl.
  - repeat split. exists "At least one species is required. ", ".". reflexivity.
  - repeat split. exists "At least one species is required. ", ".". reflexivity.
Qed.

Lemma empty_species_rejected_witness :
  snd (get_area_based_targets (answering "{}") "May 01, 2025" no_birds fresh)
  = HTTPException 400
      "At least one species is required. Add birds to your life list first."
  /\ runs (fst (get_area_based_targets (answering "{}") "May 01, 2025"
                  no_birds fresh)) = runs fresh
  /\ occurs_in "Add birds to your life list first"
       no_species_detail.
Proof.
  apply (@empty_species_rejected (answering "{}") "May 01, 2025" no_birds fresh).
  reflexivity.
Defined.

(** With a species on the list the agent is run once. *)
Lemma species_given_runs_agent (env : agent_env) (current_date : string)
    (request : AreaBasedTargetsRequest) (w : world) :
  species request <> [] ->
  runs (fst (get_area_based_targets env current_date request w))
  = (runs w ++ [(LIFELIST, targets_prompt request current_date)])%list.
Proof.
  intro H. unfold get_area_based_targets.
  destruct (species request) as [ | s l] eqn:E; [ congruence | ].
  unfold get_agent. destruct (cached LIFELIST w); reflexivity.
Qed.

(** ** Replies and what is extracted from them *)

Example plain_reply_decoded :
  sample_targets ruff_json
  = Ok {| birds := ruff_birds; recommendations := None;
          species_analyzed := 1; date := "May 01, 2025";
          targets_agent := "Life List Coach" |}.
Proof. vm_compute. reflexivity. Qed.

Example fenced_reply_decoded : sample_targets ruff_fenced = sample_targets ruff_json.
Proof. vm_compute. reflexivity. Qed.


(** ** Text around a JSON object *)

Unset Implicit Arguments.

Lemma append_assoc (a b c : string) : (a ++ b) ++ c = a ++ (b ++ c).
Proof. induction a as [ | x a IH]; simpl; [ | rewrite IH ]; reflexivity. Qed.















(** ** The brace pattern *)







(** ** The fence pattern *)











(** ** The two handlers on a reply *)

Section Replies.

Variable py_repr : json -> string.
Variables location current_date : string.
Variable request : AreaBasedTargetsRequest.
Variable w : world.


Lemma targets_for_extract (raw : string) :
  species request <> [] ->
  targets_for current_date request w raw
  = or_agent_error
      (extract_targets request current_date (WithContent (JStr raw))).
Proof.
  intro H. unfold targets_for, get_area_based_targets, get_agent.
  destruct (species request); [ congruence | ].
  destruct (cached LIFELIST w); reflexivity.
Qed.





End Replies.

Example tours_from_prose :
  tours_for (fun _ => "") "Boston"  fresh
    ("Here you go: "
     ++ quoted "{'tours': [{'title': 'Dawn walk', 'url': ' https://x.org '}]}"
     ++ " Enjoy.")
  = Ok {| tours := [ {| title := "Dawn walk"; tour_location := "";
                        url := "https://x.org"; description := None |} ];
          reply_location := "Boston";
          tours_agent := "Birding Tours Agent" |}.
Proof. vm_compute. reflexivity. Qed.

Example tours_malformed :
  tours_for (fun _ => "") "Boston" fresh (quoted "{'tours': [oops}")
  = Ok (empty_tours "Boston").
Proof. vm_compute. reflexivity. Qed.

End HandlerFacts.

(* ================================================================== *)
(** * More on the conditions score and the forecast *)

Module WeatherMore.
Import Py Weather WeatherSpec MoreSpec.

Unset Implicit Arguments.

Lemma wind_penalty_mono (w1 w2 : Q) :
  w1 <= w2 -> (wind_penalty w1 <= wind_penalty w2)%Z.
Proof.
  intro H. unfold wind_penalty.
  repeat destruct (Qlt_le_dec _ _); try lia; exfalso;
    match goal with
    | L : (?k < w1)%Q, G : (w2 <= ?k)%Q |- _ =>
        apply (Qlt_irrefl k);
        apply (Qlt_le_trans _ w1); [ exact L | ];
        apply (Qle_trans _ w2); assumption
    end.
Qed.

Lemma precip_penalty_mono (p1 p2 : Q) :
  p1 <= p2 -> (precip_penalty p1 <= precip_penalty p2)%Z.
Proof.
  intro H. unfold precip_penalty.
  repeat destruct (Qlt_le_dec _ _); try lia; exfalso;
    match goal with
    | L : (?k < p1)%Q, G : (p2 <= ?k)%Q |- _ =>
        apply (Qlt_irrefl k);
        apply (Qlt_le_trans _ p1); [ exact L | ];
        apply (Qle_trans _ p2); assumption
    end.
Qed.

(** The report behind a successful call, with its averages. *)
Lemma tool_averages (lat lng : Q) (net : transport) (r : birding_report) :
  snd (get_birding_conditions lat lng net) = Str_of r ->
  exists t w p c,
    score r = raw_score t w p c
    /\ rating r = rating_of (raw_score t w p c)
    /\ recommendations r =
         match recommendations_of t w p c with
         | [] => [msg_great]
         | recs => recs
         end.
Proof.
  intro H. apply WeatherFacts.tool_report in H. destruct H as (data & Hd).
  apply WeatherFacts.analyze_report in Hd.
  destruct Hd as (hourly & daily & t & w & p & c & _ & _ & _ & Hr).
  apply WeatherFacts.report_of_fields in Hr.
  destruct Hr as (Hs & Hrt & Hrec & _).
  exists t, w, p, c. auto.
Qed.

(** X1: more wind or a higher chance of rain never gives a better
    score: with the other two averages fixed, the score does not go up
    when the wind and the precipitation averages do not go down. *)
Theorem wind_and_rain_never_help (t c w1 w2 p1 p2 : Q) (daily : json)
    (r1 r2 : birding_report) :
  w1 <= w2 -> p1 <= p2 ->
  report_of t w1 p1 c daily = Return r1 ->
  report_of t w2 p2 c daily = Return r2 ->
  (raw_score t w2 p2 c <= raw_score t w1 p1 c)%Z
  /\ (score r2 <= score r1)%Z.
Proof.
  intros Hw Hp H1 H2.
  apply WeatherFacts.report_of_fields in H1, H2.
  destruct H1 as (-> & _). destruct H2 as (-> & _).
  pose proof (wind_penalty_mono w1 w2 Hw).
  pose proof (precip_penalty_mono p1 p2 Hp).
  unfold raw_score. lia.
Qed.

Lemma wind_and_rain_never_help_witness :
  (raw_score 18 25 50 50 <= raw_score 18 5 0 50)%Z
  /\ (65 <= 100)%Z.
Proof.
  assert (Hw : 5 <= 25) by (unfold Qle; simpl; lia).
  assert (Hp : 0 <= 50) by (unfold Qle; simpl; lia).
  exact (wind_and_rain_never_help 18 50 5 25 0 50 (JObj [])
           _ _ Hw Hp eq_refl eq_refl).
Defined.

Lemma when_length (b : bool) (s : string) :
  List.length (when b s) = if b then 1%nat else 0%nat.
Proof. destruct b; reflexivity. Qed.

Lemma cool_and_warm_exclusive (t : Q) : ltb t 10 && gtb t 25 = false.
Proof.
  unfold ltb, gtb. repeat destruct (Qlt_le_dec _ _); try reflexivity.
  exfalso. apply (Qlt_irrefl 10).
  apply (Qlt_trans _ 25); [ reflexivity | ].
  apply (Qlt_trans _ t); assumption.
Qed.

(** X2: the report always carries recommendations: between one and
    four of them, never both the cool-morning and the warm-day
    message. *)
Theorem recommendations_one_to_four (lat lng : Q) (net : transport)
    (r : birding_report) :
  snd (get_birding_conditions lat lng net) = Str_of r ->
  (1 <= List.length (recommendations r) <= 4)%nat
  /\ ~ (In msg_cool (recommendations r) /\ In msg_warm (recommendations r)).
Proof.
  intro H. apply tool_averages in H.
  destruct H as (t & w & p & c & _ & _ & ->).
  pose proof (cool_and_warm_exclusive t) as Hx.
  unfold recommendations_of.
  destruct (gtb w 20), (gtb p 40), (ltb c 20), (ltb t 10), (gtb t 25);
    try discriminate Hx; cbn;
    (split; [ lia | intros (Hc & Hw);
                    repeat (destruct Hc as [Hc | Hc]; try discriminate Hc);
                    repeat (destruct Hw as [Hw | Hw]; try discriminate Hw);
                    try contradiction ]).
Qed.

Lemma recommendations_one_to_four_witness :
  (1 <= List.length (recommendations harsh_report) <= 4)%nat
  /\ ~ (In msg_cool (recommendations harsh_report)
        /\ In msg_warm (recommendations harsh_report)).
Proof.
  exact (recommendations_one_to_four 0 0 (serve harsh_morning) harsh_report
           WeatherFacts.harsh_served).
Defined.

Lemma great_means_no_advice (t w p c : Q) :
  match recommendations_of t w p c with
  | [] => [msg_great]
  | recs => recs
  end = [msg_great] ->
  gtb w 20 = false /\ gtb p 40 = false /\ ltb c 20 = false
  /\ ltb t 10 = false /\ gtb t 25 = false.
Proof.
  unfold recommendations_of.
  destruct (gtb w 20), (gtb p 40), (ltb c 20), (ltb t 10), (gtb t 25);
    cbn; intro H; try discriminate H; auto.
Qed.

Ltac q_cases :=
  repeat destruct (Qlt_le_dec _ _);
  try discriminate; try lia;
  unfold Qlt, Qle in *; simpl in *; lia.

Lemma no_advice_penalties (t w p c : Q) :
  gtb w 20 = false -> gtb p 40 = false -> ltb c 20 = false ->
  ltb t 10 = false -> gtb t 25 = false ->
  (wind_penalty w <= 5)%Z /\ (precip_penalty p <= 10)%Z
  /\ (cloud_penalty c <= 10)%Z /\ temp_penalty t = 0%Z.
Proof.
  destruct t as [tn td], w as [wn wd], p as [pn pd], c as [cn cd].
  unfold gtb, ltb, wind_penalty, precip_penalty, cloud_penalty, temp_penalty.
  intros Hw Hp Hc Ht1 Ht2.
  repeat split.
  - clear Hp Hc Ht1 Ht2. q_cases.
  - clear Hw Hc Ht1 Ht2. q_cases.
  - clear Hw Hp Ht1 Ht2. q_cases.
  - clear Hw Hp Hc. q_cases.
Qed.

(** X3: the tool says that the conditions are great only when no
    advice applies, and then the score is 75 at least and the rating is
    Excellent or Good. *)
Theorem great_conditions_score_75 (lat lng : Q) (net : transport)
    (r : birding_report) :
  snd (get_birding_conditions lat lng net) = Str_of r ->
  recommendations r = [msg_great] ->
  (75 <= score r)%Z /\ (rating r = "Excellent" \/ rating r = "Good").
Proof.
  intros H Hg. apply tool_averages in H.
  destruct H as (t & w & p & c & -> & -> & Hrec).
  rewrite Hrec in Hg. clear Hrec.
  apply great_means_no_advice in Hg.
  destruct Hg as (Hw & Hp & Hc & Ht1 & Ht2).
  destruct (no_advice_penalties t w p c Hw Hp Hc Ht1 Ht2)
    as (Pw & Pp & Pc & Pt).
  pose proof (WeatherFacts.wind_penalty_range w).
  pose proof (WeatherFacts.precip_penalty_range p).
  pose proof (WeatherFacts.cloud_penalty_range c).
  assert (Hs : (75 <= raw_score t w p c)%Z) by (unfold raw_score; lia).
  split; [ exact Hs | ].
  unfold rating_of.
  destruct (80 <=? raw_score t w p c)%Z; [ left; reflexivity | ].
  destruct (60 <=? raw_score t w p c)%Z eqn:E; [ right; reflexivity | ].
  apply Z.leb_gt in E. lia.
Qed.

(** A mild morning with some wind, some rain and an overcast sky. *)
Lemma dull_served :
  snd (get_birding_conditions 0 0 (serve dull_morning)) = Str_of dull_report.
Proof. vm_compute. reflexivity. Qed.

Lemma great_conditions_score_75_witness :
  (75 <= score dull_report)%Z
  /\ (rating dull_report = "Excellent" \/ rating dull_report = "Good").
Proof.
  exact (great_conditions_score_75 0 0 (serve dull_morning) dull_report
           dull_served eq_refl).
Defined.

Example dull_morning_is_good :
  score dull_report = 75%Z /\ rating dull_report = "Good"
  /\ recommendations dull_report = [msg_great].
Proof. vm_compute. repeat split; reflexivity. Qed.

(** ** The forecast *)

Lemma for_each_length (A B : Type) (f : A -> exc B) :
  forall (l : list A) (out : list B),
    for_each f l = Return out -> List.length out = List.length l.
Proof.
  induction l as [ | a l IH]; intros out H; simpl in H.
  - injection H as <-. reflexivity.
  - destruct (f a) as [b | ]; [ | discriminate H ].
    cbn [ebind] in H.
    destruct (for_each f l) as [bs | ]; [ | discriminate H ].
    cbn [ebind] in H. injection H as <-.
    simpl. rewrite (IH bs eq_refl). reflexivity.
Qed.

Lemma for_each_map (A B : Type) (f : A -> exc B) (g : A -> B) :
  forall l : list A,
    (forall a, In a l -> f a = Return (g a)) ->
    for_each f l = Return (map g l).
Proof.
  induction l as [ | a l IH]; intro H; simpl; [ reflexivity | ].
  rewrite (H a (or_introl eq_refl)). cbn [ebind].
  rewrite IH by (intros a' Ha; apply H; right; exact Ha).
  reflexivity.
Qed.

(** A series that is a list, or absent, gives its item of the day, and
    the default once the day lies past its end. *)
Lemma nth_or_series (d : list (string * json)) (key : string) (i : nat)
    (default : json) :
  list_or_absent d key ->
  nth_or (JObj d) key i default = Return (nth i (series d key) default).
Proof.
  unfold list_or_absent, series, nth_or. cbn [py_get ebind].
  destruct (dict_get d key) as [[ | | | | l | ] | ]; try contradiction;
    intros _; cbn [py_len ebind List.length].
  - destruct (Nat.ltb_spec i (List.length l)) as [Hi | Hi].
    + cbn [py_index]. destruct (nth_error l i) as [x | ] eqn:E.
      * rewrite (nth_error_nth l i default E). reflexivity.
      * apply nth_error_None in E. lia.
    + rewrite nth_overflow by exact Hi. reflexivity.
  - destruct i; reflexivity.
Qed.

Lemma forecast_day_of (d : list (string * json)) (i : nat) :
  list_or_absent d "time" -> list_or_absent d "sunrise" ->
  list_or_absent d "sunset" -> list_or_absent d "precipitation_sum" ->
  list_or_absent d "wind_speed_10m_max" ->
  forecast_day (JObj d) i = Return (day_of d i).
Proof.
  intros H1 H2 H3 H4 H5. unfold forecast_day.
  rewrite (nth_or_series d "time" i JNull H1). cbn [ebind].
  rewrite (nth_or_series d "sunrise" i JNull H2). cbn [ebind].
  rewrite (nth_or_series d "sunset" i JNull H3). cbn [ebind].
  rewrite (nth_or_series d "precipitation_sum" i (JNum 0) H4). cbn [ebind].
  rewrite (nth_or_series d "wind_speed_10m_max" i (JNum 0) H5).
  reflexivity.
Qed.

(** What [summarize] returns goes through these steps. *)
Lemma summarize_forecast (data out : json) :
  summarize data = Return out ->
  exists daily times n days,
    py_get data "daily" (JObj []) = Return daily
    /\ py_get daily "time" (JArr []) = Return times
    /\ py_len times = Return n
    /\ for_each (forecast_day daily) (seq 0 (Nat.min 7 n)) = Return days
    /\ py_get out "forecast" JNull = Return (JArr days).
Proof.
  unfold summarize. intro H.
  destruct (py_get data "hourly" (JObj [])) as [hourly | ];
    [ | discriminate H ].
  cbn [ebind] in H.
  destruct (py_get data "daily" (JObj [])) as [daily | ] eqn:Ed;
    [ | discriminate H ].
  cbn [ebind] in H.
  repeat (destruct (first_sample hourly _ _) as [? | ];
          [ | discriminate H ]; cbn [ebind] in H).
  destruct (py_get daily "time" (JArr [])) as [times | ] eqn:Et;
    [ | discriminate H ].
  cbn [ebind] in H.
  destruct (py_len times) as [n | ] eqn:En; [ | discriminate H ].
  cbn [ebind] in H.
  destruct (for_each (forecast_day daily) (seq 0 (Nat.min 7 n)))
    as [days | ] eqn:Ef; [ | discriminate H ].
  cbn [ebind] in H.
  destruct (py_get data "timezone" (JStr "Unknown")) as [tz | ];
    [ | discriminate H ].
  cbn [ebind] in H. injection H as <-.
  exists daily, times, n, days. repeat split; trivial.
Qed.

Lemma forecast_tool_summarize (lat lng : Q) (net : transport) (out : json) :
  snd (get_weather_forecast lat lng net) = Str_of out ->
  exists resp data,
    net (forecast_request lat lng) = Return resp
    /\ json_body resp = Return data
    /\ summarize data = Return out.
Proof.
  unfold get_weather_forecast, tool, get_weather_forecast_body,
    fetch_json, io_bind, client_get, lift.
  destruct (net _) as [resp | e] eqn:En; simpl; [ | discriminate ].
  destruct (raise_for_status resp) as [[] | e]; simpl; [ | discriminate ].
  destruct (json_body resp) as [data | e] eqn:Eb; simpl; [ | discriminate ].
  intro H. exists resp, data.
  destruct (summarize data) as [j | e]; simpl in H; [ | discriminate ].
  injection H as <-. auto.
Qed.

(** X4: the forecast holds one entry per day of the [time] series and
    seven at most.  A series that is shorter than [time], or absent,
    does not fail the call: its entries for the days past its end are
    the defaults, [None] for date, sunrise and sunset and 0 for
    precipitation and wind. *)
Theorem forecast_days_and_defaults (lat lng : Q) (net : transport)
    (out : json) (resp : response) (dd d : list (string * json)) :
  snd (get_weather_forecast lat lng net) = Str_of out ->
  net (forecast_request lat lng) = Return resp ->
  json_body resp = Return (JObj dd) ->
  dict_get dd "daily" = Some (JObj d) ->
  list_or_absent d "time" -> list_or_absent d "sunrise" ->
  list_or_absent d "sunset" -> list_or_absent d "precipitation_sum" ->
  list_or_absent d "wind_speed_10m_max" ->
  exists days,
    py_get out "forecast" JNull = Return (JArr days)
    /\ days = map (day_of d) (seq 0 (Nat.min 7 (List.length (series d "time"))))
    /\ List.length days = Nat.min 7 (List.length (series d "time"))
    /\ (List.length days <= 7)%nat.
Proof.
  intros H Hnet Hbody Hd H1 H2 H3 H4 H5.
  apply forecast_tool_summarize in H.
  destruct H as (resp' & data & Hnet' & Hbody' & Hs).
  rewrite Hnet in Hnet'. injection Hnet' as <-.
  rewrite Hbody in Hbody'. injection Hbody' as <-.
  apply summarize_forecast in Hs.
  destruct Hs as (daily & times & n & days & Hdaily & Htimes & Hn & Hdays & Hout).
  cbn [py_get] in Hdaily. rewrite Hd in Hdaily. injection Hdaily as <-.
  assert (En : n = List.length (series d "time")).
  { cbn [py_get] in Htimes. unfold series. unfold list_or_absent in H1.
    destruct (dict_get d "time") as [[ | | | | l | ] | ]; try contradiction;
      injection Htimes as <-; cbn in Hn; injection Hn as <-; reflexivity. }
  subst n.
  rewrite (for_each_map _ _ (forecast_day (JObj d)) (day_of d)) in Hdays
    by (intros i _; apply forecast_day_of; assumption).
  injection Hdays as <-.
  exists (map (day_of d) (seq 0 (Nat.min 7 (List.length (series d "time"))))).
  repeat split; trivial.
  - rewrite length_map, length_seq. reflexivity.
  - rewrite length_map, length_seq. lia.
Qed.

Lemma nine_days_served :
  snd (get_weather_forecast 0 0 (serve (JObj nine_days)))
  = Str_of nine_days_forecast.
Proof. vm_compute. reflexivity. Qed.

Lemma forecast_days_and_defaults_witness :
  exists days,
    py_get nine_days_forecast "forecast" JNull = Return (JArr days)
    /\ days = map (day_of nine_days_daily)
                  (seq 0 (Nat.min 7 (List.length (series nine_days_daily "time"))))
    /\ List.length days
       = Nat.min 7 (List.length (series nine_days_daily "time"))
    /\ (List.length days <= 7)%nat.
Proof.
  exact (forecast_days_and_defaults 0 0 (serve (JObj nine_days))
           nine_days_forecast (Response (Return tt) (Return (JObj nine_days)))
           nine_days nine_days_daily
           nine_days_served eq_refl eq_refl eq_refl I I I I I).
Defined.

Example nine_days_gives_seven :
  match py_get nine_days_forecast "forecast" JNull with
  | Return (JArr days) =>
      List.length days = 7%nat
      /\ map (fun day => py_get day "sunrise" (JStr "?")) days
         = [Return (JStr "05:58"); Return (JStr "05:57"); Return JNull;
            Return JNull; Return JNull; Return JNull; Return JNull]
  | _ => False
  end.
Proof. vm_compute. split; reflexivity. Qed.



(** ** Sunrise and sunset *)

Lemma first_or_cases (d : list (string * json)) (key default : string) :
  first_or (JObj d) key default
  = match dict_get d key with
    | Some v => if truthy v then py_index 0 v else Return (JStr default)
    | None => Return (JStr default)
    end.
Proof.
  unfold first_or. cbn [py_get ebind].
  destruct (dict_get d key) as [v | ]; [ | reflexivity ].
  destruct (truthy v); reflexivity.
Qed.

Lemma report_best_times (t w p c : Q) (daily : json) (r : birding_report) :
  report_of t w p c daily = Return r ->
  best_times r = [("Dawn chorus: ", sunrise r); ("Golden hour: ", sunset r)].
Proof.
  unfold report_of.
  destruct (first_or daily "sunrise" "06:00"); [ | discriminate ].
  cbn [ebind].
  destruct (first_or daily "sunset" "18:00"); [ | discriminate ].
  cbn [ebind]. intro H. injection H as <-. reflexivity.
Qed.

(** X25: the sunrise of a report of [get_birding_conditions] is the
    first entry of the list under [daily.sunrise]; it is ["06:00"] when
    the key is absent and when its value counts as false, the empty
    list included, so that an empty list does not fail here as it does
    in the forecast.  The same holds for the sunset with ["18:00"].  The
    two best times carry the sunrise and the sunset of the report. *)
Theorem sun_times_first_or_default (data : json)
    (top daily : list (string * json)) (r : birding_report) :
  analyze data = Return r ->
  data = JObj top ->
  dict_get top "daily" = Some (JObj daily) ->
  (forall x l, dict_get daily "sunrise" = Some (JArr (x :: l)) -> sunrise r = x)
  /\ (dict_get daily "sunrise" = None -> sunrise r = JStr "06:00")
  /\ (forall v, dict_get daily "sunrise" = Some v -> truthy v = false ->
        sunrise r = JStr "06:00")
  /\ (forall x l, dict_get daily "sunset" = Some (JArr (x :: l)) -> sunset r = x)
  /\ (dict_get daily "sunset" = None -> sunset r = JStr "18:00")
  /\ (forall v, dict_get daily "sunset" = Some v -> truthy v = false ->
        sunset r = JStr "18:00")
  /\ best_times r = [("Dawn chorus: ", sunrise r); ("Golden hour: ", sunset r)].
Proof.
  intros H -> Hd.
  destruct (@WeatherFacts.analyze_report _ _ H)
    as (hourly & daily' & t & w & p & c & _ & Hdaily & _ & Hr).
  cbn [py_get] in Hdaily. rewrite Hd in Hdaily. injection Hdaily as <-.
  destruct (@WeatherFacts.report_of_fields _ _ _ _ _ _ Hr)
    as (_ & _ & _ & Hrise & Hset).
  rewrite first_or_cases in Hrise, Hset.
  repeat split.
  - intros x l E. rewrite E in Hrise. cbn in Hrise. congruence.
  - intro E. rewrite E in Hrise. congruence.
  - intros v E Hv. rewrite E, Hv in Hrise. congruence.
  - intros x l E. rewrite E in Hset. cbn in Hset. congruence.
  - intro E. rewrite E in Hset. congruence.
  - intros v E Hv. rewrite E, Hv in Hset. congruence.
  - exact (report_best_times _ _ _ _ _ _ Hr).
Qed.

Lemma sun_times_first_or_default_witness :
  exists r,
    analyze sun_day = Return r
    /\ sunrise r = JStr "05:41" /\ sunset r = JStr "18:00".
Proof.
  eexists. split; [ vm_compute; reflexivity | ].
  destruct (sun_times_first_or_default sun_day
              [("daily", JObj [("sunrise", JArr [JStr "05:41"; JStr "05:40"]);
                               ("sunset", JArr [])])]
              [("sunrise", JArr [JStr "05:41"; JStr "05:40"]);
               ("sunset", JArr [])]
              _ eq_refl eq_refl eq_refl)
    as (H1 & _ & _ & _ & _ & H2 & _).
  split.
  - exact (H1 _ _ eq_refl).
  - exact (H2 _ eq_refl eq_refl).
Defined.

End WeatherMore.

(* ================================================================== *)
(** * More on the eBird tools *)

Module ClientMore.
Import Py Toolkit WeatherSpec ClientSpec MoreSpec.

Unset Implicit Arguments.

(** ** One row per observation *)

(** The entry table of an observation tool. *)
Lemma observation_rows (fsqrt : Q -> Q) (self : EBird.EBirdTools) (c : call)
    (entries : list (string * string * json)) (data : json)
    (rows : list json) :
  entries <> [] ->
  process fsqrt c data
  = (items <- py_iter data ;;
     l <- for_each (fun obs => d <- EBird.project obs entries ;;
                               Return (JObj d)) items ;;
     Return (Rows l))%exc ->
  process fsqrt c data = Return (Rows rows) ->
  exists items,
    py_iter data = Return items
    /\ Forall is_dict items
    /\ rows = map (row_of entries) items.
Proof.
  intros Hne -> H.
  destruct (py_iter data) as [items | ]; [ | discriminate H ].
  cbn [ebind] in H.
  destruct (for_each _ items) as [l | ] eqn:El; [ | discriminate H ].
  cbn [ebind] in H. injection H as <-.
  apply (@ClientFacts.rows_pure entries items l Hne) in El.
  exists items. split; [ reflexivity | exact El ].
Qed.

(** X6: the three observation tools return one row per item of the
    response, in the order of the response, whatever [max_results] is:
    the limit goes out with the request and is not applied to the
    answer. *)
Theorem observation_tools_one_row_each (fsqrt : Q -> Q)
    (self : EBird.EBirdTools) (c : call) (net : transport)
    (entries : list (string * string * json)) (rows : list json) :
  observation_table c = Some entries ->
  snd (invoke fsqrt self c net) = Str_of (Rows rows) ->
  exists resp data items,
    net (request_of self c) = Return resp
    /\ json_body resp = Return data
    /\ py_iter data = Return items
    /\ Forall is_dict items
    /\ rows = map (row_of entries) items
    /\ List.length rows = List.length items.
Proof.
  intros Hc H. apply ClientFacts.invoke_success in H.
  destruct H as (resp & data & Hnet & _ & Hbody & Hp).
  assert (Hrows : exists items,
             py_iter data = Return items
             /\ Forall is_dict items
             /\ rows = map (row_of entries) items).
  { destruct c; try discriminate Hc; injection Hc as <-;
      match type of Hp with
      | process _ ?c' _ = _ =>
          apply (observation_rows fsqrt self c' _ data rows);
          [ discriminate | reflexivity | exact Hp ]
      end. }
  destruct Hrows as (items & Hi & Hd & Hr).
  exists resp, data, items. repeat split; trivial.
  rewrite Hr, length_map. reflexivity.
Qed.

Lemma observation_tools_one_row_each_witness :
  exists rows,
    snd (invoke sample_sqrt sample_tools (RecentObservations "US-CA" 14 1)
           (serve sightings)) = Str_of (Rows rows)
    /\ List.length rows = 3%nat.
Proof.
  eexists. split; [ vm_compute; reflexivity | ].
  destruct (observation_tools_one_row_each sample_sqrt sample_tools
              (RecentObservations "US-CA" 14 1) (serve sightings)
              EBird.observation_entries _ eq_refl eq_refl)
    as (resp & data & items & Hnet & Hbody & Hi & _ & _ & Hlen).
  injection Hnet as <-. injection Hbody as <-. injection Hi as <-.
  exact Hlen.
Defined.

(** ** Missing keys *)

Lemma dict_get_row (d : list (string * json))
    (entries : list (string * string * json)) (out key : string)
    (default : json) :
  NoDup (row_keys entries) ->
  In (out, key, default) entries ->
  dict_get
    (map (fun e : string * string * json =>
            let '(o, k, df) := e in (o, lookup d k df)) entries) out
  = Some (lookup d key default).
Proof.
  induction entries as [ | [[o k] df] entries IH]; intros Hnd Hin;
    [ contradiction | ].
  simpl in Hnd. inversion Hnd as [ | ? ? Hnotin Hnd']; subst.
  cbn [map dict_get].
  destruct Hin as [Heq | Hin].
  - injection Heq as -> -> ->. rewrite String.eqb_refl. reflexivity.
  - destruct (String.eqb_spec o out) as [-> | _].
    + exfalso. apply Hnotin. unfold row_keys.
      apply in_map_iff. exists (out, key, default). split; [ reflexivity | exact Hin ].
    + apply IH; assumption.
Qed.

Lemma tables_name_fields_once :
  Forall (fun table => NoDup (row_keys table)) entry_tables.
Proof.
  unfold entry_tables, row_keys.
  repeat (apply Forall_cons || apply Forall_nil);
    cbn [map fst EBird.observation_entries EBird.notable_entries
         EBird.hotspot_entries EBird.species_entries EBird.taxonomy_entries
         app];
    repeat (apply NoDup_cons; [ cbn; intuition discriminate | ]);
    apply NoDup_nil.
Qed.

(** X7: a field of a row is the value the item holds under the key of
    the field, whatever its type, and the default of the field when the
    item has no such key; an item that is no dictionary makes the row
    fail.  The five entry tables of the tools name every field once. *)
Theorem row_field_or_default (d : list (string * json))
    (entries : list (string * string * json)) (out key : string)
    (default : json) (row : list (string * json)) :
  NoDup (row_keys entries) ->
  In (out, key, default) entries ->
  EBird.project (JObj d) entries = Return row ->
  (forall v, dict_get d key = Some v -> dict_get row out = Some v)
  /\ (dict_get d key = None -> dict_get row out = Some default)
  /\ (forall item e,
        (forall d', item <> JObj d') ->
        EBird.project item entries <> Return e)
  /\ Forall (fun table => NoDup (row_keys table)) entry_tables.
Proof.
  intros Hnd Hin H.
  rewrite ClientFacts.project_pure in H. injection H as <-.
  pose proof (dict_get_row d entries out key default Hnd Hin) as Hg.
  unfold lookup in Hg at 2.
  split; [ | split; [ | split ] ].
  - intros v Hv. rewrite Hv in Hg. exact Hg.
  - intro Hv. rewrite Hv in Hg. exact Hg.
  - intros item e Hitem. destruct entries as [ | [[o k] df] entries];
      [ contradiction | ].
    destruct item; try (cbn; discriminate).
    exfalso. eapply Hitem. reflexivity.
  - exact tables_name_fields_once.
Qed.

Lemma row_field_or_default_witness :
  (forall v, dict_get [("comName", JStr "Ruff")] "howMany" = Some v ->
             dict_get
               (map (fun e : string * string * json =>
                       let '(o, k, df) := e in
                       (o, lookup [("comName", JStr "Ruff")] k df))
                    EBird.observation_entries) "count" = Some v)
  /\ (dict_get [("comName", JStr "Ruff")] "howMany" = None ->
      dict_get
        (map (fun e : string * string * json =>
                let '(o, k, df) := e in
                (o, lookup [("comName", JStr "Ruff")] k df))
             EBird.observation_entries) "count" = Some (JStr "X")).
Proof.
  assert (Hnd : NoDup (row_keys EBird.observation_entries)).
  { exact (Forall_inv tables_name_fields_once). }
  assert (Hin : In ("count", "howMany", JStr "X") EBird.observation_entries).
  { cbn. do 4 right. left. reflexivity. }
  destruct (row_field_or_default [("comName", JStr "Ruff")]
              EBird.observation_entries "count" "howMany" (JStr "X") _
              Hnd Hin (ClientFacts.project_pure _ _)) as (H1 & H2 & _).
  split; assumption.
Defined.

(** ** The limit of the hotspot tool *)

Lemma slice_from_start (A : Type) (m : Z) (l : list A) :
  slice_list 0 m l
  = firstn (if (m <? 0)%Z then Z.to_nat (Z.max 0 (Z.of_nat (List.length l) + m))
            else Nat.min (Z.to_nat m) (List.length l)) l.
Proof. reflexivity. Qed.

(** X8: the hotspot tool keeps the first [max_results] items of the
    response.  A limit of zero gives no row; a negative limit does not
    fail: it drops that many items from the end. *)
Theorem hotspot_limit_is_a_slice (self : EBird.EBirdTools) (la lo : Q)
    (dist m : Z) (net : transport) (resp : response)
    (items rows : list json) :
  snd (EBird.get_nearby_hotspots self la lo dist m net) = Str_of rows ->
  net (EBird.hotspots_request self la lo dist) = Return resp ->
  json_body resp = Return (JArr items) ->
  rows = map (row_of EBird.hotspot_entries) (slice_list 0 m items)
  /\ ((0 <= m)%Z ->
      rows = map (row_of EBird.hotspot_entries) (firstn (Z.to_nat m) items)
      /\ List.length rows = Nat.min (Z.to_nat m) (List.length items))
  /\ ((m < 0)%Z ->
      List.length rows = (List.length items - Z.to_nat (- m))%nat).
Proof.
  intros H Hnet Hbody.
  assert (H' : snd (invoke (fun x => x) self (NearbyHotspots la lo dist m) net)
               = Str_of (Rows rows)).
  { cbn. rewrite H. reflexivity. }
  apply ClientFacts.invoke_success in H'.
  destruct H' as (resp' & data & Hnet' & _ & Hbody' & Hp).
  cbn in Hnet'. rewrite Hnet in Hnet'. injection Hnet' as <-.
  rewrite Hbody in Hbody'. injection Hbody' as <-.
  cbn [process py_slice py_iter ebind] in Hp.
  destruct (for_each _ (slice_list 0 m items)) as [l | ] eqn:El;
    [ | discriminate Hp ].
  cbn [ebind] in Hp. injection Hp as <-.
  apply ClientFacts.rows_pure in El; [ | discriminate ].
  destruct El as (_ & ->).
  split; [ reflexivity | ].
  rewrite slice_from_start. split.
  - intro Hm. destruct (Z.ltb_spec m 0) as [Hlt | _]; [ lia | ].
    rewrite WeatherFacts.firstn_min_length.
    split; [ reflexivity | ].
    rewrite length_map, length_firstn. reflexivity.
  - intro Hm. destruct (Z.ltb_spec m 0) as [_ | Hge]; [ | lia ].
    rewrite length_map, length_firstn. lia.
Qed.

Lemma hotspot_limit_is_a_slice_witness :
  exists rows,
    snd (EBird.get_nearby_hotspots sample_tools 0 0 25 (-1) (serve four_spots))
    = Str_of rows
    /\ List.length rows = 3%nat.
Proof.
  eexists. split; [ vm_compute; reflexivity | ].
  destruct (hotspot_limit_is_a_slice sample_tools 0 0 25 (-1)
              (serve four_spots) (Response (Return tt) (Return four_spots))
              _ _ eq_refl eq_refl eq_refl) as (_ & _ & H).
  exact (H eq_refl).
Defined.

(** ** The taxonomy without a query, and the case of the query *)

(** X9: with no search query, or an empty one, [get_taxonomy] does
    not filter: it returns the rows of the first 50 entries of the
    response.  The species codes go out with the request only when
    they are given and not empty. *)
Theorem taxonomy_without_query (self : EBird.EBirdTools)
    (codes query : option string) (net : transport) (resp : response)
    (items rows : list json) :
  EBird.given query = false ->
  snd (EBird.get_taxonomy self codes query net) = Str_of rows ->
  net (EBird.taxonomy_request self codes) = Return resp ->
  json_body resp = Return (JArr items) ->
  rows = map (row_of EBird.taxonomy_entries) (firstn 50 items)
  /\ (List.length rows <= 50)%nat
  /\ (EBird.given codes = false ->
      param (req_params (EBird.taxonomy_request self codes)) "species" = None)
  /\ (forall c, codes = Some c -> c <> "" ->
      param (req_params (EBird.taxonomy_request self codes)) "species"
      = Some (PStr c)).
Proof.
  intros Hq H Hnet Hbody.
  assert (H' : snd (invoke (fun x => x) self (Taxonomy codes query) net)
               = Str_of (Rows rows)).
  { cbn. rewrite H. reflexivity. }
  apply ClientFacts.invoke_success in H'.
  destruct H' as (resp' & data & Hnet' & _ & Hbody' & Hp).
  cbn in Hnet'. rewrite Hnet in Hnet'. injection Hnet' as <-.
  rewrite Hbody in Hbody'. injection Hbody' as <-.
  cbn [process] in Hp.
  assert (Ef : EBird.filter_taxonomy query (JArr items) = Return (JArr items)).
  { unfold EBird.filter_taxonomy. destruct query as [q | ]; [ | reflexivity ].
    rewrite Hq. reflexivity. }
  rewrite Ef in Hp. cbn [ebind] in Hp.
  destruct (EBird.format_taxonomy (JArr items)) as [l | ] eqn:El;
    [ | discriminate Hp ].
  cbn [ebind] in Hp. injection Hp as <-.
  apply ClientFacts.format_taxonomy_rows in El. subst l.
  repeat split.
  - rewrite length_map, length_firstn. lia.
  - intro Hc. unfold EBird.taxonomy_request. cbn [req_params].
    destruct codes as [c | ]; [ rewrite Hc | ]; reflexivity.
  - intros c -> Hc. unfold EBird.taxonomy_request, EBird.given.
    cbn [req_params].
    destruct (String.eqb_spec c "") as [-> | _]; [ congruence | ].
    reflexivity.
Qed.

Lemma taxonomy_without_query_witness :
  exists rows,
    snd (EBird.get_taxonomy sample_tools None (Some "") (serve checklist))
    = Str_of rows
    /\ List.length rows = 3%nat.
Proof.
  eexists. split; [ vm_compute; reflexivity | ].
  destruct (taxonomy_without_query sample_tools None (Some "")
              (serve checklist) (Response (Return tt) (Return checklist))
              _ _ eq_refl eq_refl eq_refl eq_refl) as (-> & _).
  reflexivity.
Defined.

Lemma lower_ascii_twice (c : ascii) :
  EBird.lower_ascii (EBird.lower_ascii c) = EBird.lower_ascii c.
Proof. destruct c as [[] [] [] [] [] [] [] []]; reflexivity. Qed.

Lemma lower_twice (s : string) : EBird.lower (EBird.lower s) = EBird.lower s.
Proof.
  induction s as [ | c s IH]; simpl; [ reflexivity | ].
  rewrite lower_ascii_twice, IH. reflexivity.
Qed.

Lemma lower_nonempty (s : string) : s <> "" -> EBird.lower s <> "".
Proof. destruct s; [ congruence | discriminate ]. Qed.

(** X10: the search does not see the case of the query: two queries
    that agree once folded to lower case give the same answer, and so
    do a query and its lower-case form. *)
Theorem taxonomy_query_case_blind (self : EBird.EBirdTools)
    (codes : option string) (q1 q2 : string) (net : transport) :
  q1 <> "" -> q2 <> "" -> EBird.lower q1 = EBird.lower q2 ->
  EBird.get_taxonomy self codes (Some q1) net
  = EBird.get_taxonomy self codes (Some q2) net
  /\ EBird.get_taxonomy self codes (Some (EBird.lower q1)) net
     = EBird.get_taxonomy self codes (Some q1) net.
Proof.
  intros H1 H2 Hl.
  assert (Hf : forall q q', q <> "" -> q' <> "" ->
                 EBird.lower q = EBird.lower q' ->
                 forall data, EBird.filter_taxonomy (Some q) data
                              = EBird.filter_taxonomy (Some q') data).
  { intros q q' Hq Hq' E data. unfold EBird.filter_taxonomy, EBird.given.
    destruct (String.eqb_spec q "") as [-> | _]; [ congruence | ].
    destruct (String.eqb_spec q' "") as [-> | _]; [ congruence | ].
    cbn [negb]. rewrite E. reflexivity. }
  assert (Hg : forall q q', q <> "" -> q' <> "" ->
                 EBird.lower q = EBird.lower q' ->
                 EBird.get_taxonomy self codes (Some q) net
                 = EBird.get_taxonomy self codes (Some q') net).
  { intros q q' Hq Hq' E.
    unfold EBird.get_taxonomy, EBird.get_taxonomy_body, tool, io_bind, lift.
    destruct (fetch_json _ net []) as [log [data | e]]; [ | reflexivity ].
    rewrite (Hf q q' Hq Hq' E). reflexivity. }
  split.
  - apply Hg; assumption.
  - apply Hg; [ apply lower_nonempty; exact H1 | exact H1 | apply lower_twice ].
Qed.

Lemma taxonomy_query_case_blind_witness :
  EBird.get_taxonomy sample_tools None (Some "CARDINAL") (serve checklist)
  = EBird.get_taxonomy sample_tools None (Some "cardinal") (serve checklist)
  /\ EBird.get_taxonomy sample_tools None (Some (EBird.lower "CARDINAL"))
       (serve checklist)
     = EBird.get_taxonomy sample_tools None (Some "CARDINAL") (serve checklist).
Proof.
  apply (taxonomy_query_case_blind sample_tools None "CARDINAL" "cardinal"
           (serve checklist)); [ discriminate | discriminate | reflexivity ].
Defined.

(** ** Sightings without usable coordinates *)

Lemma for_each_raises (A B : Type) (f : A -> exc B) (a : A) (e : exn) :
  forall l : list A,
    In a l -> f a = Raise e -> exists e', for_each f l = Raise e'.
Proof.
  induction l as [ | x l IH]; intros Hin Ha; [ contradiction | ].
  simpl. destruct (f x) as [y | ex] eqn:Ex; [ | exists ex; reflexivity ].
  cbn [ebind].
  destruct Hin as [-> | Hin]; [ congruence | ].
  destruct (IH Hin Ha) as (e' & ->). exists e'. reflexivity.
Qed.

Lemma annotate_needs_numbers (fsqrt : Q -> Q) (la lo : Q)
    (d : list (string * json)) (key : string) (v : json) :
  key = "lat" \/ key = "lng" ->
  dict_get d key = Some v -> as_number v = None ->
  exists e, EBird.annotate fsqrt la lo (JObj d) = Raise e.
Proof.
  intros Hk Hv Hn. unfold EBird.annotate.
  rewrite ClientFacts.project_pure. cbn [ebind].
  unfold EBird.planar_distance. cbn [py_get ebind].
  destruct Hk as [-> | ->].
  - rewrite Hv. unfold EBird.py_sub at 1. rewrite Hn.
    eexists. reflexivity.
  - destruct (EBird.py_sub _ la) as [dx | e]; [ | exists e; reflexivity ].
    cbn [ebind]. rewrite Hv. unfold EBird.py_sub at 1. rewrite Hn.
    eexists. reflexivity.
Qed.

(** X11: one sighting whose latitude or longitude is there and is no
    number - a [null], a text - spoils the whole answer of
    [get_rare_birds_nearby]: the tool returns its error text and no
    list. *)
Theorem one_bad_coordinate_spoils_all (fsqrt : Q -> Q)
    (self : EBird.EBirdTools) (la lo : Q) (dist back : Z) (net : transport)
    (resp : response) (items : list json) (d : list (string * json))
    (key : string) (v : json) :
  net (EBird.rare_request self la lo dist back) = Return resp ->
  raise_for_status resp = Return tt ->
  json_body resp = Return (JArr items) ->
  In (JObj d) items ->
  key = "lat" \/ key = "lng" ->
  dict_get d key = Some v -> as_number v = None ->
  exists msg,
    snd (EBird.get_rare_birds_nearby fsqrt self la lo dist back net)
    = Text ("Error fetching rare birds: " ++ msg).
Proof.
  intros Hnet Hst Hbody Hin Hk Hv Hn.
  destruct (annotate_needs_numbers fsqrt la lo d key v Hk Hv Hn) as (e & He).
  destruct (for_each_raises _ _ (EBird.annotate fsqrt la lo) (JObj d) e
              items Hin He) as (e' & He').
  exists (exn_msg e').
  unfold EBird.get_rare_birds_nearby, tool, EBird.get_rare_birds_nearby_body,
    fetch_json, io_bind, client_get, lift.
  rewrite Hnet. cbn. rewrite Hst. cbn. rewrite Hbody. cbn.
  unfold EBird.rank. cbn [py_iter ebind]. rewrite He'. reflexivity.
Qed.

Lemma one_bad_coordinate_spoils_all_witness :
  exists msg,
    snd (EBird.get_rare_birds_nearby sample_sqrt sample_tools 0 0 50 7
           (serve sightings_with_null))
    = Text ("Error fetching rare birds: " ++ msg).
Proof.
  apply (one_bad_coordinate_spoils_all sample_sqrt sample_tools 0 0 50 7
           (serve sightings_with_null)
           (Response (Return tt) (Return sightings_with_null))
           [sighting "Ruff" 0 1;
            JObj [("comName", JStr "Gyrfalcon"); ("lat", JNull);
                  ("lng", JNum 0)]]
           [("comName", JStr "Gyrfalcon"); ("lat", JNull); ("lng", JNum 0)]
           "lat" JNull eq_refl eq_refl eq_refl).
  - right. left. reflexivity.
  - left. reflexivity.
  - reflexivity.
  - reflexivity.
Defined.

Example null_latitude_message :
  snd (EBird.get_rare_birds_nearby sample_sqrt sample_tools 0 0 50 7
         (serve sightings_with_null))
  = Text ("Error fetching rare birds: "
          ++ "unsupported operand type(s) for -: 'NoneType' and 'float'").
Proof. vm_compute. reflexivity. Qed.

Lemma round_half_even_zero (q : Q) : q == 0 -> round_half_even q = 0%Z.
Proof.
  intro H. unfold round_half_even.
  assert (Hf : Qfloor q = 0%Z) by (rewrite H; reflexivity).
  rewrite Hf.
  assert (Hc : Qcompare (q - inject_Z 0) (1 # 2) = Lt).
  { rewrite H. reflexivity. }
  rewrite Hc. reflexivity.
Qed.

Lemma round1_zero (q : Q) : q == 0 -> round1 q == 0.
Proof.
  intro H. unfold round1.
  rewrite round_half_even_zero by (rewrite H; reflexivity).
  reflexivity.
Qed.

Lemma sample_sqrt_zero (x : Q) : x == 0 -> sample_sqrt x == 0.
Proof.
  intro H. unfold sample_sqrt.
  assert (Hf : Qfloor (x * 1000000) = 0%Z) by (rewrite H; reflexivity).
  rewrite Hf. reflexivity.
Qed.

(** X12: a sighting that has neither a latitude nor a longitude is
    taken to lie at the point asked about: its distance is 0, given
    that the square root of 0 is 0. *)
Theorem no_coordinates_distance_zero (fsqrt : Q -> Q) (la lo : Q)
    (d : list (string * json)) :
  (forall x, x == 0 -> fsqrt x == 0) ->
  dict_get d "lat" = None -> dict_get d "lng" = None ->
  exists k x,
    EBird.planar_distance fsqrt la lo (JObj d) = Return k
    /\ k == 0
    /\ EBird.annotate fsqrt la lo (JObj d) = Return x
    /\ distance_of x = Some k.
Proof.
  intros Hsqrt Hla Hlo.
  assert (Hk : EBird.planar_distance fsqrt la lo (JObj d)
               = Return (round1 (fsqrt ((la - la) ^ 2 + (lo - lo) ^ 2) * 111))).
  { unfold EBird.planar_distance. cbn [py_get ebind].
    rewrite Hla, Hlo. reflexivity. }
  exists (round1 (fsqrt ((la - la) ^ 2 + (lo - lo) ^ 2) * 111)).
  eexists. split; [ exact Hk | ]. split.
  - apply round1_zero.
    assert (Hz : (la - la) ^ 2 + (lo - lo) ^ 2 == 0) by (simpl; ring).
    rewrite (Hsqrt _ Hz). reflexivity.
  - unfold EBird.annotate. rewrite ClientFacts.project_pure. cbn [ebind].
    rewrite Hk. cbn [ebind]. split; reflexivity.
Qed.

Lemma no_coordinates_distance_zero_witness :
  exists k x,
    EBird.planar_distance sample_sqrt 40 (-74) (JObj [("comName", JStr "Ruff")])
    = Return k
    /\ k == 0
    /\ EBird.annotate sample_sqrt 40 (-74) (JObj [("comName", JStr "Ruff")])
       = Return x
    /\ distance_of x = Some k.
Proof.
  exact (no_coordinates_distance_zero sample_sqrt 40 (-74)
           [("comName", JStr "Ruff")] sample_sqrt_zero eq_refl eq_refl).
Defined.

End ClientMore.

(* ================================================================== *)
(** * More on the agent cache and the two handlers *)

Module HandlerMore.
Import Py Text Main ClientSpec HandlerSpec MoreSpec.

Unset Implicit Arguments.

(** ** The agent cache *)

Lemma AgentType_eqb_eq (a b : AgentType) : AgentType_eqb a b = true <-> a = b.
Proof. destruct a, b; simpl; split; intro H; congruence. Qed.

Lemma cached_in (t : AgentType) (w : world) :
  cached t w = true <-> In t (agents w).
Proof.
  unfold cached. rewrite existsb_exists. split.
  - intros (x & Hx & E). apply AgentType_eqb_eq in E. subst x. exact Hx.
  - intro H. exists t. split; [ exact H | apply AgentType_eqb_eq; reflexivity ].
Qed.

(** X13: [get_agent] creates an agent on the first request for its
    type and never again: a second request leaves the state as it is,
    the keys of the cache stay free of repetitions, no agent is ever
    dropped, the team is kept apart from the specialists, and the log
    of the runs is not touched. *)
Theorem get_agent_creates_once (t : AgentType) (w : world) :
  snd (get_agent t w) = t
  /\ get_agent t (fst (get_agent t w)) = (fst (get_agent t w), t)
  /\ runs (fst (get_agent t w)) = runs w
  /\ (NoDup (agents w) -> NoDup (agents (fst (get_agent t w))))
  /\ (forall t', In t' (agents w) -> In t' (agents (fst (get_agent t w))))
  /\ (team w = true -> team (fst (get_agent t w)) = true)
  /\ (t <> TEAM -> In t (agents (fst (get_agent t w)))
                   /\ team (fst (get_agent t w)) = team w)
  /\ (t = TEAM -> team (fst (get_agent t w)) = true
                  /\ agents (fst (get_agent t w)) = agents w)
  /\ (~ In TEAM (agents w) -> ~ In TEAM (agents (fst (get_agent t w)))).
Proof.
  destruct (cached t w) eqn:Ec.
  - assert (Hin : In t (agents w)) by (apply cached_in; exact Ec).
    destruct t; unfold get_agent; try rewrite Ec; cbn [fst snd agents team runs];
      try rewrite Ec; (repeat split; auto; try congruence).
  - assert (Hnot : ~ In t (agents w)).
    { intro H. apply cached_in in H. congruence. }
    assert (Hc : cached t (World (agents w ++ [t])%list (team w) (runs w)) = true).
    { apply cached_in. cbn. apply in_or_app. right. left. reflexivity. }
    assert (Hnd : NoDup (agents w) -> NoDup (agents w ++ [t])%list).
    { intro H. apply NoDup_app; [ exact H | repeat constructor; intros [] | ].
      intros x Hx [<- | []]. exact (Hnot Hx). }
    destruct t; unfold get_agent; try rewrite Ec;
      cbn [fst snd agents team runs]; try rewrite Hc;
      (repeat split; auto; try congruence;
       try (intros; apply in_or_app; auto; right; left; reflexivity);
       try (intros Hteam Hx; apply in_app_or in Hx;
            destruct Hx as [Hx | [Hx | []]];
            [ exact (Hteam Hx) | discriminate Hx ])).
Qed.

(** ** What the handlers put in their answers *)

Lemma tours_result (py_repr : json -> string) (env : agent_env)
    (location : string) (w : world) :
  snd (find_birding_tours py_repr env location w)
  = or_agent_error (r <- env TOURS (ToursPrompt location) ;;
                    extract_tours py_repr location r)%exc.
Proof.
  unfold find_birding_tours, get_agent. destruct (cached TOURS w); reflexivity.
Qed.

Lemma targets_result (env : agent_env) (current_date : string)
    (request : AreaBasedTargetsRequest) (w : world) :
  species request <> [] ->
  snd (get_area_based_targets env current_date request w)
  = or_agent_error (r <- env LIFELIST (targets_prompt request current_date) ;;
                    extract_targets request current_date r)%exc.
Proof.
  intro H. unfold get_area_based_targets, get_agent.
  destruct (species request); [ congruence | ].
  destruct (cached LIFELIST w); reflexivity.
Qed.

Lemma substring_length (s : string) :
  forall n m, (String.length (substring n m s) <= m)%nat.
Proof.
  induction s as [ | c s IH]; intros n m; destruct n, m; simpl; try lia.
  - specialize (IH 0%nat m). lia.
  - apply IH.
  - apply IH.
Qed.

Lemma slice_string_length (k : Z) (s : string) :
  (0 <= k)%Z -> (String.length (slice_string 0 k s) <= Z.to_nat k)%nat.
Proof.
  intro H. unfold slice_string.
  pose proof (substring_length s (slice_bound (String.length s) 0)
                (slice_bound (String.length s) k
                 - slice_bound (String.length s) 0)) as Hs.
  assert (Hb : (slice_bound (String.length s) k <= Z.to_nat k)%nat).
  { unfold slice_bound. destruct (Z.ltb_spec k 0); lia. }
  lia.
Qed.

Lemma slice_list_length (A : Type) (k : Z) (l : list A) :
  (0 <= k)%Z -> (List.length (slice_list 0 k l) <= Z.to_nat k)%nat.
Proof.
  intro H. rewrite <- (Z2Nat.id k H), ClientFacts.head_slice, Nat2Z.id.
  rewrite length_firstn. lia.
Qed.

Lemma chars_length (s : string) : List.length (chars s) = String.length s.
Proof.
  unfold chars. rewrite length_map.
  induction s as [ | c s IH]; simpl; congruence.
Qed.

(** What is left of a slice from the start is a list or a string of
    the length asked for at most, and a loop can run over it. *)
Lemma sliced_items (k : Z) (v head : json) :
  (0 <= k)%Z -> py_slice 0 k v = Return head ->
  exists items, py_iter head = Return items
                /\ (List.length items <= Z.to_nat k)%nat.
Proof.
  intros Hk H. destruct v; try discriminate H; cbn in H; injection H as <-.
  - exists (chars (slice_string 0 k s)). split; [ reflexivity | ].
    rewrite chars_length. apply slice_string_length. exact Hk.
  - exists (slice_list 0 k items). split; [ reflexivity | ].
    apply slice_list_length. exact Hk.
Qed.

Lemma lstrip_fixed (s : string) : starts_nonspace s = true -> lstrip s = s.
Proof.
  destruct s as [ | c s]; [ discriminate | ]. cbn.
  destruct (is_space c); [ discriminate | reflexivity ].
Qed.

Lemma lstrip_starts (s : string) :
  lstrip s = "" \/ starts_nonspace (lstrip s) = true.
Proof.
  induction s as [ | c s IH]; [ left; reflexivity | ].
  cbn [lstrip]. destruct (is_space c) eqn:E; [ exact IH | ].
  right. cbn. rewrite E. reflexivity.
Qed.

Lemma rstrip_twice (s : string) : rstrip (rstrip s) = rstrip s.
Proof.
  induction s as [ | c s IH]; [ reflexivity | ].
  cbn [rstrip]. destruct (rstrip s) as [ | a t] eqn:E.
  - destruct (is_space c) eqn:Ec; [ reflexivity | ].
    cbn [rstrip]. rewrite Ec. reflexivity.
  - cbn [rstrip]. cbn [rstrip] in IH.
    destruct (match rstrip t with
              | "" => if is_space a then "" else String a ""
              | String a0 s0 => String a (String a0 s0)
              end) eqn:E2; [ discriminate IH | ].
    rewrite IH. reflexivity.
Qed.

Lemma rstrip_keeps_start (s : string) :
  starts_nonspace s = true -> starts_nonspace (rstrip s) = true.
Proof.
  destruct s as [ | c s]; [ discriminate | ]. cbn [starts_nonspace rstrip].
  intro H. destruct (rstrip s).
  - destruct (is_space c) eqn:Ec; [ discriminate H | ].
    cbn. rewrite Ec. reflexivity.
  - exact H.
Qed.

(** Stripping a stripped text changes nothing. *)
Lemma strip_twice (s : string) : strip (strip s) = strip s.
Proof.
  unfold strip. destruct (lstrip_starts s) as [E | E].
  - rewrite E. reflexivity.
  - rewrite (lstrip_fixed _ (rstrip_keeps_start _ E)). apply rstrip_twice.
Qed.

Lemma clean_tour_limits (py_repr : json -> string) (t : json) (c : tour_card) :
  In c (clean_tour py_repr t) -> within_limits c.
Proof.
  destruct t; try (intros []).
  cbn [clean_tour].
  destruct (truthy (field fields "title" JNull)
            && truthy (field fields "url" JNull)); [ | intros [] ].
  intros [<- | []]. unfold within_limits. cbn [title tour_location url description].
  repeat split.
  - apply (slice_string_length 200). lia.
  - apply (slice_string_length 200). lia.
  - apply strip_twice.
  - intros text. destruct (truthy (field fields "description" JNull));
      [ | discriminate ].
    intro H. injection H as <-. apply (slice_string_length 300). lia.
Qed.

Lemma clean_tours_length (py_repr : json -> string) (items : list json) :
  (List.length (List.concat (map (clean_tour py_repr) items))
   <= List.length items)%nat.
Proof.
  induction items as [ | t items IH]; [ apply Nat.le_refl | ].
  cbn [map List.concat]. rewrite length_app. cbn [List.length].
  assert (H : (List.length (clean_tour py_repr t) <= 1)%nat).
  { destruct t; cbn; try lia.
    destruct (truthy _ && truthy _); cbn; lia. }
  lia.
Qed.

Lemma clean_tours_limits (py_repr : json -> string) (items : list json) :
  Forall within_limits (List.concat (map (clean_tour py_repr) items)).
Proof.
  apply Forall_forall. intros c H. apply in_concat in H.
  destruct H as (l & Hl & Hc). apply in_map_iff in Hl.
  destruct Hl as (t & <- & _). exact (clean_tour_limits py_repr t c Hc).
Qed.

(** The answers of the decoding block of the tours handler. *)
Lemma decode_tours_limits (py_repr : json -> string)
    (location matched : string) (body : tours_reply) :
  decode_tours py_repr location matched = Return body ->
  (List.length (tours body) <= 10)%nat
  /\ Forall within_limits (tours body)
  /\ reply_location body = location
  /\ tours_agent body = "Birding Tours Agent".
Proof.
  unfold decode_tours.
  destruct (json_loads matched) as [data | e]; [ | discriminate ].
  cbn [ebind]. destruct (py_get data "tours" (JArr [])) as [found | e];
    [ | discriminate ].
  cbn [ebind]. destruct (py_slice 0 10 found) as [head | e] eqn:Es;
    [ | discriminate ].
  cbn [ebind].
  destruct (sliced_items 10 found head ltac:(lia) Es) as (items & Hi & Hn).
  rewrite Hi. cbn [ebind]. intro H. injection H as <-.
  cbn [tours reply_location tours_agent].
  pose proof (clean_tours_length py_repr items).
  change (Z.to_nat 10) with 10%nat in Hn.
  repeat split; [ lia | apply clean_tours_limits ].
Qed.

(** X14: whatever the agent answers, when the tours handler returns a
    body it holds at most 10 cards; every card has a title and a
    location of at most 200 characters, a description of at most 300
    when it has one, and a link without white space around it; the
    body names the location asked for. *)
Theorem tours_reply_bounds (py_repr : json -> string) (env : agent_env)
    (location : string) (w : world) (body : tours_reply) :
  snd (find_birding_tours py_repr env location w) = Ok body ->
  (List.length (tours body) <= 10)%nat
  /\ Forall within_limits (tours body)
  /\ reply_location body = location
  /\ tours_agent body = "Birding Tours Agent".
Proof.
  rewrite tours_result.
  destruct (env TOURS (ToursPrompt location)) as [r | e]; [ | discriminate ].
  cbn [ebind]. unfold extract_tours.
  destruct (as_text (response_text_of r)) as [raw | e]; [ | discriminate ].
  cbn [ebind].
  assert (Hempty : forall b, Ok (empty_tours location) = Ok b ->
            (List.length (tours b) <= 10)%nat
            /\ Forall within_limits (tours b)
            /\ reply_location b = location
            /\ tours_agent b = "Birding Tours Agent").
  { intros b H. injection H as <-. cbn. repeat split; [ lia | constructor ]. }
  destruct (brace_search (strip raw)) as [matched | ]; [ | apply Hempty ].
  destruct (decode_tours py_repr location matched) as [b | [cls msg]] eqn:Ed.
  - cbn. intro H. injection H as <-.
    exact (decode_tours_limits py_repr location matched b Ed).
  - destruct cls; cbn; try discriminate. apply Hempty.
Qed.

Lemma tours_reply_bounds_witness :
  (List.length (tours walk_body) <= 10)%nat
  /\ Forall within_limits (tours walk_body)
  /\ reply_location walk_body = "Boston"
  /\ tours_agent walk_body = "Birding Tours Agent".
Proof.
  apply (tours_reply_bounds plain_repr (answering walk_reply) "Boston" fresh).
  reflexivity.
Defined.

(** The answers of the decoding block of the targets handler. *)
Lemma decode_targets_limits (request : AreaBasedTargetsRequest)
    (current_date text : string) (body : targets_reply) :
  (0 <= num_targets request)%Z ->
  decode_targets request current_date text = Return body ->
  at_most (Z.to_nat (num_targets request)) (birds body)
  /\ recommendations body = None
  /\ species_analyzed body = List.length (species request)
  /\ date body = current_date
  /\ targets_agent body = "Life List Coach".
Proof.
  intro Hn. unfold decode_targets.
  destruct (json_loads text) as [data | e]; [ | discriminate ].
  cbn [ebind]. destruct (py_get data "birds" (JArr [])) as [found | e];
    [ | discriminate ].
  cbn [ebind].
  destruct (py_slice 0 (num_targets request) found) as [head | e] eqn:Es;
    [ | discriminate ].
  cbn [ebind]. intro H. injection H as <-.
  cbn [birds recommendations species_analyzed date targets_agent].
  repeat split.
  destruct found; try discriminate Es; cbn in Es; injection Es as <-.
  - right. eexists. split; [ reflexivity | ].
    apply slice_string_length. exact Hn.
  - left. eexists. split; [ reflexivity | ].
    apply slice_list_length. exact Hn.
Qed.

(** X15: when the targets handler returns a body, its birds are at
    most as many as the request asks for ([num_targets], which the
    schema keeps between 1 and 3); a body that carries the raw reply
    under [recommendations] has no birds; the body counts all the
    species of the request, also those beyond the 30 named in the
    prompt. *)
Theorem targets_at_most_requested (env : agent_env) (current_date : string)
    (request : AreaBasedTargetsRequest) (w : world) (body : targets_reply) :
  (0 <= num_targets request)%Z ->
  snd (get_area_based_targets env current_date request w) = Ok body ->
  at_most (Z.to_nat (num_targets request)) (birds body)
  /\ (recommendations body <> None -> birds body = JArr [])
  /\ species_analyzed body = List.length (species request)
  /\ date body = current_date
  /\ targets_agent body = "Life List Coach".
Proof.
  intros Hn.
  destruct (species request) as [ | s0 rest] eqn:Esp.
  { unfold get_area_based_targets. rewrite Esp.
    destruct (get_agent LIFELIST w). discriminate. }
  rewrite targets_result by (rewrite Esp; discriminate).
  destruct (env LIFELIST (targets_prompt request current_date)) as [r | e];
    [ | discriminate ].
  cbn [ebind]. unfold extract_targets.
  destruct (as_text (response_text_of r)) as [raw | e]; [ | discriminate ].
  cbn [ebind].
  assert (Hraw : forall b,
            Ok (raw_text_fallback request current_date raw) = Ok b ->
            at_most (Z.to_nat (num_targets request)) (birds b)
            /\ (recommendations b <> None -> birds b = JArr [])
            /\ species_analyzed b = List.length (s0 :: rest)
            /\ date b = current_date
            /\ targets_agent b = "Life List Coach").
  { intros b H. injection H as <-. cbn. rewrite Esp. repeat split.
    left. exists []. split; [ reflexivity | cbn; lia ]. }
  destruct (decode_targets request current_date (unfenced raw))
    as [b | [cls msg]] eqn:Ed.
  - cbn. intro H. injection H as <-.
    destruct (decode_targets_limits request current_date _ b Hn Ed)
      as (H1 & H2 & H3 & H4 & H5).
    rewrite Esp in H3. repeat split; auto. intro Hr. congruence.
  - destruct cls; cbn; try discriminate. apply Hraw.
Qed.

Lemma targets_at_most_requested_witness :
  let body := {| birds := three_birds; recommendations := None;
                 species_analyzed := 1; date := "May 01, 2025";
                 targets_agent := "Life List Coach" |} in
  at_most (Z.to_nat (num_targets one_owl)) (birds body)
  /\ (recommendations body <> None -> birds body = JArr [])
  /\ species_analyzed body = List.length (species one_owl)
  /\ date body = "May 01, 2025"
  /\ targets_agent body = "Life List Coach".
Proof.
  intro body.
  apply (targets_at_most_requested (answering four_birds) "May 01, 2025"
           one_owl fresh body).
  - cbn. lia.
  - reflexivity.
Defined.

(** X16: a reply that is valid JSON but not an object - a list of
    birds, a text in quotes, [null] - makes the targets handler fail
    with HTTP 500: the fallback to the raw text is for text that is not
    JSON only.  The detail names the type that has no [get]. *)
Theorem targets_need_an_object (current_date : string)
    (request : AreaBasedTargetsRequest) (w : world) (raw : string) (v : json) :
  species request <> [] ->
  json_loads (unfenced raw) = Return v ->
  (forall d, v <> JObj d) ->
  (forall q, v <> JNum q) ->
  targets_for current_date request w raw
  = HTTPException 500
      ("Agent error: '" ++ type_name v ++ "' object has no attribute 'get'").
Proof.
  intros Hs Hv Hobj Hnum.
  rewrite (HandlerFacts.targets_for_extract current_date request w raw Hs).
  unfold extract_targets. cbn [response_text_of as_text ebind].
  unfold decode_targets. rewrite Hv. cbn [ebind].
  destruct v; try reflexivity.
  exfalso. exact (Hobj fields eq_refl).
Qed.

Lemma targets_need_an_object_witness :
  targets_for "May 01, 2025" one_owl fresh
    (quoted "[{'species': 'Ruff'}]")
  = HTTPException 500 "Agent error: 'list' object has no attribute 'get'".
Proof.
  apply (targets_need_an_object "May 01, 2025" one_owl fresh
           (quoted "[{'species': 'Ruff'}]")
           (JArr [JObj [("species", JStr "Ruff")]])).
  - discriminate.
  - reflexivity.
  - discriminate.
  - discriminate.
Defined.

(** ** The span of the braces decodes to an object or not at all *)







Example tours_null_fails :
  tours_for plain_repr "Boston" fresh (quoted "{'tours': null}")
  = HTTPException 500 "Agent error: 'NoneType' object is not subscriptable".
Proof. reflexivity. Qed.

End HandlerMore.

(* ================================================================== *)
(** * The handlers that call eBird directly *)

Module EndpointFacts.
Import Py WeatherSpec ClientSpec MoreSpec Endpoints.

Unset Implicit Arguments.

Lemma rows_of_dicts (entries : list (string * string * json))
    (items : list json) :
  Forall is_dict items ->
  for_each (fun t => d <- EBird.project t entries ;; Return (JObj d))%exc items
  = Return (map (row_of entries) items).
Proof.
  intro H. apply WeatherMore.for_each_map. intros t Ht.
  rewrite Forall_forall in H. destruct (H t Ht) as (d & ->).
  rewrite ClientFacts.project_pure. reflexivity.
Qed.

(** The three ways a call of [fetch_json] ends. *)
Lemma fetch_json_cases (r : request) (net : transport) :
  (exists resp v,
      net r = Return resp /\ raise_for_status resp = Return tt
      /\ json_body resp = Return v
      /\ fetch_json r net [] = ([r], Return v))
  \/ (exists e,
         fetch_json r net [] = ([r], Raise e)
         /\ (net r = Raise e
             \/ exists resp,
                 net r = Return resp
                 /\ (raise_for_status resp = Raise e
                     \/ (raise_for_status resp = Return tt
                         /\ json_body resp = Raise e)))).
Proof.
  unfold fetch_json, io_bind, client_get, lift. cbn [app].
  destruct (net r) as [resp | e] eqn:En.
  - destruct (raise_for_status resp) as [[] | e] eqn:Es.
    + destruct (json_body resp) as [v | e] eqn:Ej.
      * left. exists resp, v. auto.
      * right. exists e. split; [ reflexivity | ].
        right. exists resp. auto.
    + right. exists e. split; [ reflexivity | ].
      right. exists resp. auto.
  - right. exists e. split; [ reflexivity | left; reflexivity ].
Qed.



Lemma key_present (settings : Settings) :
  ebird_api_key settings <> "" ->
  String.eqb (ebird_api_key settings) "" = false.
Proof. intro H. apply String.eqb_neq. exact H. Qed.

Lemma without_latest_row (t : json) :
  is_dict t ->
  without_latest (row_of EBird.hotspot_entries t) = row_of hotspot_fields t.
Proof. intros (d & ->). reflexivity. Qed.

(** X18: the hotspot handler of the API and the hotspot tool of the
    agents agree.  With the key configured, whenever the tool asked for
    20 hotspots returns rows, the handler sends the same one request
    and returns the same rows, less the date of the latest observation,
    together with their number, which is 20 at most. *)
Theorem hotspots_handler_matches_tool (settings : Settings) (la lo : Q)
    (dist : Z) (net : transport) (rows : list json) :
  ebird_api_key settings <> "" ->
  snd (EBird.get_nearby_hotspots (EBird.init (ebird settings)) la lo dist 20 net)
  = Str_of rows ->
  get_nearby_hotspots settings la lo dist net
  = (fst (EBird.get_nearby_hotspots (EBird.init (ebird settings))
            la lo dist 20 net),
     Sent {| hotspots := map without_latest rows;
             hotspots_count := List.length rows |})
  /\ (List.length rows <= 20)%nat.
Proof.
  intros Hk.
  unfold get_nearby_hotspots, with_ebird_key, EBird.get_nearby_hotspots, tool.
  rewrite (key_present _ Hk).
  unfold get_nearby_hotspots_body, EBird.get_nearby_hotspots_body, io_bind.
  change (EBird.hotspots_request (EBird.init (ebird settings)) la lo dist)
    with (hotspots_request settings la lo dist).
  destruct (fetch_json (hotspots_request settings la lo dist) net [])
    as [log [found | e]]; [ | discriminate ].
  unfold lift. cbn [fst snd].
  destruct (py_slice 0 20 found) as [head | e] eqn:Es; [ | discriminate ].
  destruct (HandlerMore.sliced_items 20 found head ltac:(lia) Es)
    as (items & Hi & Hn).
  cbn [ebind]. rewrite Hi. cbn [ebind].
  destruct (for_each _ items) as [l | e] eqn:El; [ | discriminate ].
  cbn [ebind try_except]. intro H. injection H as <-.
  apply ClientFacts.rows_pure in El; [ | discriminate ].
  destruct El as (Hall & ->).
  rewrite (rows_of_dicts hotspot_fields items Hall). cbn [ebind or_ebird_error].
  rewrite !length_map. change (Z.to_nat 20) with 20%nat in Hn.
  split; [ | exact Hn ].
  do 3 f_equal. rewrite map_map. apply map_ext_in.
  intros t Ht. rewrite Forall_forall in Hall.
  symmetry. apply without_latest_row. exact (Hall t Ht).
Qed.

Lemma hotspots_handler_matches_tool_witness :
  exists rows,
    get_nearby_hotspots ebird_only 0 0 80 (serve four_spots)
    = (fst (EBird.get_nearby_hotspots (EBird.init (ebird ebird_only))
              0 0 80 20 (serve four_spots)),
       Sent {| hotspots := map without_latest rows;
               hotspots_count := List.length rows |})
    /\ (List.length rows <= 20)%nat.
Proof.
  eexists.
  apply (hotspots_handler_matches_tool ebird_only 0 0 80 (serve four_spots)).
  - discriminate.
  - reflexivity.
Defined.

(** ** How the handlers fail *)





(** The part of the loop of [get_rare_birds] that can fail is the
    construction of the row. *)
Lemma sighting_section_dict (py_repr : json -> string)
    (d : list (string * json)) :
  exists text,
    sighting_section py_repr (JObj d)
    = Return (row_of EBird.observation_entries (JObj d), text).
Proof.
  unfold sighting_section. rewrite ClientFacts.project_pure. cbn [ebind].
  eexists. reflexivity.
Qed.


Lemma sighting_sections (py_repr : json -> string) (items : list json) :
  Forall is_dict items ->
  exists sections,
    for_each (sighting_section py_repr) items = Return sections
    /\ map fst sections = map (row_of EBird.observation_entries) items.
Proof.
  induction 1 as [ | t items (d & ->) _ (sections & Hs & IH)].
  - exists []. split; reflexivity.
  - destruct (sighting_section_dict py_repr d) as (text & Ht).
    exists ((row_of EBird.observation_entries (JObj d), text) :: sections).
    cbn [for_each]. rewrite Ht. cbn [ebind]. rewrite Hs.
    cbn [ebind map fst]. rewrite IH. split; reflexivity.
Qed.

Lemma first_twenty (A : Type) (l : list A) : slice_list 0 20 l = firstn 20 l.
Proof. exact (@ClientFacts.head_slice A 20 l). Qed.


Example list_of_numbers_escapes :
  snd (get_nearby_hotspots ebird_only 0 0 25 (serve (JArr [JNull])))
  = Escaped (Exn AttributeError "'NoneType' object has no attribute 'get'")
  /\ get_nearby_hotspots ebird_only 0 0 25
       (failing (Exn TransportError "timed out"))
     = ([hotspots_request ebird_only 0 0 25],
        Refused 500 "eBird API error: timed out").
Proof. split; reflexivity. Qed.

(** ** The text and the list of [get_rare_birds] *)

Lemma fetch_json_ok (r : request) (net : transport) (resp : response)
    (v : json) :
  net r = Return resp -> raise_for_status resp = Return tt ->
  json_body resp = Return v ->
  fetch_json r net [] = ([r], Return v).
Proof.
  intros Hn Hs Hj. unfold fetch_json, io_bind, client_get, lift.
  rewrite Hn, Hs, Hj. reflexivity.
Qed.

(** X20: [get_rare_birds] lists the first 20 sightings of the answer
    and counts the sightings it lists, whereas its text opens with the
    number of all the sightings of the answer and with the radius that
    was asked for; the radius sent to eBird is 50 km at most. *)
Theorem rare_birds_text_counts_all (py_repr : json -> string)
    (settings : Settings) (la lo : Q) (dist days : Z) (net : transport)
    (resp : response) (items : list json) :
  ebird_api_key settings <> "" ->
  net (rare_birds_request settings la lo dist days) = Return resp ->
  raise_for_status resp = Return tt ->
  json_body resp = Return (JArr items) ->
  Forall is_dict items ->
  exists body rest,
    get_rare_birds py_repr settings la lo dist days net
    = ([rare_birds_request settings la lo dist days], Sent body)
    /\ birds body = map (row_of EBird.observation_entries) (firstn 20 items)
    /\ count body = Nat.min 20 (List.length items)
    /\ rare_birds body
       = "## Rare Bird Sightings" ++ nl ++ nl
         ++ "**" ++ decimal (List.length items)
         ++ " notable sightings found within " ++ py_int dist ++ " km:**"
         ++ nl ++ nl ++ rest
    /\ In ("dist", PInt (Z.min dist 50))
          (req_params (rare_birds_request settings la lo dist days)).
Proof.
  intros Hk Hn Hs Hj Hall.
  assert (Hall' : Forall is_dict (firstn 20 items)).
  { apply Forall_forall. intros t Ht. rewrite Forall_forall in Hall.
    apply Hall. eapply ClientFacts.in_firstn. exact Ht. }
  destruct (sighting_sections py_repr _ Hall') as (sections & Hsec & Hrows).
  unfold get_rare_birds, with_ebird_key. rewrite (key_present _ Hk).
  unfold get_rare_birds_body, io_bind.
  rewrite (fetch_json_ok _ _ _ _ Hn Hs Hj). unfold lift.
  cbn [py_len py_slice py_iter ebind]. rewrite first_twenty, Hsec.
  cbn [ebind or_ebird_error].
  eexists. exists (String.concat "" (map snd sections)).
  split; [ reflexivity | ]. cbn [birds count rare_birds].
  rewrite Hrows, length_map, length_firstn.
  split; [ reflexivity | ]. split; [ reflexivity | ].
  split.
  - unfold rare_birds_header.
    rewrite !HandlerFacts.append_assoc. reflexivity.
  - cbn. auto.
Qed.

Lemma rare_birds_text_counts_all_witness :
  exists body rest,
    get_rare_birds plain_repr ebird_only 0 0 80 7 (serve crowded_feed)
    = ([rare_birds_request ebird_only 0 0 80 7], Sent body)
    /\ birds body
       = map (row_of EBird.observation_entries)
             (repeat (JObj [("comName", JStr "Ruff")]) 20)
    /\ count body = 20%nat
    /\ rare_birds body
       = "## Rare Bird Sightings" ++ nl ++ nl
         ++ "**21 notable sightings found within 80 km:**" ++ nl ++ nl ++ rest
    /\ In ("dist", PInt 50)
          (req_params (rare_birds_request ebird_only 0 0 80 7)).
Proof.
  apply (rare_birds_text_counts_all plain_repr ebird_only 0 0 80 7
           (serve crowded_feed) (Response (Return tt) (Return crowded_feed))
           (repeat (JObj [("comName", JStr "Ruff")]) 21)).
  - discriminate.
  - reflexivity.
  - reflexivity.
  - reflexivity.
  - apply Forall_forall. intros t Ht. apply repeat_spec in Ht. subst t.
    eexists. reflexivity.
Defined.

(** ** The cascade of [get_alerts] *)

(** X21: [get_alerts] cannot tell a failure of eBird from an answer
    without sightings.  When the call of eBird raises, or returns a
    value that counts as false (the empty list), the reply is the one
    the handler gives without the eBird key: the text of the agent when
    the key of the language model is set, and otherwise HTTP 500 with
    a detail that says no key is configured. *)
Theorem alerts_failure_is_silent (py_repr : json -> string)
    (fixed4 : Q -> string) (settings : Settings) (env : alerts_env)
    (la lo : Q) (dist : Z) (net : transport) (w : Main.world) :
  (forall resp v,
      net (alerts_request settings la lo dist) = Return resp ->
      raise_for_status resp = Return tt ->
      json_body resp = Return v -> truthy v = false) ->
  snd (get_alerts py_repr fixed4 settings env la lo dist net w)
  = snd (get_alerts py_repr fixed4 (without_ebird_key settings) env
           la lo dist net w)
  /\ fst (fst (get_alerts py_repr fixed4 settings env la lo dist net w))
     = fst (fst (get_alerts py_repr fixed4 (without_ebird_key settings) env
                   la lo dist net w))
  /\ (openai_api_key settings = "" ->
      snd (get_alerts py_repr fixed4 settings env la lo dist net w)
      = Refused 500
          "No API keys configured. Please set EBIRD_API_KEY and/or OPENAI_API_KEY in your .env file.")
  /\ (openai_api_key settings <> "" ->
      snd (get_alerts py_repr fixed4 settings env la lo dist net w)
      = match env la lo dist with
        | Return r => Sent (FromAgent (Main.response_text_of r) (la, lo))
        | Raise e =>
            Refused 500 ("Agent error: " ++ exn_msg e
                         ++ ". Make sure OPENAI_API_KEY is set.")
        end).
Proof.
  intro H.
  assert (Hdata : truthy (snd (rare_birds_data settings la lo dist net))
                  = false).
  { unfold rare_birds_data.
    destruct (String.eqb (ebird_api_key settings) ""); [ reflexivity | ].
    destruct (fetch_json_cases (alerts_request settings la lo dist) net)
      as [(resp & v & Hn & Hs & Hj & ->) | (e & -> & _)].
    - exact (H resp v Hn Hs Hj).
    - reflexivity. }
  unfold get_alerts.
  destruct (rare_birds_data settings la lo dist net) as [log data].
  cbn [snd] in Hdata. rewrite Hdata.
  unfold rare_birds_data. cbn [without_ebird_key ebird_api_key ebird
    EBird.ebird_api_key openai_api_key String.eqb truthy].
  unfold agent_alerts.
  destruct (String.eqb (openai_api_key settings) "") eqn:Eo; cbn [negb].
  - apply String.eqb_eq in Eo. repeat split; try reflexivity. congruence.
  - apply String.eqb_neq in Eo.
    destruct (Main.get_agent Main.COMMUNITY w) as [w1 a].
    repeat split; try reflexivity. congruence.
Qed.

Lemma alerts_failure_is_silent_witness :
  snd (get_alerts plain_repr sample_fixed4 ebird_only silent_agent 1 2 50
         (failing (Exn TransportError "timed out")) HandlerSpec.fresh)
  = Refused 500
      "No API keys configured. Please set EBIRD_API_KEY and/or OPENAI_API_KEY in your .env file.".
Proof.
  destruct (alerts_failure_is_silent plain_repr sample_fixed4 ebird_only
              silent_agent 1 2 50 (failing (Exn TransportError "timed out"))
              HandlerSpec.fresh) as (_ & _ & H & _).
  - intros resp v Hn. discriminate Hn.
  - exact (H eq_refl).
Defined.

Lemma alert_section_row (py_repr : json -> string) (fixed4 : Q -> string)
    (t : json) (text : string) (l : list json) :
  alert_section py_repr fixed4 t = Return (text, l) ->
  l = if located t then [row_of alert_entries t] else [].
Proof.
  destruct t as [ | | | | | d]; try discriminate.
  unfold alert_section. cbn [py_get ebind located].
  fold (lookup d "lat" JNull). fold (lookup d "lng" JNull).
  destruct (truthy (lookup d "lat" JNull) && truthy (lookup d "lng" JNull)).
  - destruct (format_fixed4 fixed4 (lookup d "lat" JNull)); [ | discriminate ].
    cbn [ebind].
    destruct (format_fixed4 fixed4 (lookup d "lng" JNull)); [ | discriminate ].
    cbn [ebind]. intro H. injection H as _ <-. reflexivity.
  - intro H. injection H as _ <-. reflexivity.
Qed.

Lemma alert_sections_rows (py_repr : json -> string) (fixed4 : Q -> string) :
  forall (items : list json) (sections : list (string * list json)),
    for_each (alert_section py_repr fixed4) items = Return sections ->
    List.concat (map snd sections)
    = map (row_of alert_entries) (filter located items).
Proof.
  induction items as [ | t items IH]; intros sections H; cbn [for_each] in H.
  - injection H as <-. reflexivity.
  - destruct (alert_section py_repr fixed4 t) as [[text l] | ] eqn:Et;
      [ | discriminate H ].
    cbn [ebind] in H.
    destruct (for_each (alert_section py_repr fixed4) items) as [rest | ];
      [ | discriminate H ].
    cbn [ebind] in H. injection H as <-.
    cbn [map snd List.concat filter].
    rewrite (IH rest eq_refl), (alert_section_row _ _ _ _ _ Et).
    destruct (located t); reflexivity.
Qed.

(** X22: when eBird answers with a list of sightings that is not
    empty and [get_alerts] returns a body, the body is the direct one;
    its count is the number of all the sightings of the answer; its
    list for the map holds, of the first 20 sightings, those whose
    latitude and longitude both count as true, so that a sighting on
    the equator or on the prime meridian is left out; the agent is
    neither created nor run. *)
Theorem alerts_direct_answer (py_repr : json -> string)
    (fixed4 : Q -> string) (settings : Settings) (env : alerts_env)
    (la lo : Q) (dist : Z) (net : transport) (w : Main.world)
    (resp : response) (items : list json) (a : alerts_reply) :
  ebird_api_key settings <> "" ->
  net (alerts_request settings la lo dist) = Return resp ->
  raise_for_status resp = Return tt ->
  json_body resp = Return (JArr items) ->
  items <> [] ->
  snd (get_alerts py_repr fixed4 settings env la lo dist net w) = Sent a ->
  (exists text,
      a = Direct text
            (map (row_of alert_entries) (filter located (firstn 20 items)))
            (la, lo) (List.length items))
  /\ agent_of a = "eBird API Direct"
  /\ fst (fst (get_alerts py_repr fixed4 settings env la lo dist net w)) = w
  /\ (forall env',
         get_alerts py_repr fixed4 settings env' la lo dist net w
         = get_alerts py_repr fixed4 settings env la lo dist net w).
Proof.
  intros Hk Hn Hs Hj Hne.
  unfold get_alerts, rare_birds_data. rewrite (key_present _ Hk).
  rewrite (fetch_json_ok _ _ _ _ Hn Hs Hj).
  destruct items as [ | t0 items0] eqn:Ei; [ congruence | ].
  rewrite <- Ei in *. assert (Ht : truthy (JArr items) = true)
    by (rewrite Ei; reflexivity).
  rewrite Ht. cbn [fst snd].
  unfold direct_alerts. cbn [py_len ebind].
  assert (Hlen : (List.length items =? 0)%nat = false)
    by (rewrite Ei; reflexivity).
  rewrite Hlen. cbn [py_slice py_iter ebind]. rewrite first_twenty.
  destruct (for_each (alert_section py_repr fixed4) (firstn 20 items))
    as [sections | e] eqn:Es; cbn [ebind]; [ | discriminate ].
  intro H. injection H as <-.
  rewrite (alert_sections_rows _ _ _ _ Es).
  split; [ eexists; reflexivity | ].
  split; [ reflexivity | ]. split; reflexivity.
Qed.

Lemma alerts_direct_answer_witness :
  exists a,
    snd (get_alerts plain_repr sample_fixed4 ebird_only silent_agent 1 2 50
           (serve equator_feed) HandlerSpec.fresh)
    = Sent a
    /\ exists text,
         a = Direct text
               [JObj [("species", JStr "Dunlin"); ("scientific_name", JStr "");
                      ("location", JStr "Unknown location");
                      ("date", JStr "Unknown date"); ("count", JStr "X");
                      ("lat", JNum 1); ("lng", JNum 2)]]
               (1, 2) 2.
Proof.
  eexists. split; [ vm_compute; reflexivity | ].
  destruct (alerts_direct_answer plain_repr sample_fixed4 ebird_only
              silent_agent 1 2 50 (serve equator_feed) HandlerSpec.fresh
              (Response (Return tt) (Return equator_feed))
              [JObj [("comName", JStr "Ruff"); ("lat", JNum 0);
                     ("lng", JNum 2)];
               JObj [("comName", JStr "Dunlin"); ("lat", JNum 1);
                     ("lng", JNum 2)]]
              _ ltac:(discriminate) eq_refl eq_refl eq_refl
              ltac:(discriminate) eq_refl)
    as (H & _).
  exact H.
Defined.

(** ** The handler of the conditions *)

Lemma tool_log (A : Type) (label : string) (r : request)
    (k : json -> exc A) (net : transport) :
  fst (tool label (found <- fetch_json r ;; lift (k found))%io net) = [r].
Proof.
  unfold tool, io_bind, lift.
  destruct (fetch_json_cases r net)
    as [(resp & v & _ & _ & _ & ->) | (e & -> & _)]; reflexivity.
Qed.

(** X23: the handler of the conditions sends exactly two requests,
    the one of the conditions tool and then the one of the forecast
    tool, and returns the text of each tool beside the other.  It has no
    failure of its own: when the weather service is down the body
    carries the two error texts. *)
Theorem conditions_handler_two_calls (la lo : Q) (net : transport) :
  fst (get_birding_conditions la lo net)
  = [Weather.conditions_request la lo; Weather.forecast_request la lo]
  /\ snd (get_birding_conditions la lo net)
     = (snd (Weather.get_birding_conditions la lo net),
        snd (Weather.get_weather_forecast la lo net))
  /\ (forall e, (forall r, net r = Raise e) ->
        snd (get_birding_conditions la lo net)
        = (Text ("Error analyzing birding conditions: " ++ exn_msg e),
           Text ("Error fetching weather: " ++ exn_msg e))).
Proof.
  unfold get_birding_conditions.
  pose proof (tool_log _ "Error analyzing birding conditions: "
                (Weather.conditions_request la lo)
                (fun data => Weather.analyze data) net) as H1.
  pose proof (tool_log _ "Error fetching weather: "
                (Weather.forecast_request la lo)
                (fun data => Weather.summarize data) net) as H2.
  change (fst (Weather.get_birding_conditions la lo net)
          = [Weather.conditions_request la lo]) in H1.
  change (fst (Weather.get_weather_forecast la lo net)
          = [Weather.forecast_request la lo]) in H2.
  split; [ | split ].
  - destruct (Weather.get_birding_conditions la lo net) as [log1 c].
    destruct (Weather.get_weather_forecast la lo net) as [log2 f].
    cbn [fst] in *. subst. reflexivity.
  - destruct (Weather.get_birding_conditions la lo net) as [log1 c].
    destruct (Weather.get_weather_forecast la lo net) as [log2 f].
    reflexivity.
  - intros e He.
    assert (Hf : forall r, fetch_json r net [] = ([r], Raise e)).
    { intro r. unfold fetch_json, io_bind, client_get. rewrite He.
      reflexivity. }
    unfold Weather.get_birding_conditions, Weather.get_weather_forecast, tool,
      Weather.get_birding_conditions_body, Weather.get_weather_forecast_body,
      io_bind.
    rewrite !Hf. reflexivity.
Qed.

End EndpointFacts.

(* ================================================================== *)
(** * The message of the chat handlers *)

Module ChatFacts.
Import Py MoreSpec Chat.

Unset Implicit Arguments.

Lemma history_loop_map (h : list ChatMessage) :
  forall lines : list string,
    history_loop lines h
    = (lines ++ map (fun m => (speaker m ++ ": " ++ content m)%string) h)%list.
Proof.
  induction h as [ | m h IH]; intro lines; cbn [history_loop map].
  - rewrite app_nil_r. reflexivity.
  - rewrite IH, <- app_assoc. reflexivity.
Qed.

Lemma concat_ends (sep x : string) :
  forall parts : list string,
    exists before, String.concat sep (parts ++ [x]) = before ++ x.
Proof.
  induction parts as [ | p parts (before & IH)].
  - exists "". reflexivity.
  - cbn [app]. destruct (parts ++ [x])%list as [ | y l] eqn:E.
    + destruct parts; discriminate E.
    + exists (p ++ sep ++ before).
      change (String.concat sep (p :: y :: l))
        with (p ++ sep ++ String.concat sep (y :: l)).
      rewrite IH, !HandlerFacts.append_assoc. reflexivity.
Qed.

(** X24: [chat] and [chat_stream] hand the same message to the agent,
    although one builds the lines of the history in a loop and the
    other in a comprehension.  The message ends with the current user
    message under its heading, and it is nothing but that when the
    context is absent or empty and the history is absent or empty.  A
    message of the history is attributed to the user only when its role
    is exactly [user]. *)
Theorem chat_and_stream_same_message (py_repr : json -> string)
    (request : ChatRequest) :
  chat_message py_repr request = stream_message py_repr request
  /\ (exists before,
         chat_message py_repr request
         = before ++ "Current user message: " ++ message request)
  /\ ((context request = None \/ context request = Some []) ->
      (history request = None \/ history request = Some []) ->
      chat_message py_repr request
      = "Current user message: " ++ message request)
  /\ (forall m, role m <> "user" -> speaker m = "Assistant").
Proof.
  split; [ | split; [ | split ] ].
  - unfold chat_message, stream_message.
    destruct (history request) as [[ | m rest] | ]; try reflexivity.
    rewrite history_loop_map. reflexivity.
  - unfold chat_message. apply concat_ends.
  - intros Hc Hh. unfold chat_message, context_parts.
    destruct Hc as [-> | ->]; destruct Hh as [-> | ->]; reflexivity.
  - intros m Hm. unfold speaker.
    destruct (String.eqb_spec (role m) "user"); [ contradiction | reflexivity ].
Qed.

Example follow_up_message :
  stream_message plain_repr follow_up
  = "Context (use this when relevant):" ++ Endpoints.nl
    ++ "place: Boston" ++ Endpoints.nl ++ Endpoints.nl
    ++ "Previous conversation:" ++ Endpoints.nl
    ++ "User: Where are the owls?" ++ Endpoints.nl
    ++ "Assistant: At the coast." ++ Endpoints.nl ++ Endpoints.nl
    ++ "Current user message: And in winter?".
Proof. reflexivity. Qed.

End ChatFacts.
